(** * Battle Room Coordinator: the room store and its clients

    A shallow embedding of the multiplayer "battle" subsystem:
    - [Battle.tsx]      (lobby: [createRoomMutation], [joinRoomByCodeMutation]);
    - [BattleRoom.tsx]  (waiting room: countdown effect, interval tick,
      participants effect, [leaveRoomMutation], [startBattleMutation]).

    The hosted backend is the only shared state.  Every client request is
    an asynchronous call that suspends the caller, so a client function is
    embedded as a tree of store calls ([Prog]); a tree is run either to
    completion ([run]) or one call at a time, interleaved with the trees of
    other clients ([interleave]). *)

From Stdlib Require Import ZArith List String Ascii Bool Lia Permutation.
Import ListNotations.

Local Open Scope string_scope.
Local Open Scope Z_scope.

(* ================================================================== *)
(** ** Rows *)

(** [RoomData.battle_type]: '1v1' | '2v2' | 'ffa'. *)
Inductive BattleType : Type := B1v1 | B2v2 | Bffa.

(** [RoomData.status]: 'waiting' | 'in_progress' | 'completed'. *)
Inductive Status : Type := waiting | in_progress | completed.

Definition BattleType_eqb (a b : BattleType) : bool :=
  match a, b with
  | B1v1, B1v1 | B2v2, B2v2 | Bffa, Bffa => true
  | _, _ => false
  end.

Definition Status_eqb (a b : Status) : bool :=
  match a, b with
  | waiting, waiting | in_progress, in_progress | completed, completed => true
  | _, _ => false
  end.

(** A row of [battle_participants].  [p_created_at] is the value of
    [new Date(created_at).getTime()]: milliseconds since the epoch. *)
Record Participant : Type := mkParticipant {
  p_id : string;
  battle_room_id : string;
  user_id : string;
  username : string;
  p_created_at : Z
}.

(** A row of [battle_rooms].  Timestamps are milliseconds since the
    epoch; a SQL null is [None]. *)
Record Room : Type := mkRoom {
  id : string;
  room_code : string;
  battle_type : BattleType;
  max_players : Z;
  status : Status;
  time_per_question : Z;
  total_questions : Z;
  subject : string;
  host_id : string;
  host_ping_requested_at : option Z;
  last_ping_sender_id : option string;
  last_ping_sender_username : option string;
  countdown_initiated_at : option Z;
  created_at : Z
}.

(** [RoomData]: a room row with its embedded participant rows, as the
    [select('*, battle_participants(...)')] queries return it. *)
Record RoomData : Type := mkRoomData {
  row :> Room;
  battle_participants : list Participant
}.

(** The two tables. *)
Record Store : Type := mkStore {
  rooms : list Room;
  participants : list Participant
}.

Definition empty_store : Store := mkStore [] [].

(* ================================================================== *)
(** ** Store requests *)

(** The columns an [update] may set; [None] leaves a column alone. *)
Record Patch : Type := mkPatch {
  set_status : option Status;
  set_countdown_initiated_at : option (option Z);
  set_host_id : option string;
  set_host_ping_requested_at : option (option Z);
  set_last_ping_sender_id : option (option string);
  set_last_ping_sender_username : option (option string)
}.

Definition keep {A : Type} (o : option A) (old : A) : A :=
  match o with Some v => v | None => old end.

Definition apply_patch (p : Patch) (r : Room) : Room :=
  mkRoom (id r) (room_code r) (battle_type r) (max_players r)
         (keep (set_status p) (status r))
         (time_per_question r) (total_questions r) (subject r)
         (keep (set_host_id p) (host_id r))
         (keep (set_host_ping_requested_at p) (host_ping_requested_at r))
         (keep (set_last_ping_sender_id p) (last_ping_sender_id r))
         (keep (set_last_ping_sender_username p) (last_ping_sender_username r))
         (keep (set_countdown_initiated_at p) (countdown_initiated_at r))
         (created_at r).

(** The error object of the backend client. *)
Record PgError : Type := mkPgError { code : string; message : string }.

(** [.single()] found no row, or more than one. *)
Definition PGRST116 : PgError :=
  mkPgError "PGRST116" "JSON object requested, multiple (or no) rows returned".

(** Primary key violation on insert. *)
Definition unique_violation : PgError :=
  mkPgError "23505" "duplicate key value violates unique constraint".

(** The requests the clients send, indexed by what a successful reply
    carries. *)
Inductive Query : Type -> Type :=
| InsertRoom (room_code' : string) (battle_type' : BattleType)
             (max_players' time_per_question' total_questions' : Z)
             (subject' host_id' : string) (status' : Status) : Query Room
| InsertParticipant (battle_room_id' user_id' username' : string) : Query unit
| SelectWaitingByCode (room_code' : string) : Query RoomData
| SelectRoomById (id' : string) : Query RoomData
| UpdateRoom (id' : string) (p : Patch) : Query unit
| DeleteRoom (id' : string) : Query unit
| DeleteParticipant (battle_room_id' user_id' : string) : Query unit.

(** What the backend decides for one request: whether it fails (network,
    policy, constraint), and the generated id and [now()] default of an
    inserted row. *)
Record Tick : Type := mkTick {
  fault : option PgError;
  uuid : string;
  at_ms : Z
}.

Definition quiet : Tick := mkTick None "" 0.

Definition participants_of (s : Store) (rid : string) : list Participant :=
  filter (fun p => battle_room_id p =? rid)%string (participants s).

Definition with_participants (s : Store) (r : Room) : RoomData :=
  mkRoomData r (participants_of s (id r)).

Definition single {A : Type} (l : list A) : PgError + A :=
  match l with
  | [x] => inr x
  | _ => inl PGRST116
  end.

(** The store's answer to one request.  A failed request changes
    nothing.  [update] and [delete] apply to every row the [eq] filters
    select, and to nothing else: no filter looks at a column the request
    does not name. *)
Definition answer {R : Type} (q : Query R) (t : Tick) (s : Store)
  : Store * (PgError + R) :=
  match fault t with
  | Some e => (s, inl e)
  | None =>
    match q in Query R0 return Store * (PgError + R0) with
    | InsertRoom c bt mp tpq tq subj host st =>
        if existsb (fun r => id r =? uuid t)%string (rooms s)
        then (s, inl unique_violation)
        else
          let r := mkRoom (uuid t) c bt mp st tpq tq subj host
                          None None None None (at_ms t) in
          (mkStore (rooms s ++ [r]) (participants s), inr r)
    | InsertParticipant rid u name =>
        if existsb (fun p => p_id p =? uuid t)%string (participants s)
        then (s, inl unique_violation)
        else
          let p := mkParticipant (uuid t) rid u name (at_ms t) in
          (mkStore (rooms s) (participants s ++ [p]), inr tt)
    | SelectWaitingByCode c =>
        (s, single (map (with_participants s)
                        (filter (fun r => (room_code r =? c)%string
                                          && Status_eqb (status r) waiting)
                                (rooms s))))
    | SelectRoomById rid =>
        (s, single (map (with_participants s)
                        (filter (fun r => id r =? rid)%string (rooms s))))
    | UpdateRoom rid p =>
        (mkStore (map (fun r => if (id r =? rid)%string
                                then apply_patch p r else r) (rooms s))
                 (participants s), inr tt)
    | DeleteRoom rid =>
        (mkStore (filter (fun r => negb (id r =? rid)%string) (rooms s))
                 (participants s), inr tt)
    | DeleteParticipant rid u =>
        (mkStore (rooms s)
                 (filter (fun p => negb ((battle_room_id p =? rid)%string
                                         && (user_id p =? u)%string))
                         (participants s)), inr tt)
    end
  end.

(* ================================================================== *)
(** ** Client programs *)

Inductive BattleView : Type := lobby | room_waiting | game_active | game_results.

(** What a client does besides talking to the store. *)
Inductive Ui : Type :=
| Toast (title description : string)
| SetCountdown (c : option Z)
| ClearInterval
| SetInterval
| SetIsLeaving (b : bool)
| OnLeave
| InvalidateQueries (queryKey : string)
| SetCurrentRoomId (rid : option string)
| SetCurrentView (v : BattleView).

(** A thrown value: [new Error(msg)] or a backend error object. *)
Inductive Err : Type :=
| JsError (msg : string)
| PgErr (e : PgError).

Definition err_message (e : Err) : string :=
  match e with
  | JsError m => m
  | PgErr e => message e
  end.

(** An async function: it returns, throws, does something local, or
    awaits a store request and goes on with the reply. *)
Inductive Prog (A : Type) : Type :=
| Ret (a : A)
| Throw (e : Err)
| Emit (u : Ui) (k : Prog A)
| Call (R : Type) (q : Query R) (k : PgError + R -> Prog A).

Arguments Ret {A} a.
Arguments Throw {A} e.
Arguments Emit {A} u k.
Arguments Call {A R} q k.

Fixpoint bind {A B : Type} (m : Prog A) (f : A -> Prog B) : Prog B :=
  match m with
  | Ret a => f a
  | Throw e => Throw e
  | Emit u k => Emit u (bind k f)
  | Call q k => Call q (fun r => bind (k r) f)
  end.

(** [try { m } catch (e) { h e }]. *)
Fixpoint catch {A : Type} (m : Prog A) (h : Err -> Prog A) : Prog A :=
  match m with
  | Ret a => Ret a
  | Throw e => h e
  | Emit u k => Emit u (catch k h)
  | Call q k => Call q (fun r => catch (k r) h)
  end.

Definition await {R : Type} (q : Query R) : Prog (PgError + R) := Call q Ret.
Definition emit (u : Ui) : Prog unit := Emit u (Ret tt).
Definition when (b : bool) (m : Prog unit) : Prog unit :=
  if b then m else Ret tt.

Declare Scope prog_scope.
Delimit Scope prog_scope with prog.
Notation "x <- m ;; k" := (bind m (fun x => k))
  (at level 61, m at next level, right associativity) : prog_scope.
Notation "m ;;; k" := (bind m (fun _ => k))
  (at level 61, right associativity) : prog_scope.
Local Open Scope prog_scope.

(** [useMutation({mutationFn, onSuccess, onError}).mutate(v)]: the
    success callback runs inside the [try], the error callback in the
    [catch]. *)
Definition useMutation {A : Type} (mutationFn : Prog A)
  (onSuccess : A -> Prog unit) (onError : Err -> Prog unit) : Prog unit :=
  catch (bind mutationFn onSuccess) onError.

(** *** Running a program to completion *)

Record Outcome (A : Type) : Type := mkOutcome {
  final : Store;
  unused : list Tick;
  log : list Ui;
  result : Err + A
}.

Arguments mkOutcome {A}.
Arguments final {A}.
Arguments unused {A}.
Arguments log {A}.
Arguments result {A}.

Fixpoint run {A : Type} (m : Prog A) (b : list Tick) (s : Store) : Outcome A :=
  match m with
  | Ret a => mkOutcome s b [] (inr a)
  | Throw e => mkOutcome s b [] (inl e)
  | Emit u k =>
      let o := run k b s in
      mkOutcome (final o) (unused o) (u :: log o) (result o)
  | Call q k =>
      let '(s', r) := answer q (hd quiet b) s in
      run (k r) (tl b) s'
  end.

(** *** Running several clients, one store call at a time *)

(** The program runs up to and including its next store call. *)
Fixpoint advance {A : Type} (m : Prog A) (t : Tick) (s : Store)
  : Prog A * Store :=
  match m with
  | Emit _ k => advance k t s
  | Call q k => let '(s', r) := answer q t s in (k r, s')
  | _ => (m, s)
  end.

Fixpoint replace_nth {A : Type} (n : nat) (x : A) (l : list A) : list A :=
  match l, n with
  | [], _ => []
  | _ :: l', O => x :: l'
  | y :: l', S n' => y :: replace_nth n' x l'
  end.

(** [sched] names, step by step, the client whose pending request
    reaches the store next. *)
Fixpoint interleave {A : Type} (sched : list nat) (b : list Tick)
  (pool : list (Prog A)) (s : Store) : list (Prog A) * Store :=
  match sched with
  | [] => (pool, s)
  | i :: sched' =>
      match nth_error pool i with
      | None => interleave sched' b pool s
      | Some m =>
          let '(m', s') := advance m (hd quiet b) s in
          interleave sched' (tl b) (replace_nth i m' pool) s'
      end
  end.

(** Every request a program can send, on every reply path, satisfies [P]. *)
Fixpoint all_calls {A : Type} (P : forall R, Query R -> Prop) (m : Prog A)
  : Prop :=
  match m with
  | Ret _ | Throw _ => True
  | Emit _ k => all_calls P k
  | Call q k => P _ q /\ forall r, all_calls P (k r)
  end.

(** The program sends no request at all. *)
Fixpoint silent {A : Type} (m : Prog A) : Prop :=
  match m with
  | Ret _ | Throw _ => True
  | Emit _ k => silent k
  | Call _ _ => False
  end.

(* ================================================================== *)
(** ** Battle.tsx: the lobby *)

(** The signed-in user as the auth hook supplies it. *)
Record User : Type := mkUser {
  uid : string;
  meta_username : option string;
  email : option string
}.

Record BattleSettings : Type := mkSettings {
  battleType : BattleType;
  timePerQuestion : Z;
  totalQuestions : Z;
  settings_subject : string
}.

(** [a || b] on an optional string: undefined, null and the empty
    string are falsy. *)
Definition or_else (a : option string) (b : string) : string :=
  match a with
  | Some s => if (s =? "")%string then b else s
  | None => b
  end.

(** [user.user_metadata?.username || user.email || 'Guest']. *)
Definition display_name (u : User) : string :=
  or_else (meta_username u) (or_else (email u) "Guest").

Definition maxPlayers (bt : BattleType) : Z :=
  if BattleType_eqb bt B1v1 then 2
  else if BattleType_eqb bt B2v2 then 4
  else if BattleType_eqb bt Bffa then 100
  else 4.

(** [createRoomMutation.mutationFn].  [roomCode] stands for
    [Math.random().toString(36).substring(2, 8).toUpperCase()]. *)
Definition createRoom_mutationFn (user : option User)
  (settings : BattleSettings) (roomCode : string) : Prog Room :=
  match user with
  | None => Throw (JsError "User not authenticated.")
  | Some u =>
      let username := display_name u in
      r <- await (InsertRoom roomCode (battleType settings)
                    (maxPlayers (battleType settings))
                    (timePerQuestion settings) (totalQuestions settings)
                    (settings_subject settings) (uid u) waiting) ;;
      match r with
      | inl roomError => Throw (PgErr roomError)
      | inr newRoom =>
          r2 <- await (InsertParticipant (id newRoom) (uid u) username) ;;
          match r2 with
          | inl participantError =>
              _ <- await (DeleteRoom (id newRoom)) ;;
              Throw (PgErr participantError)
          | inr _ => Ret newRoom
          end
      end
  end.

Definition enter_room (rid : string) : Prog unit :=
  emit (SetCurrentRoomId (Some rid)) ;;;
  emit (SetCurrentView room_waiting) ;;;
  emit (InvalidateQueries "battleRooms").

Definition createRoom_onSuccess (room : Room) : Prog unit :=
  enter_room (id room) ;;;
  emit (Toast "Room Created!"
          ("Room code: " ++ room_code room ++ ". Waiting for players...")).

Definition createRoom_onError (error : Err) : Prog unit :=
  emit (Toast "Error" ("Failed to create room: " ++ err_message error)).

Definition createRoomMutation (user : option User)
  (settings : BattleSettings) (roomCode : string) : Prog unit :=
  useMutation (createRoom_mutationFn user settings roomCode)
              createRoom_onSuccess createRoom_onError.

(** [String.prototype.toUpperCase] on strings of ASCII characters
    ([is_ascii] below): there it maps the letters a to z to A to Z and
    leaves every other character alone.  On other strings the
    JavaScript function also maps letters outside ASCII and may change
    the length, which this definition does not follow; whatever is
    proved from the value it returns assumes [is_ascii]. *)
Definition upper_ascii (c : ascii) : ascii :=
  let n := nat_of_ascii c in
  if (97 <=? n)%nat && (n <=? 122)%nat then ascii_of_nat (n - 32) else c.

Fixpoint toUpperCase (s : string) : string :=
  match s with
  | EmptyString => EmptyString
  | String c s' => String (upper_ascii c) (toUpperCase s')
  end.

(** Every character of the string is an ASCII character (below 128).
    The codes that [createRoomMutation] generates are of this kind:
    digits and letters of [toString(36)]. *)
Fixpoint is_ascii (s : string) : bool :=
  match s with
  | EmptyString => true
  | String c s' => (nat_of_ascii c <? 128)%nat && is_ascii s'
  end.

Definition is_member (u : string) (ps : list Participant) : bool :=
  existsb (fun p => user_id p =? u)%string ps.

Definition currentPlayers (r : RoomData) : Z :=
  Z.of_nat (List.length (battle_participants r)).

(** [joinRoomByCodeMutation.mutationFn]. *)
Definition joinRoomByCode_mutationFn (user : option User)
  (roomCode : string) : Prog RoomData :=
  match user with
  | None => Throw (JsError "User not authenticated.")
  | Some u =>
      let username := display_name u in
      r <- await (SelectWaitingByCode (toUpperCase roomCode)) ;;
      match r with
      | inl roomError =>
          if (code roomError =? "PGRST116")%string
          then Throw (JsError "Room not found or already started.")
          else Throw (PgErr roomError)
      | inr room =>
          if currentPlayers room >=? max_players room
          then Throw (JsError "Room is full.")
          else
            let alreadyParticipant :=
              is_member (uid u) (battle_participants room) in
            if alreadyParticipant then Ret room
            else
              r2 <- await (InsertParticipant (id room) (uid u) username) ;;
              match r2 with
              | inl participantError => Throw (PgErr participantError)
              | inr _ => Ret room
              end
      end
  end.

Definition joinRoomByCode_onSuccess (room : RoomData) : Prog unit :=
  enter_room (id room) ;;;
  emit (Toast "Joined Room!" ("Welcome to room " ++ room_code room ++ ".")).

Definition joinRoomByCode_onError (error : Err) : Prog unit :=
  emit (Toast "Error" ("Failed to join room: " ++ err_message error)).

Definition joinRoomByCodeMutation (user : option User) (roomCode : string)
  : Prog unit :=
  useMutation (joinRoomByCode_mutationFn user roomCode)
              joinRoomByCode_onSuccess joinRoomByCode_onError.

(* ================================================================== *)
(** ** BattleRoom.tsx: the waiting room *)

Definition is_some {A : Type} (o : option A) : bool :=
  match o with Some _ => true | None => false end.

Definition same_countdown (a b : option Z) : bool :=
  match a, b with
  | Some x, Some y => x =? y
  | None, None => true
  | _, _ => false
  end.

Definition status_is (room : option RoomData) (st : Status) : bool :=
  match room with
  | Some r => Status_eqb (status r) st
  | None => false
  end.

(** [useQuery.queryFn]: the snapshot a client works from; it is
    refetched every three seconds and on change notifications. *)
Definition fetchRoom (roomId : string) : Prog RoomData :=
  r <- await (SelectRoomById roomId) ;;
  match r with
  | inl error => Throw (PgErr error)
  | inr data => Ret data
  end.

(** *** Countdown *)

Definition initialCountdownDuration (r : Room) : Z :=
  if BattleType_eqb (battle_type r) B1v1 then 5 else 10.

(** [calculatedTimeRemaining] of the countdown effect.  Both times are
    whole milliseconds, so [Math.floor] of the quotient by 1000 is the
    floor division of integers. *)
Definition calculatedTimeRemaining (r : Room) (now : Z) : Z :=
  match countdown_initiated_at r with
  | Some t => Z.max 0 (initialCountdownDuration r - (now - t) / 1000)
  | None => initialCountdownDuration r
  end.

Definition start_patch : Patch :=
  mkPatch (Some in_progress) (Some None) None None None None.

(** [updateStatus] of the countdown effect and of the interval callback:
    the same function body at both places. *)
Definition updateStatus (roomId : string) : Prog unit :=
  r <- await (UpdateRoom roomId start_patch) ;;
  match r with
  | inl _ => emit (Toast "Error" "Failed to start battle automatically.")
  | inr _ => emit (InvalidateQueries "battleRoom")
  end.

(** The countdown effect, run on every change of the snapshot [room] or
    of the local [countdown].  [timerRunning] says whether
    [countdownTimerRef.current] holds an interval. *)
Definition countdownEffect (roomId : string) (room : option RoomData)
  (countdown : option Z) (timerRunning : bool) (now : Z) : Prog unit :=
  when timerRunning (emit ClearInterval) ;;;
  match room with
  | None => emit (SetCountdown None)
  | Some r =>
      if Status_eqb (status r) in_progress then emit (SetCountdown None)
      else
        let isRoomFull := currentPlayers r =? max_players r in
        let isWaitingStatus := Status_eqb (status r) waiting in
        let isCountdownInitiatedByDB := is_some (countdown_initiated_at r) in
        if isWaitingStatus && (isRoomFull || isCountdownInitiatedByDB) then
          let remaining := calculatedTimeRemaining r now in
          when (negb (same_countdown countdown (Some remaining)))
               (emit (SetCountdown (Some remaining))) ;;;
          if remaining <=? 0 then
            when (Status_eqb (status r) waiting) (updateStatus roomId)
          else emit SetInterval
        else
          when (is_some countdown) (emit (SetCountdown None))
  end.

(** One run of the interval callback.  [prev] is the local countdown,
    [currentRoomState] the cached snapshot.  The callback does not await
    [updateStatus]: the countdown it returns is set before the reply to
    the request arrives. *)
Definition countdownTick (roomId : string) (prev : option Z)
  (currentRoomState : option RoomData) : Prog unit :=
  match prev with
  | None => emit ClearInterval ;;; emit (SetCountdown None)
  | Some p =>
      if status_is currentRoomState in_progress then
        emit ClearInterval ;;; emit (SetCountdown None)
      else if p <=? 1 then
        emit ClearInterval ;;;
        emit (SetCountdown (Some 0)) ;;;
        when (status_is currentRoomState waiting) (updateStatus roomId)
      else emit (SetCountdown (Some (p - 1)))
  end.

(** *** Join, leave and kick notices *)

Definition cached_participants (cached : option RoomData) : list Participant :=
  match cached with
  | Some c => battle_participants c
  | None => []
  end.

Definition kicked_notice : Ui :=
  Toast "Kicked from Room" "You have been removed from this battle room.".

(** The participants effect; the second component is the new value of
    [prevParticipantsCount.current]. *)
Definition participantsEffect (room : option RoomData) (userId : string)
  (isLeaving : bool) (prevParticipantsCount : option Z)
  (cached : option RoomData) : list Ui * option Z :=
  match room with
  | None => ([], prevParticipantsCount)
  | Some r =>
      let isHost := (host_id r =? userId)%string in
      let changes :=
        match prevParticipantsCount with
        | None => []
        | Some prev =>
            if prev =? currentPlayers r then []
            else
              let oldParticipants := cached_participants cached in
              if currentPlayers r >? prev then
                match find (fun p => negb (is_member (user_id p) oldParticipants))
                           (battle_participants r) with
                | Some newlyJoined =>
                    [Toast "Player Joined!"
                           (username newlyJoined ++ " has joined the room.")]
                | None => []
                end
              else
                match find (fun p => negb (is_member (user_id p)
                                                     (battle_participants r)))
                           oldParticipants with
                | Some removed =>
                    [Toast "Player Left"
                           (username removed ++ " has left the room.")]
                | None => []
                end
        end in
      let currentUserIsParticipant :=
        is_member userId (battle_participants r) in
      let kicked :=
        if negb currentUserIsParticipant && negb isHost && negb isLeaving
        then [kicked_notice; OnLeave]
        else [] in
      ((changes ++ kicked)%list, Some (currentPlayers r))
  end.

(** *** Leaving *)

Definition leaveRoom_mutationFn (roomId userId : string) : Prog unit :=
  emit (SetIsLeaving true) ;;;
  r <- await (DeleteParticipant roomId userId) ;;
  match r with
  | inl error => Throw (PgErr error)
  | inr _ => Ret tt
  end.

(** [Array.prototype.sort] with the comparator
    [new Date(a.created_at).getTime() - new Date(b.created_at).getTime()]:
    a stable sort, so rows that compare equal keep their order. *)
Fixpoint insert_by_created_at (x : Participant) (l : list Participant)
  : list Participant :=
  match l with
  | [] => [x]
  | y :: l' =>
      if p_created_at x <=? p_created_at y then x :: y :: l'
      else y :: insert_by_created_at x l'
  end.

Fixpoint sort_by_created_at (l : list Participant) : list Participant :=
  match l with
  | [] => []
  | x :: l' => insert_by_created_at x (sort_by_created_at l')
  end.

Definition remainingParticipants (r : RoomData) (userId : string)
  : list Participant :=
  filter (fun p => negb (user_id p =? userId)%string) (battle_participants r).

(** [remainingParticipants.sort(...)[0]]. *)
Definition newHost (r : RoomData) (userId : string) : option Participant :=
  hd_error (sort_by_created_at (remainingParticipants r userId)).

Definition host_patch (u : string) : Patch :=
  mkPatch None None (Some u) None None None.

Definition waiting_patch : Patch :=
  mkPatch (Some waiting) (Some None) None None None None.

Definition transferHost (roomId userId : string) (room : option RoomData)
  : Prog unit :=
  match room with
  | None => Ret tt
  | Some r =>
      if (host_id r =? userId)%string then
        match newHost r userId with
        | Some h =>
            e <- await (UpdateRoom roomId (host_patch (user_id h))) ;;
            match e with
            | inl _ => emit (Toast "Host Transfer Failed"
                                   "Could not transfer host privileges.")
            | inr _ => emit (Toast "Host Changed"
                                   (username h ++ " is now the host."))
            end
        | None => Ret tt
        end
      else Ret tt
  end.

(** The last step of leaving and of kicking: a room in progress that
    the removal leaves short of players goes back to waiting. *)
Definition revertToWaiting (roomId : string) (updatedRoom : option RoomData)
  : Prog unit :=
  match updatedRoom with
  | None => Ret tt
  | Some u =>
      if Status_eqb (status u) in_progress
         && (currentPlayers u <=? max_players u) then
        let newParticipantCount := currentPlayers u - 1 in
        if newParticipantCount <? max_players u then
          _ <- await (UpdateRoom roomId waiting_patch) ;; Ret tt
        else Ret tt
      else Ret tt
  end.

(** [room] is the snapshot of the render, [cached] the query cache when
    the callback runs. *)
Definition leaveRoom_onSuccess (roomId userId : string)
  (room cached : option RoomData) : Prog unit :=
  transferHost roomId userId room ;;;
  emit (Toast "Left Room" "You have left the battle room.") ;;;
  revertToWaiting roomId cached ;;;
  emit OnLeave.

Definition leaveRoom_onError (error : Err) : Prog unit :=
  emit (Toast "Error" ("Failed to leave room: " ++ err_message error)) ;;;
  emit (SetIsLeaving false).

Definition leaveRoomMutation (roomId userId : string)
  (room cached : option RoomData) : Prog unit :=
  useMutation (leaveRoom_mutationFn roomId userId)
              (fun _ => leaveRoom_onSuccess roomId userId room cached)
              leaveRoom_onError.

(** *** Kicking *)

Definition is_host (room : option RoomData) (userId : string) : bool :=
  match room with
  | Some r => (host_id r =? userId)%string
  | None => false
  end.

Definition removeParticipant_mutationFn (roomId userId : string)
  (room : option RoomData) (participantUserId : string) : Prog unit :=
  if negb (is_host room userId) then
    Throw (JsError "Only the host can remove participants.")
  else if (participantUserId =? userId)%string then
    Throw (JsError "You cannot remove yourself.")
  else
    r <- await (DeleteParticipant roomId participantUserId) ;;
    match r with
    | inl error => Throw (PgErr error)
    | inr _ => Ret tt
    end.

Definition removeParticipantMutation (roomId userId : string)
  (room cached : option RoomData) (participantUserId : string) : Prog unit :=
  useMutation (removeParticipant_mutationFn roomId userId room participantUserId)
    (fun _ =>
       emit (InvalidateQueries "battleRoom") ;;;
       emit (Toast "Participant Removed"
                   "A participant has been removed from the room.") ;;;
       revertToWaiting roomId cached)
    (fun error =>
       emit (Toast "Error" ("Failed to remove participant: " ++ err_message error))).

(** *** Manual start and ping (free-for-all) *)

Definition countdown_patch (now : Z) : Patch :=
  mkPatch None (Some (Some now)) None (Some None) (Some None) (Some None).

(** [startBattleMutation.mutationFn]; [now] is [new Date()]. *)
Definition startBattle_mutationFn (roomId userId : string)
  (room : option RoomData) (now : Z) : Prog unit :=
  match room with
  | None => Throw (JsError "Only the host can start the battle.")
  | Some r =>
      if negb (host_id r =? userId)%string then
        Throw (JsError "Only the host can start the battle.")
      else if negb (BattleType_eqb (battle_type r) Bffa) then
        Throw (JsError "Only FFA battles can be started manually by the host.")
      else if negb (Status_eqb (status r) waiting) then
        Throw (JsError "Battle can only be started from 'waiting' status.")
      else
        e <- await (UpdateRoom roomId (countdown_patch now)) ;;
        match e with
        | inl error => Throw (PgErr error)
        | inr _ => Ret tt
        end
  end.

Definition startBattleMutation (roomId userId : string)
  (room : option RoomData) (now : Z) : Prog unit :=
  useMutation (startBattle_mutationFn roomId userId room now)
    (fun _ => emit (Toast "Starting Battle!"
                          "The host has initiated the battle countdown."))
    (fun error => emit (Toast "Error Starting Battle"
                              ("Failed to start battle: " ++ err_message error))).

(** The render guard of the "Start Battle Now! (FFA)" button. *)
Definition startButtonRendered (r : RoomData) (userId : string) : bool :=
  (host_id r =? userId)%string
  && BattleType_eqb (battle_type r) Bffa
  && Status_eqb (status r) waiting
  && (currentPlayers r >? 1)
  && negb (is_some (countdown_initiated_at r)).

Definition startButtonDisabled (r : RoomData) (isPending : bool) : bool :=
  isPending || (currentPlayers r <? 2).

(** A click on the button: there is none to click unless it is rendered
    and enabled. *)
Definition clickStart (roomId userId : string) (room : option RoomData)
  (isPending : bool) (now : Z) : option (Prog unit) :=
  match room with
  | Some r =>
      if startButtonRendered r userId && negb (startButtonDisabled r isPending)
      then Some (startBattleMutation roomId userId room now)
      else None
  | None => None
  end.

Definition ping_patch (now : Z) (sender name : string) : Patch :=
  mkPatch None None None (Some (Some now)) (Some (Some sender)) (Some (Some name)).

Definition pingHost_mutationFn (roomId userId : string)
  (room : option RoomData) (now : Z) : Prog unit :=
  match room with
  | None => Throw (JsError "Invalid action: cannot ping host or not in a room.")
  | Some r =>
      if (host_id r =? userId)%string then
        Throw (JsError "Invalid action: cannot ping host or not in a room.")
      else if negb (BattleType_eqb (battle_type r) Bffa) then
        Throw (JsError "Pinging host is only available in FFA mode.")
      else if negb (Status_eqb (status r) waiting) then
        Throw (JsError "Cannot ping host once battle has started.")
      else
        let senderUsername :=
          or_else (option_map username
                     (find (fun p => user_id p =? userId)%string
                           (battle_participants r)))
                  "A participant" in
        e <- await (UpdateRoom roomId (ping_patch now userId senderUsername)) ;;
        match e with
        | inl error => Throw (PgErr error)
        | inr _ => Ret tt
        end
  end.

(* ================================================================== *)
(** ** Whole operations *)

(** Every entry point a client has.  The snapshots are arguments: an
    operation works from the [room] it rendered with, or from the query
    cache, and either may be out of date. *)
Inductive Op : Type :=
| CreateRoom (user : option User) (settings : BattleSettings) (roomCode : string)
| JoinRoomByCode (user : option User) (roomCode : string)
| LeaveRoom (roomId userId : string) (room cached : option RoomData)
| RemoveParticipant (roomId userId : string) (room cached : option RoomData)
                    (participantUserId : string)
| StartBattle (roomId userId : string) (room : option RoomData) (now : Z)
| PingHost (roomId userId : string) (room : option RoomData) (now : Z)
| CountdownEffect (roomId : string) (room : option RoomData)
                  (countdown : option Z) (timerRunning : bool) (now : Z)
| CountdownTick (roomId : string) (prev : option Z)
                (currentRoomState : option RoomData)
| Refetch (roomId : string).

Definition forget {A : Type} (m : Prog A) : Prog unit :=
  catch (bind m (fun _ => Ret tt)) (fun _ => Ret tt).

Definition program (o : Op) : Prog unit :=
  match o with
  | CreateRoom user settings roomCode =>
      createRoomMutation user settings roomCode
  | JoinRoomByCode user roomCode => joinRoomByCodeMutation user roomCode
  | LeaveRoom roomId userId room cached =>
      leaveRoomMutation roomId userId room cached
  | RemoveParticipant roomId userId room cached participantUserId =>
      removeParticipantMutation roomId userId room cached participantUserId
  | StartBattle roomId userId room now =>
      startBattleMutation roomId userId room now
  | PingHost roomId userId room now =>
      forget (pingHost_mutationFn roomId userId room now)
  | CountdownEffect roomId room countdown timerRunning now =>
      countdownEffect roomId room countdown timerRunning now
  | CountdownTick roomId prev currentRoomState =>
      countdownTick roomId prev currentRoomState
  | Refetch roomId => forget (fetchRoom roomId)
  end.

(** The stores after each of a list of operations, every operation
    running to completion before the next one starts. *)
Fixpoint history (ops : list Op) (b : list Tick) (s : Store) : list Store :=
  match ops with
  | [] => []
  | o :: ops' =>
      let out := run (program o) b s in
      final out :: history ops' (unused out) (final out)
  end.

(* ================================================================== *)
(** ** Properties of stores and programs *)

Definition headcount (s : Store) (rid : string) : Z :=
  Z.of_nat (List.length (participants_of s rid)).

(** No room has more participant rows than [max_players]. *)
Definition within_capacity (s : Store) : Prop :=
  forall r, In r (rooms s) -> headcount s (id r) <= max_players r.

Definition within_capacityb (s : Store) : bool :=
  forallb (fun r => headcount s (id r) <=? max_players r) (rooms s).

(** [battle_rooms.id] is a key: rooms are fetched by [eq('id', ...)]
    with [single()]. *)
Definition keyed (s : Store) : Prop := NoDup (map id (rooms s)).

(** Every participant row belongs to a room of the store: the embedded
    select [battle_participants(...)] follows this reference. *)
Definition referenced (s : Store) : Prop :=
  forall p, In p (participants s) -> In (battle_room_id p) (map id (rooms s)).

Definition consistent (s : Store) : Prop :=
  keyed s /\ referenced s /\ within_capacity s.

(** A countdown start is stored only on waiting rooms. *)
Definition countdown_only_while_waiting (s : Store) : Prop :=
  forall r, In r (rooms s) ->
    countdown_initiated_at r <> None -> status r = waiting.

Definition countdown_only_while_waitingb (s : Store) : bool :=
  forallb (fun r => negb (is_some (countdown_initiated_at r))
                    || Status_eqb (status r) waiting) (rooms s).

(** The stored rows of the room have the status the snapshot shows. *)
Definition status_agrees (room : option RoomData) (roomId : string)
  (s : Store) : Prop :=
  forall r, In r (rooms s) -> id r = roomId -> status_is room (status r) = true.

(** Every local action a program can take, on every path, satisfies [P]. *)
Fixpoint all_emits {A : Type} (P : Ui -> Prop) (m : Prog A) : Prop :=
  match m with
  | Ret _ | Throw _ => True
  | Emit u k => P u /\ all_emits P k
  | Call _ k => forall r, all_emits P (k r)
  end.

(** On every path the program takes, it does [u] before it ends. *)
Fixpoint always_emits {A : Type} (u : Ui) (m : Prog A) : Prop :=
  match m with
  | Ret _ | Throw _ => False
  | Emit v k => v = u \/ always_emits u k
  | Call _ k => forall r, always_emits u (k r)
  end.

(** Serial execution: whatever the backend decides at each request, the
    program ends in a store and with a result that satisfy [Q]. *)
Fixpoint wp {A : Type} (m : Prog A) (Q : Err + A -> Store -> Prop)
  (s : Store) : Prop :=
  match m with
  | Ret a => Q (inr a) s
  | Throw e => Q (inl e) s
  | Emit _ k => wp k Q s
  | Call q k => forall t, wp (k (snd (answer q t s))) Q (fst (answer q t s))
  end.

(** The request is the start-of-battle update of room [roomId]. *)
Definition is_start_write (roomId : string) (R : Type) (q : Query R) : Prop :=
  match q with
  | UpdateRoom rid p => rid = roomId /\ p = start_patch
  | _ => False
  end.

(** The request is not an update of [host_id]. *)
Definition leaves_host (R : Type) (q : Query R) : Prop :=
  match q with
  | UpdateRoom _ p => set_host_id p = None
  | _ => True
  end.

(** An update that sets the status to in_progress sets the countdown
    start to null as well. *)
Definition clears_countdown_on_start (R : Type) (q : Query R) : Prop :=
  match q with
  | UpdateRoom _ p =>
      set_status p = Some in_progress ->
      set_countdown_initiated_at p = Some None
  | _ => True
  end.

(** The request changes no participant row and no key or capacity. *)
Definition room_update_or_removal (R : Type) (q : Query R) : Prop :=
  match q with
  | UpdateRoom _ _ | DeleteParticipant _ _
  | SelectRoomById _ | SelectWaitingByCode _ => True
  | _ => False
  end.

(** The request cannot make a stored countdown start outlive waiting. *)
Definition keeps_countdown_waiting (R : Type) (q : Query R) : Prop :=
  match q with
  | UpdateRoom _ p =>
      set_countdown_initiated_at p = Some None
      \/ (set_countdown_initiated_at p = None /\ set_status p = None)
  | _ => True
  end.

(* ================================================================== *)
(** ** Scenarios *)

Definition ok (u : string) (t : Z) : Tick := mkTick None u t.
Definition down : Tick := mkTick (Some (mkPgError "" "Failed to fetch")) "" 0.

(** What a client sees when it fetches the room now. *)
Definition snapshot (s : Store) (roomId : string) : option RoomData :=
  match snd (answer (SelectRoomById roomId) quiet s) with
  | inr data => Some data
  | inl _ => None
  end.

Definition hana : User := mkUser "u-hana" (Some "Hana") None.
Definition alice : User := mkUser "u-alice" (Some "Alice") None.
Definition bob : User := mkUser "u-bob" None (Some "bob@example.org").

(** Hana creates a 1v1 room; Alice joins it by code. *)
Definition duel_open : Store :=
  final (run (createRoomMutation (Some hana) (mkSettings B1v1 15 10 "Biology")
                                 "ABC123")
             [ok "R1" 1000; ok "P1" 1000] empty_store).

Definition duel_full : Store :=
  final (run (joinRoomByCodeMutation (Some alice) "abc123")
             [quiet; ok "P2" 2000] duel_open).

(** The full duel as a client sees it. *)
Definition duel_full_view : RoomData :=
  mkRoomData
    (mkRoom "R1" "ABC123" B1v1 2 waiting 15 10 "Biology" "u-hana"
            None None None None 1000)
    [mkParticipant "P1" "R1" "u-hana" "Hana" 1000;
     mkParticipant "P2" "R1" "u-alice" "Alice" 2000].

(** Alice and Bob join the open duel at the same moment: both lookups
    reach the store before either insert. *)
Definition duel_raced : Store :=
  snd (interleave [0; 1; 0; 1]%nat
         [quiet; quiet; ok "P2" 2000; ok "P3" 2001]
         [joinRoomByCode_mutationFn (Some alice) "ABC123";
          joinRoomByCode_mutationFn (Some bob) "ABC123"]
         duel_open).

(** Hana alone in a free-for-all room; then with Alice. *)
Definition arena_alone : Store :=
  final (run (createRoomMutation (Some hana) (mkSettings Bffa 15 10 "Biology")
                                 "FFA999")
             [ok "R9" 1000; ok "P1" 1000] empty_store).

Definition arena_open : Store :=
  final (run (joinRoomByCodeMutation (Some alice) "ffa999")
             [quiet; ok "P2" 2000] arena_alone).

(** Hana starts the countdown at 50 s; ten seconds later Alice's client
    sees it expired and starts the battle; Hana's client, still working
    from the snapshot it had before, starts the countdown once more. *)
Definition arena_counting : Store :=
  final (run (startBattleMutation "R9" "u-hana" (snapshot arena_open "R9") 50000)
             [quiet] arena_open).

Definition arena_running : Store :=
  final (run (countdownEffect "R9" (snapshot arena_counting "R9") None false 60000)
             [quiet] arena_counting).

Definition arena_restarted : Store :=
  final (run (startBattleMutation "R9" "u-hana" (snapshot arena_open "R9") 61000)
             [quiet] arena_running).

(** The arena once the game component has closed the battle. *)
Definition arena_completed : Store :=
  fst (answer (UpdateRoom "R9" (mkPatch (Some completed) None None None None None))
              quiet arena_running).

(** Alice leaves the open arena. *)
Definition arena_left : Store :=
  final (run (leaveRoomMutation "R9" "u-alice" (snapshot arena_open "R9")
                                (snapshot arena_open "R9"))
             [quiet] arena_open).

(** Hana has the open duel in two tabs and leaves in one of them. *)
Definition duel_deserted : Store :=
  final (run (leaveRoomMutation "R1" "u-hana" (snapshot duel_open "R1")
                                (snapshot duel_open "R1"))
             [quiet] duel_open).

(** Two rows that joined within the same millisecond, in either order. *)
Definition tied_a : Participant := mkParticipant "P2" "R4" "u-alice" "Alice" 2000.
Definition tied_b : Participant := mkParticipant "P3" "R4" "u-bob" "Bob" 2000.
Definition squad : Room :=
  mkRoom "R4" "SQD444" B2v2 4 waiting 15 10 "Biology" "u-hana"
         None None None None 1000.
Definition squad_ab : RoomData :=
  mkRoomData squad [mkParticipant "P1" "R4" "u-hana" "Hana" 1000; tied_a; tied_b].
Definition squad_ba : RoomData :=
  mkRoomData squad [mkParticipant "P1" "R4" "u-hana" "Hana" 1000; tied_b; tied_a].

(** A room whose countdown started at time 0. *)
Definition counting_room : Room :=
  mkRoom "R5" "CNT555" B1v1 2 waiting 15 10 "Biology" "u-hana"
         None None None (Some 0) 0.

(* ================================================================== *)
(** ** BattleRoom.tsx: ping notice and action buttons *)

Definition same_sender (a b : option string) : bool :=
  match a, b with
  | Some x, Some y => (x =? y)%string
  | None, None => true
  | _, _ => false
  end.

Definition ping_notice (r : Room) : Ui :=
  Toast "Ping Received!"
        (or_else (last_ping_sender_username r) "A participant"
         ++ " wants to start the battle!").

(** The host ping effect.  [prevAt] and [prevSender] are
    [prevHostPingRequestedAt.current] and [prevHostPingSenderId.current];
    the second component holds their new values. *)
Definition hostPingEffect (room : option RoomData) (userId : string)
  (prevAt : option Z) (prevSender : option string)
  : list Ui * (option Z * option string) :=
  match room with
  | None => ([], (prevAt, prevSender))
  | Some r =>
      if negb (host_id r =? userId)%string then ([], (prevAt, prevSender))
      else
        let notice :=
          if is_some (host_ping_requested_at r)
             && (negb (same_countdown (host_ping_requested_at r) prevAt)
                 || negb (same_sender (last_ping_sender_id r) prevSender))
          then [ping_notice r]
          else [] in
        (notice, (host_ping_requested_at r, last_ping_sender_id r))
  end.

Definition pingHostMutation (roomId userId : string)
  (room : option RoomData) (now : Z) : Prog unit :=
  useMutation (pingHost_mutationFn roomId userId room now)
    (fun _ => emit (Toast "Ping Sent!"
                          "Host has been notified to start the battle."))
    (fun error => emit (Toast "Error Pinging Host"
                              ("Failed to send ping: " ++ err_message error))).

(** The render guard of the bell on the badge of [participant]. *)
Definition pingButtonRendered (r : RoomData) (userId : string)
  (participant : Participant) : bool :=
  negb (host_id r =? userId)%string
  && (user_id participant =? host_id r)%string
  && BattleType_eqb (battle_type r) Bffa
  && Status_eqb (status r) waiting.

(** The render guard of the remove button on the badge of [participant]. *)
Definition removeButtonRendered (r : RoomData) (userId : string)
  (participant : Participant) : bool :=
  (host_id r =? userId)%string && negb (user_id participant =? userId)%string.

(** The request reads, or updates a room row: it touches no participant. *)
Definition room_update_only (R : Type) (q : Query R) : Prop :=
  match q with
  | UpdateRoom _ _ | SelectRoomById _ | SelectWaitingByCode _ => True
  | _ => False
  end.

(** No user has two participant rows in one room. *)
Definition one_row_each (s : Store) : Prop :=
  NoDup (map (fun p => (battle_room_id p, user_id p)) (participants s)).

(** While a room has participants, its host is one of them. *)
Definition host_present (s : Store) (roomId : string) : Prop :=
  forall r, In r (rooms s) -> id r = roomId ->
    participants_of s roomId = []
    \/ is_member (host_id r) (participants_of s roomId) = true.

(** The participant rows are [ps], and the host of room [roomId] is one
    that [Good] accepts. *)
Definition host_among (roomId : string) (Good : string -> Prop)
  (ps : list Participant) (s : Store) : Prop :=
  participants s = ps /\
  forall x, In x (rooms s) -> id x = roomId -> Good (host_id x).

(** The request touches no participant row and no host. *)
Definition keeps_host_and_rows (R : Type) (q : Query R) : Prop :=
  leaves_host R q /\ room_update_only R q.

(** A request that writes the host column is the update of room
    [roomId] that makes [u] the host, and writes nothing else. *)
Definition names_host (roomId u : string) (R : Type) (q : Query R) : Prop :=
  match q with
  | UpdateRoom rid p => set_host_id p = None \/ (rid = roomId /\ p = host_patch u)
  | _ => True
  end.

(** An update that sets the status, to whatever value, sets the
    countdown start to null as well. *)
Definition clears_countdown_with_status (R : Type) (q : Query R) : Prop :=
  match q with
  | UpdateRoom _ p =>
      set_status p <> None -> set_countdown_initiated_at p = Some None
  | _ => True
  end.

(** The request is the update of room [roomId] back to waiting, with
    the countdown start set to null. *)
Definition is_revert_write (roomId : string) (R : Type) (q : Query R) : Prop :=
  match q with
  | UpdateRoom rid p =>
      rid = roomId /\ set_status p = Some waiting
      /\ set_countdown_initiated_at p = Some None
  | _ => False
  end.

(** The program does [u] before it sends any request: on its way to [u]
    it neither ends nor asks the store. *)
Fixpoint does_before_requests {A : Type} (u : Ui) (m : Prog A) : Prop :=
  match m with
  | Emit v k => v = u \/ does_before_requests u k
  | Ret _ | Throw _ | Call _ _ => False
  end.

(* ================================================================== *)
(** ** BattleRoom.tsx: the countdown of a mounted room *)

(** A mounted waiting room whose snapshot does not change: the
    [countdown] state, whether an interval is set, the store, and what
    the backend will decide for the next requests. *)
Record Mounted : Type := mkMounted {
  shown : option Z;
  ticking : bool;
  server : Store;
  replies : list Tick
}.

Definition react (st : option Z * bool) (u : Ui) : option Z * bool :=
  match u with
  | SetCountdown c => (c, snd st)
  | ClearInterval => (fst st, false)
  | SetInterval => (fst st, true)
  | _ => st
  end.

Definition after (m : Mounted) (out : Outcome unit) : Mounted :=
  let st := fold_left react (log out) (shown m, ticking m) in
  mkMounted (fst st) (snd st) (final out) (unused out).

(** One run of the countdown effect. *)
Definition effectPass (roomId : string) (room : option RoomData) (now : Z)
  (m : Mounted) : Mounted :=
  after m (run (countdownEffect roomId room (shown m) (ticking m) now)
               (replies m) (server m)).

(** [countdown] is a dependency of the effect: the effect runs again
    for as long as its run has changed the countdown. *)
Fixpoint effectPasses (fuel : nat) (roomId : string) (room : option RoomData)
  (now : Z) (m : Mounted) : Mounted :=
  match fuel with
  | O => m
  | S fuel' =>
      let m' := effectPass roomId room now m in
      if same_countdown (shown m') (shown m) then m'
      else effectPasses fuel' roomId room now m'
  end.

(** The interval fires, if one is set. *)
Definition tickPass (roomId : string) (room : option RoomData) (m : Mounted)
  : Mounted :=
  if ticking m
  then after m (run (countdownTick roomId (shown m) room) (replies m) (server m))
  else m.

(** One second: the interval callback, then the effect if the callback
    has changed the countdown. *)
Definition second (fuel : nat) (roomId : string) (room : option RoomData)
  (now : Z) (m : Mounted) : Mounted :=
  let m' := tickPass roomId room m in
  if same_countdown (shown m') (shown m) then m'
  else effectPasses fuel roomId room now m'.

(** The seconds that pass at the clock readings of [clock]. *)
Fixpoint seconds (fuel : nat) (roomId : string) (room : option RoomData)
  (clock : list Z) (m : Mounted) : Mounted :=
  match clock with
  | [] => m
  | now :: clock' =>
      seconds fuel roomId room clock' (second fuel roomId room now m)
  end.

(* ================================================================== *)
(** ** MCQDisplay.tsx: shuffled options *)

(** [[a[i], a[j]] = [a[j], a[i]]] on an array that holds both indices;
    the loop of [shuffleArray] uses no other. *)
Definition swap {T : Type} (i j : nat) (l : list T) : list T :=
  match nth_error l i, nth_error l j with
  | Some x, Some y => replace_nth j x (replace_nth i y l)
  | _, _ => l
  end.

(** The loop of [shuffleArray] from index [i] down to 1.  [pick i] is
    [Math.floor(Math.random() * (i + 1))] at index [i]. *)
Fixpoint shuffle_from {T : Type} (pick : nat -> nat) (i : nat) (l : list T)
  : list T :=
  match i with
  | O => l
  | S i' => shuffle_from pick i' (swap i (pick i) l)
  end.

Definition shuffleArray {T : Type} (pick : nat -> nat) (array : list T)
  : list T :=
  shuffle_from pick (List.length array - 1) array.

(** [Array.prototype.indexOf] on strings: -1 when absent. *)
Fixpoint indexOf (x : string) (l : list string) : Z :=
  match l with
  | [] => -1
  | y :: l' =>
      if (y =? x)%string then 0
      else let k := indexOf x l' in if k <? 0 then -1 else k + 1
  end.

Record MCQ : Type := mkMCQ {
  mcq_id : string;
  question : string;
  options : list string;
  correct_answer : string;
  explanation : option string
}.

Record ShuffledMCQ : Type := mkShuffledMCQ {
  mcq : MCQ;
  shuffledOptions : list string;
  originalCorrectIndex : Z
}.

(** The body of [data.map(mcq => ...)] in [loadMCQs]. *)
Definition shuffleMCQ (pick : nat -> nat) (m : MCQ) : ShuffledMCQ :=
  let shuffledOptions := shuffleArray pick (options m) in
  let newCorrectIndex := indexOf (correct_answer m) shuffledOptions in
  mkShuffledMCQ m shuffledOptions newCorrectIndex.

(* ================================================================== *)
(** * Reasoning about programs *)

Section ProgramLogic.

Context {A : Type}.

Lemma wp_mono (m : Prog A) (Q Q' : Err + A -> Store -> Prop) :
  (forall r s, Q r s -> Q' r s) -> forall s, wp m Q s -> wp m Q' s.
Proof.
  intros HQ. induction m as [a | e | u k IH | R q k IH]; simpl; intros s H;
    [apply HQ, H | apply HQ, H | apply IH, H | intros t; apply IH, H].
Qed.

Lemma wp_run (m : Prog A) (Q : Err + A -> Store -> Prop) :
  forall b s, wp m Q s -> Q (result (run m b s)) (final (run m b s)).
Proof.
  induction m as [a | e | u k IH | R q k IH]; simpl; intros b s H;
    [exact H | exact H | apply IH, H | ].
  specialize (H (hd quiet b)).
  destruct (answer q (hd quiet b) s) as [s' r]. apply IH, H.
Qed.

Lemma wp_catch (m : Prog A) (h : Err -> Prog A) (Q : Err + A -> Store -> Prop) :
  forall s,
    wp m (fun r s' => match r with
                      | inr a => Q (inr a) s'
                      | inl e => wp (h e) Q s'
                      end) s ->
    wp (catch m h) Q s.
Proof.
  induction m as [a | e | u k IH | R q k IH]; simpl; intros s H;
    [exact H | exact H | apply IH, H | intros t; apply IH, H].
Qed.

(** A program whose requests all keep [I] keeps [I]. *)
Lemma wp_all_calls (I : Store -> Prop) (P : forall R, Query R -> Prop) :
  (forall R (q : Query R) t s, P R q -> I s -> I (fst (answer q t s))) ->
  forall (m : Prog A) s, all_calls P m -> I s -> wp m (fun _ s' => I s') s.
Proof.
  intros HP. induction m as [a | e | u k IH | R q k IH]; simpl; intros s H Hs;
    [exact Hs | exact Hs | apply IH; assumption | ].
  destruct H as [Hq Hk]. intros t. apply IH; [apply Hk | apply HP; assumption].
Qed.

Lemma all_calls_mono (P P' : forall R, Query R -> Prop) (m : Prog A) :
  (forall R q, P R q -> P' R q) -> all_calls P m -> all_calls P' m.
Proof.
  intros HP. induction m as [a | e | u k IH | R q k IH]; simpl;
    [trivial | trivial | exact IH | ].
  intros [Hq Hk]. split; [apply HP, Hq | intros r; apply IH, Hk].
Qed.

Lemma all_calls_catch (P : forall R, Query R -> Prop) (m : Prog A)
  (h : Err -> Prog A) :
  all_calls P m -> (forall e, all_calls P (h e)) -> all_calls P (catch m h).
Proof.
  intros Hm Hh. induction m as [a | e | u k IH | R q k IH]; simpl in *;
    [trivial | apply Hh | apply IH, Hm | ].
  destruct Hm as [Hq Hk]. split; [exact Hq | intros r; apply IH, Hk].
Qed.

Lemma all_emits_catch (P : Ui -> Prop) (m : Prog A) (h : Err -> Prog A) :
  all_emits P m -> (forall e, all_emits P (h e)) -> all_emits P (catch m h).
Proof.
  intros Hm Hh. induction m as [a | e | u k IH | R q k IH]; simpl in *;
    [trivial | apply Hh | | intros r; apply IH, Hm].
  destruct Hm as [Hu Hk]. split; [exact Hu | apply IH, Hk].
Qed.

Lemma all_emits_run (P : Ui -> Prop) (m : Prog A) :
  all_emits P m -> forall b s, Forall P (log (run m b s)).
Proof.
  induction m as [a | e | u k IH | R q k IH]; simpl; intros H b s;
    [constructor | constructor | | ].
  - destruct H as [Hu Hk]. constructor; [exact Hu | apply IH, Hk].
  - destruct (answer q (hd quiet b) s) as [s' r]. apply IH, H.
Qed.

Lemma silent_all_calls (P : forall R, Query R -> Prop) (m : Prog A) :
  silent m -> all_calls P m.
Proof.
  induction m as [a | e | u k IH | R q k IH]; simpl;
    [trivial | trivial | exact IH | intros []].
Qed.

Lemma silent_run (m : Prog A) :
  silent m -> forall b s, final (run m b s) = s /\ unused (run m b s) = b.
Proof.
  induction m as [a | e | u k IH | R q k IH]; simpl; intros H b s;
    [split; reflexivity | split; reflexivity | apply IH, H | destruct H].
Qed.

Lemma silent_catch (m : Prog A) (h : Err -> Prog A) :
  silent m -> (forall e, silent (h e)) -> silent (catch m h).
Proof.
  intros Hm Hh. induction m as [a | e | u k IH | R q k IH]; simpl in *;
    [trivial | apply Hh | apply IH, Hm | destruct Hm].
Qed.

End ProgramLogic.

Section Sequencing.

Context {A B : Type}.

Lemma wp_bind (m : Prog A) (f : A -> Prog B) (Q : Err + B -> Store -> Prop) :
  forall s,
    wp m (fun r s' => match r with
                      | inr a => wp (f a) Q s'
                      | inl e => Q (inl e) s'
                      end) s ->
    wp (bind m f) Q s.
Proof.
  induction m as [a | e | u k IH | R q k IH]; simpl; intros s H;
    [exact H | exact H | apply IH, H | intros t; apply IH, H].
Qed.

Lemma all_calls_bind (P : forall R, Query R -> Prop) (m : Prog A)
  (f : A -> Prog B) :
  all_calls P m -> (forall a, all_calls P (f a)) -> all_calls P (bind m f).
Proof.
  intros Hm Hf. induction m as [a | e | u k IH | R q k IH]; simpl in *;
    [apply Hf | trivial | apply IH, Hm | ].
  destruct Hm as [Hq Hk]. split; [exact Hq | intros r; apply IH, Hk].
Qed.

Lemma all_emits_bind (P : Ui -> Prop) (m : Prog A) (f : A -> Prog B) :
  all_emits P m -> (forall a, all_emits P (f a)) -> all_emits P (bind m f).
Proof.
  intros Hm Hf. induction m as [a | e | u k IH | R q k IH]; simpl in *;
    [apply Hf | trivial | | intros r; apply IH, Hm].
  destruct Hm as [Hu Hk]. split; [exact Hu | apply IH, Hk].
Qed.

Lemma silent_bind (m : Prog A) (f : A -> Prog B) :
  silent m -> (forall a, silent (f a)) -> silent (bind m f).
Proof.
  intros Hm Hf. induction m as [a | e | u k IH | R q k IH]; simpl in *;
    [apply Hf | trivial | apply IH, Hm | destruct Hm].
Qed.

End Sequencing.

(** Walks every path of a program that is given by case analysis. *)
Ltac paths :=
  repeat first
    [ exact I
    | reflexivity
    | split
    | intro
    | progress simpl
    | progress unfold when, updateStatus
    | match goal with
      | |- context [match ?x with _ => _ end] => destruct x
      end ].

Lemma always_emits_run {A : Type} (u : Ui) (m : Prog A) :
  always_emits u m -> forall b s, In u (log (run m b s)).
Proof.
  induction m as [a | e | v k IH | R q k IH]; simpl; intros H b s;
    [destruct H | destruct H | | ].
  - destruct H as [H | H]; [left; exact H | right; apply IH, H].
  - destruct (answer q (hd quiet b) s) as [s' r]. apply IH, H.
Qed.

(** A request that fails changes nothing. *)
Lemma answer_failed {R : Type} (q : Query R) (t : Tick) (s : Store) (e : PgError) :
  snd (answer q t s) = inl e -> fst (answer q t s) = s.
Proof.
  unfold answer. destruct (fault t); [reflexivity |].
  destruct q; simpl; try reflexivity; try discriminate.
  - destruct (existsb _ _); [reflexivity | discriminate].
  - destruct (existsb _ _); [reflexivity | discriminate].
Qed.

Lemma answer_fault {R : Type} (q : Query R) (t : Tick) (s : Store) (e : PgError) :
  fault t = Some e -> answer q t s = (s, inl e).
Proof. intros H. unfold answer. rewrite H. reflexivity. Qed.

Lemma Status_eqb_eq (a b : Status) : Status_eqb a b = true <-> a = b.
Proof. destruct a, b; simpl; split; intros H; congruence. Qed.

Lemma BattleType_eqb_eq (a b : BattleType) : BattleType_eqb a b = true <-> a = b.
Proof. destruct a, b; simpl; split; intros H; congruence. Qed.

Lemma map_id_update (rid : string) (p : Patch) (l : list Room) :
  map id (map (fun r => if (id r =? rid)%string then apply_patch p r else r) l)
  = map id l.
Proof.
  induction l as [| r l IH]; simpl; [reflexivity |].
  rewrite IH. destruct (id r =? rid)%string; reflexivity.
Qed.

(** What an applied update does to the rooms table. *)
Lemma update_applied (rid : string) (p : Patch) (t : Tick) (s : Store) :
  fault t = None ->
  fst (answer (UpdateRoom rid p) t s)
  = mkStore (map (fun r => if (id r =? rid)%string then apply_patch p r else r)
                 (rooms s))
            (participants s).
Proof. intros H. unfold answer. rewrite H. reflexivity. Qed.

Lemma update_failed (rid : string) (p : Patch) (t : Tick) (s : Store) (e : PgError) :
  fault t = Some e -> fst (answer (UpdateRoom rid p) t s) = s.
Proof. intros H. unfold answer. rewrite H. reflexivity. Qed.

(* ================================================================== *)
(** * The countdown *)

Lemma duration_positive (r : Room) : 0 < initialCountdownDuration r.
Proof. unfold initialCountdownDuration. destruct (BattleType_eqb _ _); lia. Qed.

Lemma elapsed_seconds_shift (now start delta : Z) :
  (now + 1000 * delta - start) / 1000 = (now - start) / 1000 + delta.
Proof.
  replace (now + 1000 * delta - start) with (now - start + delta * 1000) by lia.
  apply Z.div_add. lia.
Qed.

(** C6, as stated, fails: once the countdown has run out the remaining
    time is held at 0, so two readings ten seconds apart do not differ
    by ten. *)
Lemma expired_countdown_stays_at_zero :
  countdown_initiated_at counting_room = Some 0 /\
  calculatedTimeRemaining counting_room 10000 = 0 /\
  calculatedTimeRemaining counting_room (10000 + 1000 * 10) = 0 /\
  calculatedTimeRemaining counting_room 10000
  - calculatedTimeRemaining counting_room (10000 + 1000 * 10) <> 10.
Proof. repeat split; vm_compute; congruence. Qed.

(** C6 (amended): the remaining time is the duration less the whole
    seconds elapsed since the countdown start, held at 0 from below.
    Two readings a whole number [delta] of seconds apart differ by at
    most [delta], the later one never being the larger, and by exactly
    [delta] when the later reading has not passed the end of the
    countdown. *)
Theorem remaining_time_follows_clock (r : Room) (start now delta : Z)
  (Hstart : countdown_initiated_at r = Some start)
  (Hdelta : 0 <= delta) :
  let before := calculatedTimeRemaining r now in
  let after := calculatedTimeRemaining r (now + 1000 * delta) in
  0 <= after /\
  0 <= before - after <= delta /\
  ((now + 1000 * delta - start) / 1000 <= initialCountdownDuration r ->
   before = initialCountdownDuration r - (now - start) / 1000 /\
   before - after = delta).
Proof.
  unfold calculatedTimeRemaining. rewrite Hstart. cbv zeta.
  rewrite elapsed_seconds_shift. repeat split; lia.
Qed.

Lemma remaining_time_follows_clock_witness :
  calculatedTimeRemaining counting_room 1500
  - calculatedTimeRemaining counting_room (1500 + 1000 * 3) = 3.
Proof.
  apply (remaining_time_follows_clock counting_room 0 1500 3);
    [reflexivity | lia | vm_compute; congruence].
Defined.

Lemma countdownEffect_only_starts (roomId : string) (room : option RoomData)
  (countdown : option Z) (timerRunning : bool) (now : Z) :
  all_calls (is_start_write roomId)
            (countdownEffect roomId room countdown timerRunning now).
Proof. unfold countdownEffect. paths. Qed.

Lemma countdownTick_only_starts (roomId : string) (prev : option Z)
  (cached : option RoomData) :
  all_calls (is_start_write roomId) (countdownTick roomId prev cached).
Proof. unfold countdownTick. paths. Qed.

Lemma countdownEffect_full_room (roomId : string) (r : RoomData)
  (countdown : option Z) (timerRunning : bool) (now : Z) :
  status r = waiting ->
  currentPlayers r = max_players r ->
  countdown_initiated_at r = None ->
  countdownEffect roomId (Some r) countdown timerRunning now
  = (when timerRunning (emit ClearInterval) ;;;
     when (negb (same_countdown countdown (Some (initialCountdownDuration r))))
          (emit (SetCountdown (Some (initialCountdownDuration r)))) ;;;
     emit SetInterval).
Proof.
  intros Hw Hf Hn. unfold countdownEffect, calculatedTimeRemaining.
  rewrite Hw, Hn, Hf, Z.eqb_refl. simpl.
  pose proof (duration_positive r) as Hd.
  destruct (initialCountdownDuration r <=? 0) eqn:E; [lia | reflexivity].
Qed.

(** With no stored countdown start the local countdown of a full room
    does not get past its first second: the interval callback takes it
    from the duration to one less, and the effect, which runs again on
    the changed countdown, puts it back to the duration and starts a new
    interval.  Neither sends anything. *)
Lemma full_room_countdown_restarts (roomId : string) (r : RoomData) (now : Z) :
  status r = waiting ->
  currentPlayers r = max_players r ->
  countdown_initiated_at r = None ->
  let duration := initialCountdownDuration r in
  countdownTick roomId (Some duration) (Some r)
  = emit (SetCountdown (Some (duration - 1))) /\
  countdownEffect roomId (Some r) (Some (duration - 1)) false now
  = (emit (SetCountdown (Some duration)) ;;; emit SetInterval).
Proof.
  intros Hw Hf Hn. cbv zeta. split.
  - unfold countdownTick. simpl. rewrite Hw. simpl.
    unfold initialCountdownDuration.
    destruct (BattleType_eqb (battle_type r) B1v1); reflexivity.
  - rewrite (countdownEffect_full_room _ _ _ _ _ Hw Hf Hn). simpl.
    replace (initialCountdownDuration r - 1 =? initialCountdownDuration r)
      with false by (symmetry; apply Z.eqb_neq; lia).
    reflexivity.
Qed.

(** C4, as stated, fails: when the duel fills up, the countdown effect
    of a client sends nothing to the store; the stored countdown start
    stays null and the countdown runs locally from the full duration. *)
Lemma full_duel_countdown_is_not_stored :
  let room := snapshot duel_full "R1" in
  let out := run (countdownEffect "R1" room None false 5000) [] duel_full in
  status_is room waiting = true /\
  option_map (fun r : RoomData => currentPlayers r =? max_players r) room
  = Some true /\
  option_map (fun r : RoomData => countdown_initiated_at r) room = Some None /\
  final out = duel_full /\
  map countdown_initiated_at (rooms (final out)) = [None] /\
  log out = [SetCountdown (Some 5); SetInterval].
Proof. repeat split. Qed.

(** C4 (amended): on countdown entry with the room waiting, at capacity
    and no stored countdown start, the client sends no request: the
    store is left as it is, the local countdown is set to the duration
    of the battle type and a local interval is started.  The interval
    callback, like the effect, can only ever send the start-of-battle
    update, which stores null as the countdown start. *)
Theorem full_room_countdown_is_local (roomId : string) (r : RoomData)
  (countdown : option Z) (timerRunning : bool) (now : Z)
  (Hwaiting : status r = waiting)
  (Hfull : currentPlayers r = max_players r)
  (Hunset : countdown_initiated_at r = None) :
  let effect := countdownEffect roomId (Some r) countdown timerRunning now in
  let duration := initialCountdownDuration r in
  silent effect /\
  (forall b s, final (run effect b s) = s) /\
  (countdown = None ->
   forall b s,
     log (run effect b s)
     = ((if timerRunning then [ClearInterval] else [])
        ++ [SetCountdown (Some duration); SetInterval])%list) /\
  (forall prev cached,
      all_calls (is_start_write roomId) (countdownTick roomId prev cached)) /\
  set_countdown_initiated_at start_patch = Some None.
Proof.
  cbv zeta. rewrite (countdownEffect_full_room _ _ _ _ _ Hwaiting Hfull Hunset).
  split; [| split; [| split; [| split]]].
  - destruct timerRunning, (same_countdown countdown _); simpl; exact I.
  - intros b s.
    destruct timerRunning, (same_countdown countdown _); reflexivity.
  - intros -> b s. destruct timerRunning; reflexivity.
  - intros prev cached. apply countdownTick_only_starts.
  - reflexivity.
Qed.

Lemma full_room_countdown_is_local_witness :
  final (run (countdownEffect "R1" (Some duel_full_view) None false 5000)
             [] duel_full)
  = duel_full.
Proof.
  apply (full_room_countdown_is_local "R1" duel_full_view None false 5000);
    reflexivity.
Defined.

(* ================================================================== *)
(** * The transition to in_progress *)

Lemma countdownEffect_needs_waiting (roomId : string) (room : option RoomData)
  (countdown : option Z) (timerRunning : bool) (now : Z) :
  status_is room waiting = false ->
  silent (countdownEffect roomId room countdown timerRunning now).
Proof.
  intros H. unfold countdownEffect.
  destruct room as [r |]; [| paths].
  simpl in H. rewrite H. paths.
Qed.

Lemma countdownTick_needs_waiting (roomId : string) (prev : option Z)
  (cached : option RoomData) :
  status_is cached waiting = false ->
  silent (countdownTick roomId prev cached).
Proof. intros H. unfold countdownTick. rewrite H. paths. Qed.

Lemma start_write_lands (roomId : string) (t : Tick) (s : Store) :
  fault t = None ->
  forall r, In r (rooms (fst (answer (UpdateRoom roomId start_patch) t s))) ->
            id r = roomId ->
            status r = in_progress /\ countdown_initiated_at r = None.
Proof.
  intros Ht r Hr Hid. rewrite (update_applied _ _ _ _ Ht) in Hr. simpl in Hr.
  apply in_map_iff in Hr. destruct Hr as [r0 [Hr0 _]].
  destruct (id r0 =? roomId)%string eqn:E.
  - subst r. split; reflexivity.
  - subst r. apply String.eqb_neq in E. contradiction.
Qed.

Lemma start_write_repeated (roomId : string) (t t' : Tick) (s : Store) :
  fault t = None ->
  let s' := fst (answer (UpdateRoom roomId start_patch) t s) in
  fst (answer (UpdateRoom roomId start_patch) t' s') = s'.
Proof.
  intros Ht s'. destruct (fault t') as [e |] eqn:Ht'.
  - apply (update_failed _ _ _ _ e Ht').
  - rewrite (update_applied _ _ _ _ Ht'). subst s'.
    rewrite (update_applied _ _ _ _ Ht). simpl. f_equal.
    rewrite map_map. apply map_ext. intros r.
    destruct (id r =? roomId)%string eqn:E; simpl; rewrite E; reflexivity.
Qed.

(** C1, as stated, fails: the update that starts the battle selects the
    row by id alone.  A client whose snapshot still shows the room
    waiting with its countdown run out sends it, and the store applies
    it to a room that is stored as completed. *)
Lemma stale_client_restarts_completed_room :
  let stale := snapshot arena_counting "R9" in
  let out := run (countdownEffect "R9" stale None false 120000) [] arena_completed in
  status_is stale waiting = true /\
  map status (rooms arena_completed) = [completed] /\
  map status (rooms (final out)) = [in_progress] /\
  log out = [SetCountdown (Some 0); InvalidateQueries "battleRoom"].
Proof. repeat split. Qed.

(** C1 (amended): the only request the countdown effect and the interval
    callback send is the update of the room, selected by its id, to
    status in_progress with a null countdown start, and they send it
    only when the client's own snapshot of the room says waiting.  The
    store applies it whatever status the row has by then: every row of
    that id ends in_progress with no countdown start.  A repeated
    attempt leaves the store as the first one left it. *)
Theorem start_write_follows_snapshot (roomId : string)
  (room : option RoomData) (countdown prev : option Z) (timerRunning : bool)
  (now : Z) (s : Store) (t t' : Tick)
  (Happlied : fault t = None) :
  let effect := countdownEffect roomId room countdown timerRunning now in
  let tick := countdownTick roomId prev room in
  let s' := fst (answer (UpdateRoom roomId start_patch) t s) in
  all_calls (is_start_write roomId) effect /\
  all_calls (is_start_write roomId) tick /\
  (status_is room waiting = false -> silent effect /\ silent tick) /\
  (forall r, In r (rooms s) -> id r = roomId ->
             In (apply_patch start_patch r) (rooms s')) /\
  (forall r, In r (rooms s') -> id r = roomId ->
             status r = in_progress /\ countdown_initiated_at r = None) /\
  fst (answer (UpdateRoom roomId start_patch) t' s') = s'.
Proof.
  cbv zeta. repeat apply conj.
  - apply countdownEffect_only_starts.
  - apply countdownTick_only_starts.
  - intros Hstale. split;
      [apply countdownEffect_needs_waiting | apply countdownTick_needs_waiting];
      exact Hstale.
  - intros r Hr Hid. rewrite (update_applied _ _ _ _ Happlied). simpl.
    apply in_map_iff. exists r. split; [| exact Hr].
    apply String.eqb_eq in Hid. rewrite Hid. reflexivity.
  - apply start_write_lands. exact Happlied.
  - apply start_write_repeated. exact Happlied.
Qed.

Lemma start_write_follows_snapshot_witness :
  fst (answer (UpdateRoom "R1" start_patch) quiet
              (fst (answer (UpdateRoom "R1" start_patch) quiet duel_full)))
  = fst (answer (UpdateRoom "R1" start_patch) quiet duel_full).
Proof.
  apply (start_write_follows_snapshot "R1" (snapshot duel_full "R1")
           None (Some 1) false 5000 duel_full quiet quiet).
  reflexivity.
Defined.

(* ================================================================== *)
(** * Host transfer *)

Lemma insert_by_created_at_head (x : Participant) (l : list Participant) :
  hd_error (insert_by_created_at x l)
  = Some match l with
         | [] => x
         | y :: _ => if p_created_at x <=? p_created_at y then x else y
         end.
Proof.
  destruct l as [| y l]; simpl; [reflexivity |].
  destruct (p_created_at x <=? p_created_at y); reflexivity.
Qed.

Lemma sort_by_created_at_nil (l : list Participant) :
  sort_by_created_at l = [] -> l = [].
Proof.
  destruct l as [| x l]; [reflexivity |]. simpl. intros H.
  pose proof (insert_by_created_at_head x (sort_by_created_at l)) as Hh.
  rewrite H in Hh. discriminate Hh.
Qed.

(** The first row of the sorted array is a row of the array, and no row
    of the array joined before it. *)
Lemma sort_by_created_at_head (l : list Participant) (h : Participant) :
  hd_error (sort_by_created_at l) = Some h ->
  In h l /\ forall p, In p l -> p_created_at h <= p_created_at p.
Proof.
  revert h. induction l as [| x l IH]; simpl; intros h Hh; [discriminate |].
  rewrite insert_by_created_at_head in Hh. injection Hh as Hh.
  destruct (sort_by_created_at l) as [| y m] eqn:E.
  - apply sort_by_created_at_nil in E. subst. split; [left; reflexivity |].
    intros p [Hp | []]. subst. lia.
  - destruct (IH y eq_refl) as [Hy Hmin].
    destruct (p_created_at x <=? p_created_at y) eqn:C; subst h.
    + apply Z.leb_le in C. split; [left; reflexivity |].
      intros p [Hp | Hp]; [subst; lia | specialize (Hmin p Hp); lia].
    + apply Z.leb_gt in C. split; [right; exact Hy |].
      intros p [Hp | Hp]; [subst; lia | exact (Hmin p Hp)].
Qed.

Lemma sort_by_created_at_some (l : list Participant) :
  l <> [] -> exists h, hd_error (sort_by_created_at l) = Some h.
Proof.
  intros Hl. destruct (sort_by_created_at l) as [| h m] eqn:E.
  - apply sort_by_created_at_nil in E. contradiction.
  - exists h. reflexivity.
Qed.

Lemma remaining_permuted (r r' : RoomData) (userId : string) (p : Participant) :
  Permutation (battle_participants r) (battle_participants r') ->
  In p (remainingParticipants r userId) ->
  In p (remainingParticipants r' userId).
Proof.
  unfold remainingParticipants. intros HP Hp.
  apply filter_In in Hp. destruct Hp as [Hp Hf].
  apply filter_In. split; [| exact Hf].
  apply (Permutation_in _ HP Hp).
Qed.

Lemma transferHost_nobody_left (roomId userId : string) (r : RoomData) :
  remainingParticipants r userId = [] ->
  transferHost roomId userId (Some r) = Ret tt.
Proof.
  intros H. unfold transferHost, newHost. rewrite H. simpl.
  destruct (host_id r =? userId)%string; reflexivity.
Qed.

Lemma revertToWaiting_leaves_host (roomId : string) (cached : option RoomData) :
  all_calls leaves_host (revertToWaiting roomId cached).
Proof. unfold revertToWaiting. paths. Qed.

(** C3, as stated, fails: two remaining rows that joined within the
    same millisecond compare equal, the sort keeps them in snapshot
    order, and the new host is whichever of them the snapshot lists
    first. *)
Lemma tied_joiners_host_depends_on_order :
  Permutation (battle_participants squad_ab) (battle_participants squad_ba) /\
  p_created_at tied_a = p_created_at tied_b /\
  newHost squad_ab "u-hana" = Some tied_a /\
  newHost squad_ba "u-hana" = Some tied_b /\
  tied_a <> tied_b.
Proof.
  repeat split; try discriminate.
  apply perm_skip, perm_swap.
Qed.

(* ================================================================== *)
(** * Joining by code *)

Lemma currentPlayers_headcount (s : Store) (r : Room) :
  currentPlayers (with_participants s r) = headcount s (id r).
Proof. reflexivity. Qed.

Lemma select_waiting_answer (c : string) (t : Tick) (s : Store) :
  fault t = None ->
  answer (SelectWaitingByCode c) t s
  = (s, single (map (with_participants s)
                    (filter (fun r => (room_code r =? c)%string
                                      && Status_eqb (status r) waiting)
                            (rooms s)))).
Proof. intros H. unfold answer. rewrite H. reflexivity. Qed.

(** C5, as stated, fails for a caller who is already in a room that is
    at capacity: the capacity check comes first and throws. *)
Lemma member_of_full_room_is_turned_away :
  is_member (uid alice) (participants_of duel_full "R1") = true /\
  result (run (joinRoomByCode_mutationFn (Some alice) "abc123") [] duel_full)
  = inl (JsError "Room is full.").
Proof. split; reflexivity. Qed.

(** C5 (amended): joining by code first asks the store for the single
    waiting room with the upper-cased code.  With no such room the join
    fails with "Room not found or already started."; with the room at
    or over capacity it fails with "Room is full.", also for a caller
    who is already in it; with room to spare, a caller who is already a
    participant gets the room back and nothing is inserted.  In all
    three cases the store is left as it was. *)
Theorem joinRoomByCode_outcomes (u : User) (roomCode : string)
  (b : list Tick) (s : Store)
  (Hup : fault (hd quiet b) = None) :
  let found :=
    filter (fun r => (room_code r =? toUpperCase roomCode)%string
                     && Status_eqb (status r) waiting) (rooms s) in
  let out := run (joinRoomByCode_mutationFn (Some u) roomCode) b s in
  (exists k, joinRoomByCode_mutationFn (Some u) roomCode
             = Call (SelectWaitingByCode (toUpperCase roomCode)) k) /\
  (found = [] ->
   result out = inl (JsError "Room not found or already started.") /\
   final out = s) /\
  (forall r, found = [r] ->
             max_players r <= headcount s (id r) ->
             result out = inl (JsError "Room is full.") /\ final out = s) /\
  (forall r, found = [r] ->
             headcount s (id r) < max_players r ->
             is_member (uid u) (participants_of s (id r)) = true ->
             result out = inr (with_participants s r) /\ final out = s).
Proof.
  cbv zeta. split; [eexists; reflexivity |].
  unfold joinRoomByCode_mutationFn. simpl.
  rewrite (select_waiting_answer _ _ _ Hup). repeat apply conj.
  - intros Hnone. rewrite Hnone. simpl. split; reflexivity.
  - intros r Hone Hfull. rewrite Hone. simpl.
    rewrite currentPlayers_headcount, Z.geb_leb.
    apply Z.leb_le in Hfull. rewrite Hfull. simpl. split; reflexivity.
  - intros r Hone Hroom Hmember. rewrite Hone. simpl.
    rewrite currentPlayers_headcount, Z.geb_leb.
    apply Z.leb_gt in Hroom. rewrite Hroom. simpl.
    rewrite Hmember. simpl. split; reflexivity.
Qed.

Lemma joinRoomByCode_outcomes_witness :
  result (run (joinRoomByCode_mutationFn (Some hana) "abc123") [] duel_open)
  = inr (with_participants duel_open
           (mkRoom "R1" "ABC123" B1v1 2 waiting 15 10 "Biology" "u-hana"
                   None None None None 1000)) /\
  final (run (joinRoomByCode_mutationFn (Some hana) "abc123") [] duel_open)
  = duel_open.
Proof.
  apply (joinRoomByCode_outcomes hana "abc123" [] duel_open);
    [reflexivity | reflexivity | vm_compute; reflexivity | reflexivity].
Defined.

(* ================================================================== *)
(** * Manual start *)

Lemma clickStart_offered (roomId userId : string) (r : RoomData)
  (isPending : bool) (now : Z) :
  clickStart roomId userId (Some r) isPending now <> None <->
  host_id r = userId /\ battle_type r = Bffa /\ status r = waiting /\
  1 < currentPlayers r /\ countdown_initiated_at r = None /\ isPending = false.
Proof.
  unfold clickStart, startButtonRendered, startButtonDisabled.
  rewrite <- String.eqb_eq, <- BattleType_eqb_eq, <- Status_eqb_eq, <- Z.gtb_lt.
  destruct (host_id r =? userId)%string, (BattleType_eqb (battle_type r) Bffa),
    (Status_eqb (status r) waiting), (countdown_initiated_at r), isPending,
    (currentPlayers r >? 1) eqn:Hn; simpl;
    try (split; [intros H; exfalso; apply H; reflexivity
                | intros H; decompose [and] H; discriminate]).
  apply Z.gtb_lt in Hn.
  destruct (currentPlayers r <? 2) eqn:Hlt; [apply Z.ltb_lt in Hlt; lia |].
  simpl. split; [intros _; repeat split | intros _; discriminate].
Qed.

(** C8, as stated, fails: the mutation does not look at the participant
    count.  Run for a host who is alone in a waiting free-for-all room
    it is not rejected and stores the countdown start; the count is
    looked at only by the button, which is then not there to click.
    And the count the button looks at is the snapshot's: after Alice
    has left, Hana's client can still start the countdown of a room
    that holds Hana alone. *)
Lemma lone_host_start_is_not_rejected :
  let room := snapshot arena_alone "R9" in
  let out := run (startBattle_mutationFn "R9" "u-hana" room 7000) [] arena_alone in
  let stale := snapshot arena_open "R9" in
  option_map currentPlayers room = Some 1 /\
  result out = inr tt /\
  map countdown_initiated_at (rooms (final out)) = [Some 7000] /\
  clickStart "R9" "u-hana" room false 7000 = None /\
  headcount arena_left "R9" = 1 /\
  option_map (fun click => map countdown_initiated_at
                             (rooms (final (run click [] arena_left))))
             (clickStart "R9" "u-hana" stale false 7000)
  = Some [Some 7000].
Proof. repeat split. Qed.

(** C8 (amended): the manual start mutation throws, and sends nothing,
    when the acting user is not the host of the snapshot, when the room
    is not free-for-all, and when the snapshot's status is not waiting.
    Otherwise, whatever the participant count, it sends one update that
    sets the countdown start to the current time.  The participant count
    is checked where the button is rendered: there is a button to click
    only for the host of a waiting free-for-all room with more than one
    participant and no countdown start, while no start is in flight. *)
Theorem startBattle_guards (roomId userId : string) (room : option RoomData)
  (now : Z) (b : list Tick) (s : Store) :
  let out := run (startBattle_mutationFn roomId userId room now) b s in
  (is_host room userId = false ->
   result out = inl (JsError "Only the host can start the battle.") /\
   final out = s) /\
  (forall r, room = Some r -> host_id r = userId ->
     (battle_type r <> Bffa ->
      result out
      = inl (JsError "Only FFA battles can be started manually by the host.") /\
      final out = s) /\
     (battle_type r = Bffa -> status r <> waiting ->
      result out
      = inl (JsError "Battle can only be started from 'waiting' status.") /\
      final out = s) /\
     (battle_type r = Bffa -> status r = waiting ->
      (exists k, startBattle_mutationFn roomId userId room now
                 = Call (UpdateRoom roomId (countdown_patch now)) k) /\
      (fault (hd quiet b) = None ->
       result out = inr tt /\
       forall x, In x (rooms (final out)) -> id x = roomId ->
                 countdown_initiated_at x = Some now))) /\
  (forall r isPending, room = Some r ->
     (clickStart roomId userId room isPending now <> None <->
      host_id r = userId /\ battle_type r = Bffa /\ status r = waiting /\
      1 < currentPlayers r /\ countdown_initiated_at r = None /\
      isPending = false)).
Proof.
  cbv zeta. split; [| split].
  - intros Hnot. unfold startBattle_mutationFn.
    destruct room as [r |]; [| split; reflexivity].
    simpl in Hnot. rewrite Hnot. split; reflexivity.
  - intros r -> Hhost. apply String.eqb_eq in Hhost.
    unfold startBattle_mutationFn. rewrite Hhost. simpl.
    repeat apply conj.
    + intros Hffa.
      destruct (BattleType_eqb (battle_type r) Bffa) eqn:E;
        [apply BattleType_eqb_eq in E; contradiction | split; reflexivity].
    + intros Hffa Hst. rewrite Hffa. simpl.
      destruct (Status_eqb (status r) waiting) eqn:E;
        [apply Status_eqb_eq in E; contradiction | split; reflexivity].
    + intros Hffa Hst. rewrite Hffa, Hst. simpl. split.
      * eexists. reflexivity.
      * intros Hup. unfold answer. rewrite Hup. simpl. split; [reflexivity |].
        intros x Hx Hid. apply in_map_iff in Hx. destruct Hx as [x0 [Hx0 _]].
        destruct (id x0 =? roomId)%string eqn:E; subst x; [reflexivity |].
        apply String.eqb_neq in E. contradiction.
  - intros r isPending ->. apply clickStart_offered.
Qed.

Lemma startBattle_guards_witness :
  result (run (startBattle_mutationFn "R9" "u-alice" (snapshot arena_open "R9")
                                      50000) [] arena_open)
  = inl (JsError "Only the host can start the battle.") /\
  final (run (startBattle_mutationFn "R9" "u-alice" (snapshot arena_open "R9")
                                     50000) [] arena_open)
  = arena_open.
Proof.
  apply (startBattle_guards "R9" "u-alice" (snapshot arena_open "R9") 50000
                            [] arena_open).
  reflexivity.
Defined.

(* ================================================================== *)
(** * Kicked or left *)

Lemma participantsEffect_kicked (r : RoomData) (userId : string)
  (isLeaving : bool) (prev : option Z) (cached : option RoomData) :
  exists changes,
    fst (participantsEffect (Some r) userId isLeaving prev cached)
    = (changes
       ++ (if negb (is_member userId (battle_participants r))
              && negb (host_id r =? userId)%string && negb isLeaving
           then [kicked_notice; OnLeave] else []))%list /\
    ~ In kicked_notice changes /\ ~ In OnLeave changes.
Proof.
  unfold participantsEffect. simpl. eexists. split; [reflexivity |].
  destruct prev as [n |]; [| split; intros []].
  destruct (n =? currentPlayers r); [split; intros [] |].
  destruct (currentPlayers r >? n).
  - destruct (find _ _); split; simpl; intros H; try contradiction;
      destruct H as [H | []]; discriminate H.
  - destruct (find _ _); split; simpl; intros H; try contradiction;
      destruct H as [H | []]; discriminate H.
Qed.

Lemma leaveRoom_never_says_kicked (roomId userId : string)
  (room cached : option RoomData) :
  all_emits (fun u => u <> kicked_notice)
            (leaveRoomMutation roomId userId room cached).
Proof.
  unfold leaveRoomMutation, useMutation, leaveRoom_mutationFn,
    leaveRoom_onSuccess, leaveRoom_onError, transferHost, revertToWaiting.
  paths; discriminate.
Qed.

Lemma leaveRoom_onSuccess_exits (roomId userId : string)
  (room cached : option RoomData) :
  always_emits OnLeave
    (catch (leaveRoom_onSuccess roomId userId room cached) leaveRoom_onError).
Proof.
  unfold leaveRoom_onSuccess, transferHost, revertToWaiting.
  repeat first
    [ left; reflexivity
    | right
    | intro
    | progress simpl
    | match goal with
      | |- context [match ?x with _ => _ end] => destruct x
      end ].
Qed.

(** C9, as stated, fails for the host: the participants effect shows no
    kicked notice and does not exit while the snapshot names this client
    as host.  Hana's second tab, after she left in the first, stays in
    the room. *)
Lemma host_without_row_is_not_kicked :
  let room := snapshot duel_deserted "R1" in
  let notices :=
    fst (participantsEffect room "u-hana" false (Some 1)
                            (snapshot duel_open "R1")) in
  option_map (fun r : RoomData => is_member "u-hana" (battle_participants r))
             room = Some false /\
  notices = [Toast "Player Left" "Hana has left the room."] /\
  ~ In kicked_notice notices /\ ~ In OnLeave notices.
Proof.
  repeat split; simpl; intros [H | []]; discriminate H.
Qed.

(** C9 (amended): a client that is not the host of its snapshot, has
    not started to leave and does not find its own row among the
    participants shows the kicked notice and exits to the lobby; a
    client that is the host, or has started to leave, does neither.
    Leaving marks the client as leaving before it sends any request,
    and the request it sends next is the delete of its own row; it
    never shows the kicked notice; when the delete succeeds it exits to
    the lobby, when it fails the client stays and the mark is taken
    back. *)
Theorem kicked_notice_for_removed_guest (r : RoomData) (roomId userId : string)
  (isLeaving : bool) (prev : option Z) (room cached : option RoomData)
  (b : list Tick) (s : Store)
  (Hgone : is_member userId (battle_participants r) = false) :
  let notices := fst (participantsEffect (Some r) userId isLeaving prev cached) in
  let leaving := run (leaveRoomMutation roomId userId room cached) b s in
  (host_id r <> userId -> isLeaving = false ->
   In kicked_notice notices /\ In OnLeave notices) /\
  (host_id r = userId \/ isLeaving = true ->
   ~ In kicked_notice notices /\ ~ In OnLeave notices) /\
  does_before_requests (SetIsLeaving true)
    (leaveRoomMutation roomId userId room cached) /\
  (exists k, leaveRoomMutation roomId userId room cached
             = Emit (SetIsLeaving true)
                    (Call (DeleteParticipant roomId userId) k) /\
             (forall e, k (inl e) = leaveRoom_onError (PgErr e)) /\
             k (inr tt)
             = catch (leaveRoom_onSuccess roomId userId room cached)
                     leaveRoom_onError) /\
  hd_error (log leaving) = Some (SetIsLeaving true) /\
  ~ In kicked_notice (log leaving) /\
  (fault (hd quiet b) = None -> In OnLeave (log leaving)) /\
  (forall e, fault (hd quiet b) = Some e ->
             log leaving
             = [SetIsLeaving true;
                Toast "Error" ("Failed to leave room: " ++ message e);
                SetIsLeaving false]).
Proof.
  cbv zeta.
  destruct (participantsEffect_kicked r userId isLeaving prev cached)
    as [changes [Heq [Hk Hl]]].
  rewrite Heq, Hgone. simpl. repeat apply conj.
  - intros Hguest ->. apply String.eqb_neq in Hguest. rewrite Hguest. simpl.
    split; apply in_or_app; right; simpl; auto.
  - intros [Hhost | ->].
    + apply String.eqb_eq in Hhost. rewrite Hhost. simpl.
      rewrite app_nil_r. split; assumption.
    + rewrite andb_false_r, app_nil_r. split; assumption.
  - left. reflexivity.
  - eexists. split; [reflexivity | split; [intros e |]; reflexivity].
  - reflexivity.
  - intros Hin.
    pose proof (all_emits_run _ _
                  (leaveRoom_never_says_kicked roomId userId room cached) b s)
      as Hall.
    rewrite Forall_forall in Hall. exact (Hall _ Hin eq_refl).
  - intros Hup. unfold leaveRoomMutation, useMutation, leaveRoom_mutationFn.
    simpl. unfold answer at 1. rewrite Hup. simpl. right.
    apply always_emits_run, leaveRoom_onSuccess_exits.
  - intros e Hdown. unfold leaveRoomMutation, useMutation, leaveRoom_mutationFn.
    simpl. rewrite (answer_fault _ _ _ _ Hdown). reflexivity.
Qed.

Lemma kicked_notice_for_removed_guest_witness :
  In kicked_notice
     (fst (participantsEffect (snapshot duel_open "R1") "u-alice" false
                              (Some 2) (snapshot duel_full "R1"))) /\
  In OnLeave
     (fst (participantsEffect (snapshot duel_open "R1") "u-alice" false
                              (Some 2) (snapshot duel_full "R1"))).
Proof.
  apply (kicked_notice_for_removed_guest
           (with_participants duel_open
              (mkRoom "R1" "ABC123" B1v1 2 waiting 15 10 "Biology" "u-hana"
                      None None None None 1000))
           "R1" "u-alice" false (Some 2) None (snapshot duel_full "R1")
           [] duel_open);
    [reflexivity | discriminate | reflexivity].
Defined.

(* ================================================================== *)
(** * Creating a room *)

Lemma existsb_id_false (u : string) (l : list Room) :
  existsb (fun r => id r =? u)%string l = false ->
  filter (fun r => negb (id r =? u)%string) l = l /\ ~ In u (map id l).
Proof.
  induction l as [| r l IH]; simpl; intros H; [split; [reflexivity | intros []] |].
  apply orb_false_iff in H. destruct H as [Hr Hl].
  destruct (IH Hl) as [Hf Hn]. rewrite Hr. simpl. rewrite Hf.
  split; [reflexivity |].
  intros [E | E]; [apply String.eqb_neq in Hr; contradiction | contradiction].
Qed.

(** What a successful room insert returned and did. *)
Lemma insert_room_applied (c : string) (bt : BattleType) (mp tpq tq : Z)
  (subj host : string) (st : Status) (t : Tick) (s : Store) (newRoom : Room) :
  snd (answer (InsertRoom c bt mp tpq tq subj host st) t s) = inr newRoom ->
  existsb (fun r => id r =? uuid t)%string (rooms s) = false /\
  newRoom = mkRoom (uuid t) c bt mp st tpq tq subj host
                   None None None None (at_ms t) /\
  fst (answer (InsertRoom c bt mp tpq tq subj host st) t s)
  = mkStore (rooms s ++ [newRoom]) (participants s).
Proof.
  unfold answer. destruct (fault t); [discriminate |].
  destruct (existsb _ _); [discriminate |]. simpl.
  intros H. injection H as H. subst newRoom. repeat split.
Qed.

Lemma delete_inserted_room (s : Store) (newRoom : Room) (t : Tick) :
  existsb (fun r => id r =? id newRoom)%string (rooms s) = false ->
  fault t = None ->
  fst (answer (DeleteRoom (id newRoom)) t
              (mkStore (rooms s ++ [newRoom]) (participants s)))
  = s.
Proof.
  intros Hfresh Hup. unfold answer. rewrite Hup. simpl.
  rewrite filter_app. destruct (existsb_id_false _ _ Hfresh) as [Hf _].
  rewrite Hf. simpl. rewrite String.eqb_refl. simpl. rewrite app_nil_r.
  destruct s; reflexivity.
Qed.

(** C10, as stated, fails when the store is down for the rollback as
    well: the result of the delete is not looked at, and the room stays
    behind with no participant. *)
Lemma failed_rollback_leaves_empty_room :
  let out := run (createRoomMutation (Some hana) (mkSettings B1v1 15 10 "Biology")
                                     "ABC123")
                 [ok "R1" 1000; down; down] empty_store in
  map id (rooms (final out)) = ["R1"] /\
  participants (final out) = [] /\
  log out = [Toast "Error" "Failed to create room: Failed to fetch"].
Proof. repeat split. Qed.

(** C10 (amended): when the insert of the creator's participant row
    fails after the room row was inserted, the client asks the store to
    delete the room row it has just inserted and then throws the
    participant error, whatever the outcome of the delete.  When the
    store applies the delete, the store is as it was before the
    creation: no row is left behind. *)
Theorem createRoom_rolls_back (u : User) (settings : BattleSettings)
  (roomCode : string) (t1 t2 t3 : Tick) (b : list Tick) (s : Store)
  (newRoom : Room) (participantError : PgError)
  (Hroom : snd (answer (InsertRoom roomCode (battleType settings)
                          (maxPlayers (battleType settings))
                          (timePerQuestion settings) (totalQuestions settings)
                          (settings_subject settings) (uid u) waiting) t1 s)
           = inr newRoom)
  (Hparticipant :
     snd (answer (InsertParticipant (id newRoom) (uid u) (display_name u)) t2
                 (mkStore (rooms s ++ [newRoom]) (participants s)))
     = inl participantError) :
  let out := run (createRoom_mutationFn (Some u) settings roomCode)
                 (t1 :: t2 :: t3 :: b) s in
  result out = inl (PgErr participantError) /\
  final out = fst (answer (DeleteRoom (id newRoom)) t3
                          (mkStore (rooms s ++ [newRoom]) (participants s))) /\
  (fault t3 = None -> final out = s).
Proof.
  cbv zeta.
  destruct (insert_room_applied _ _ _ _ _ _ _ _ _ _ _ Hroom) as [Hfresh [Hnew Hs1]].
  assert (Hfresh' : existsb (fun r => id r =? id newRoom)%string (rooms s) = false)
    by (rewrite Hnew; exact Hfresh).
  pose proof (answer_failed _ _ _ _ Hparticipant) as Hsame.
  unfold createRoom_mutationFn. simpl.
  destruct (answer (InsertRoom _ _ _ _ _ _ _ _) t1 s) as [s1 r1] eqn:E1.
  simpl in Hroom, Hs1. subst r1 s1. simpl.
  destruct (answer (InsertParticipant _ _ _) t2 _) as [s2 r2] eqn:E2.
  simpl in Hparticipant, Hsame. subst r2 s2. simpl.
  destruct (answer (DeleteRoom _) t3 _) as [s3 r3] eqn:E3. simpl.
  split; [reflexivity | split; [reflexivity |]].
  intros Hup. pose proof (delete_inserted_room s newRoom t3 Hfresh' Hup) as Hd.
  rewrite E3 in Hd. exact Hd.
Qed.

Lemma createRoom_rolls_back_witness :
  final (run (createRoomMutation (Some hana) (mkSettings B1v1 15 10 "Biology")
                                 "XYZ789")
             [ok "R2" 3000; down; quiet] duel_open)
  = duel_open.
Proof.
  apply (createRoom_rolls_back hana (mkSettings B1v1 15 10 "Biology") "XYZ789"
           (ok "R2" 3000) down quiet [] duel_open
           (mkRoom "R2" "XYZ789" B1v1 2 waiting 15 10 "Biology" "u-hana"
                   None None None None 3000)
           (mkPgError "" "Failed to fetch"));
    reflexivity.
Defined.

(* ================================================================== *)
(** * The countdown start and the status *)

Lemma keeps_countdown_waiting_sound (R : Type) (q : Query R) (t : Tick)
  (s : Store) :
  keeps_countdown_waiting R q ->
  countdown_only_while_waiting s ->
  countdown_only_while_waiting (fst (answer q t s)).
Proof.
  intros Hq Hs. unfold answer. destruct (fault t); [exact Hs |].
  destruct q; simpl; try exact Hs.
  - destruct (existsb _ _); [exact Hs |]. simpl.
    intros r Hr Hc. apply in_app_or in Hr. destruct Hr as [Hr | [Hr | []]].
    + exact (Hs r Hr Hc).
    + subst r. simpl in Hc. contradiction.
  - destruct (existsb _ _); exact Hs.
  - intros r Hr Hc. simpl in Hr. apply in_map_iff in Hr.
    destruct Hr as [r0 [Hr0 Hin]].
    destruct (id r0 =? id')%string; [| subst r; exact (Hs r0 Hin Hc)].
    subst r. simpl in Hq. destruct Hq as [Hq | [Hq1 Hq2]].
    + simpl in Hc. rewrite Hq in Hc. simpl in Hc. contradiction.
    + simpl in *. rewrite Hq1 in Hc. rewrite Hq2. simpl in *.
      exact (Hs r0 Hin Hc).
  - intros r Hr Hc. simpl in Hr. apply filter_In in Hr.
    exact (Hs r (proj1 Hr) Hc).
Qed.

Lemma start_countdown_sound (roomId : string) (now : Z) (t : Tick) (s : Store) :
  (forall r, In r (rooms s) -> id r = roomId -> status r = waiting) ->
  countdown_only_while_waiting s ->
  countdown_only_while_waiting
    (fst (answer (UpdateRoom roomId (countdown_patch now)) t s)).
Proof.
  intros Hw Hs. unfold answer. destruct (fault t); [exact Hs |]. simpl.
  intros r Hr Hc. simpl in Hr. apply in_map_iff in Hr.
  destruct Hr as [r0 [Hr0 Hin]].
  destruct (id r0 =? roomId)%string eqn:E; [| subst r; exact (Hs r0 Hin Hc)].
  subst r. simpl. apply String.eqb_eq in E. exact (Hw r0 Hin E).
Qed.

Ltac countdown_paths :=
  repeat first
    [ exact I
    | reflexivity
    | left; reflexivity
    | right; split; reflexivity
    | split
    | intro
    | progress simpl
    | progress unfold when, updateStatus
    | match goal with
      | |- context [match ?x with _ => _ end] => destruct x
      end ].

Lemma program_clears_countdown_on_start (o : Op) :
  all_calls clears_countdown_on_start (program o).
Proof.
  destruct o; unfold program, createRoomMutation, joinRoomByCodeMutation,
    leaveRoomMutation, removeParticipantMutation, startBattleMutation,
    useMutation, forget, createRoom_mutationFn, joinRoomByCode_mutationFn,
    leaveRoom_mutationFn, leaveRoom_onSuccess, transferHost, revertToWaiting,
    removeParticipant_mutationFn, startBattle_mutationFn, pingHost_mutationFn,
    countdownEffect, countdownTick, fetchRoom;
    paths; discriminate.
Qed.

Lemma program_clears_countdown_with_status (o : Op) :
  all_calls clears_countdown_with_status (program o).
Proof.
  destruct o; unfold program, createRoomMutation, joinRoomByCodeMutation,
    leaveRoomMutation, removeParticipantMutation, startBattleMutation,
    useMutation, forget, createRoom_mutationFn, joinRoomByCode_mutationFn,
    leaveRoom_mutationFn, leaveRoom_onSuccess, transferHost, revertToWaiting,
    removeParticipant_mutationFn, startBattle_mutationFn, pingHost_mutationFn,
    countdownEffect, countdownTick, fetchRoom;
    paths;
    match goal with H : _ <> None |- _ => simpl in H; contradiction end.
Qed.

Lemma revertToWaiting_is_revert_write (roomId : string)
  (cached : option RoomData) :
  all_calls (is_revert_write roomId) (revertToWaiting roomId cached).
Proof. unfold revertToWaiting. paths. Qed.

Lemma program_keeps_countdown_waiting (o : Op) :
  match o with
  | StartBattle _ _ _ _ => True
  | _ => all_calls keeps_countdown_waiting (program o)
  end.
Proof.
  destruct o; try exact I;
    unfold program, createRoomMutation, joinRoomByCodeMutation,
    leaveRoomMutation, removeParticipantMutation,
    useMutation, forget, createRoom_mutationFn, joinRoomByCode_mutationFn,
    leaveRoom_mutationFn, leaveRoom_onSuccess, transferHost, revertToWaiting,
    removeParticipant_mutationFn, pingHost_mutationFn,
    countdownEffect, countdownTick, fetchRoom;
    countdown_paths.
Qed.

Lemma startBattle_keeps_countdown_waiting (roomId userId : string)
  (room : option RoomData) (now : Z) (s : Store) :
  status_agrees room roomId s ->
  countdown_only_while_waiting s ->
  wp (startBattleMutation roomId userId room now)
     (fun _ s' => countdown_only_while_waiting s') s.
Proof.
  intros Hag Hs. unfold startBattleMutation, useMutation, startBattle_mutationFn.
  destruct room as [r |]; [| simpl; exact Hs].
  destruct (negb (host_id r =? userId)%string); [simpl; exact Hs |].
  destruct (negb (BattleType_eqb (battle_type r) Bffa)); [simpl; exact Hs |].
  destruct (Status_eqb (status r) waiting) eqn:Hw; [| simpl; exact Hs].
  simpl. intros t.
  assert (Hs' : countdown_only_while_waiting
                  (fst (answer (UpdateRoom roomId (countdown_patch now)) t s))).
  { apply start_countdown_sound; [| exact Hs].
    intros x Hx Hid. specialize (Hag x Hx Hid). simpl in Hag.
    apply Status_eqb_eq in Hag, Hw. congruence. }
  destruct (snd (answer (UpdateRoom roomId (countdown_patch now)) t s));
    simpl; exact Hs'.
Qed.

(** C7, as stated, fails: the manual start checks the status of the
    client's snapshot, not of the stored row.  Hana's client, working
    from the snapshot it had before the battle started, stores a
    countdown start on a room that is in progress. *)
Lemma stale_start_stores_countdown_on_running_room :
  countdown_only_while_waitingb arena_open = true /\
  countdown_only_while_waitingb arena_counting = true /\
  countdown_only_while_waitingb arena_running = true /\
  map (fun r => (status r, countdown_initiated_at r)) (rooms arena_restarted)
  = [(in_progress, Some 61000)] /\
  countdown_only_while_waitingb arena_restarted = false.
Proof. repeat split. Qed.

(** C7 (amended): every update a client sends that sets the status to
    in_progress sets the countdown start to null in the same update,
    and so does every update that sets the status at all: the only
    request of the revert that ends a leave and a kick is the update of
    the room to waiting with a null countdown start.  Every operation
    of a client leaves the countdown start non-null on waiting rooms
    only, provided that a manual start works from a snapshot whose
    status is the status of the stored row. *)
Theorem countdown_cleared_with_start (o : Op) (b : list Tick) (s : Store)
  (Hinv : countdown_only_while_waiting s)
  (Hfresh : match o with
            | StartBattle roomId _ room _ => status_agrees room roomId s
            | _ => True
            end) :
  all_calls clears_countdown_on_start (program o) /\
  all_calls clears_countdown_with_status (program o) /\
  (forall roomId cached,
     all_calls (is_revert_write roomId) (revertToWaiting roomId cached)) /\
  countdown_only_while_waiting (final (run (program o) b s)).
Proof.
  split; [apply program_clears_countdown_on_start |].
  split; [apply program_clears_countdown_with_status |].
  split; [intros roomId cached; apply revertToWaiting_is_revert_write |].
  apply (wp_run (program o) (fun _ s' => countdown_only_while_waiting s')).
  pose proof (program_keeps_countdown_waiting o) as Hcalls.
  destruct o;
    try (apply (wp_all_calls countdown_only_while_waiting keeps_countdown_waiting);
         [intros R q t s0; apply keeps_countdown_waiting_sound
         | exact Hcalls | exact Hinv]).
  apply startBattle_keeps_countdown_waiting; assumption.
Qed.

Lemma countdown_cleared_with_start_witness :
  countdown_only_while_waiting arena_counting.
Proof.
  apply (countdown_cleared_with_start
           (StartBattle "R9" "u-hana" (snapshot arena_open "R9") 50000)
           [quiet] arena_open).
  - intros r [Hr | []] Hc. subst r. reflexivity.
  - intros r [Hr | []] _. subst r. reflexivity.
Defined.

(* ================================================================== *)
(** * Capacity *)

Lemma keyed_unique (l : list Room) (r r' : Room) :
  NoDup (map id l) -> In r l -> In r' l -> id r = id r' -> r = r'.
Proof.
  induction l as [| x l IH]; simpl; intros Hnd Hr Hr' Hid; [contradiction |].
  inversion Hnd as [| ? ? Hx Hl]; subst.
  destruct Hr as [Hr | Hr], Hr' as [Hr' | Hr'].
  - congruence.
  - subst x. exfalso. apply Hx. rewrite Hid. apply in_map. exact Hr'.
  - subst x. exfalso. apply Hx. rewrite <- Hid. apply in_map. exact Hr.
  - exact (IH Hl Hr Hr' Hid).
Qed.

Lemma length_filter_filter {T : Type} (f g : T -> bool) (l : list T) :
  (List.length (filter f (filter g l)) <= List.length (filter f l))%nat.
Proof.
  induction l as [| x l IH]; simpl; [lia |].
  destruct (g x); simpl; destruct (f x); simpl; lia.
Qed.

Lemma headcount_unreferenced (s : Store) (u : string) :
  referenced s -> ~ In u (map id (rooms s)) -> participants_of s u = [].
Proof.
  intros Href Hu. unfold participants_of.
  assert (H : forall p, In p (participants s) -> (battle_room_id p =? u)%string = false).
  { intros p Hp. apply String.eqb_neq. intros E. apply Hu. rewrite <- E.
    exact (Href p Hp). }
  induction (participants s) as [| p l IH]; simpl; [reflexivity |].
  rewrite (H p (or_introl eq_refl)). apply IH.
  intros q Hq. apply H. right. exact Hq.
Qed.

Lemma headcount_after_insert (rs : list Room) (ps : list Participant)
  (p : Participant) (rid : string) :
  headcount (mkStore rs (ps ++ [p])) rid
  = headcount (mkStore rs ps) rid
    + (if (battle_room_id p =? rid)%string then 1 else 0).
Proof.
  unfold headcount, participants_of. simpl. rewrite filter_app, length_app.
  simpl. destruct (battle_room_id p =? rid)%string; simpl; lia.
Qed.

(** A room with a fresh id and room for at least nobody. *)
Lemma insert_room_consistent (s : Store) (r : Room) :
  consistent s ->
  existsb (fun x => id x =? id r)%string (rooms s) = false ->
  0 <= max_players r ->
  consistent (mkStore (rooms s ++ [r]) (participants s)).
Proof.
  intros [Hk [Href Hcap]] Hfresh Hmax.
  destruct (existsb_id_false _ _ Hfresh) as [_ Hnew].
  repeat split.
  - unfold keyed. simpl. rewrite map_app. simpl.
    apply (Permutation_NoDup (Permutation_cons_append (map id (rooms s)) (id r))).
    constructor; assumption.
  - intros p Hp. simpl. rewrite map_app. apply in_or_app. left. exact (Href p Hp).
  - intros x Hx. simpl in Hx. apply in_app_or in Hx.
    destruct Hx as [Hx | [Hx | []]].
    + exact (Hcap x Hx).
    + subst x. unfold headcount.
      change (participants_of (mkStore (rooms s ++ [r]) (participants s)) (id r))
        with (participants_of s (id r)).
      rewrite (headcount_unreferenced s (id r) Href Hnew). simpl. exact Hmax.
Qed.

(** One more participant in a room that is short of capacity. *)
Lemma insert_participant_consistent (s : Store) (r : Room)
  (pid u name : string) (t : Z) :
  consistent s ->
  In r (rooms s) ->
  headcount s (id r) < max_players r ->
  consistent (mkStore (rooms s)
                      (participants s ++ [mkParticipant pid (id r) u name t])).
Proof.
  intros [Hk [Href Hcap]] Hr Hroom. repeat split.
  - exact Hk.
  - intros p Hp. simpl in Hp. apply in_app_or in Hp.
    destruct Hp as [Hp | [Hp | []]]; [exact (Href p Hp) |].
    subst p. simpl. apply in_map. exact Hr.
  - intros x Hx. simpl in Hx. rewrite headcount_after_insert. simpl.
    change (headcount (mkStore (rooms s) (participants s)) (id x))
      with (headcount s (id x)).
    destruct (id r =? id x)%string eqn:E.
    + apply String.eqb_eq in E.
      rewrite <- (keyed_unique _ _ _ Hk Hr Hx E). lia.
    + specialize (Hcap x Hx). lia.
Qed.

Lemma room_update_or_removal_sound (R : Type) (q : Query R) (t : Tick)
  (s : Store) :
  room_update_or_removal R q -> consistent s -> consistent (fst (answer q t s)).
Proof.
  intros Hq Hs. unfold answer. destruct (fault t); [exact Hs |].
  destruct q; simpl in *; try contradiction; try exact Hs.
  - destruct Hs as [Hk [Href Hcap]]. repeat split.
    + unfold keyed. simpl. rewrite map_id_update. exact Hk.
    + intros x Hx. simpl. rewrite map_id_update. exact (Href x Hx).
    + intros x Hx. simpl in Hx. apply in_map_iff in Hx.
      destruct Hx as [x0 [Hx0 Hin]]. specialize (Hcap x0 Hin).
      destruct (id x0 =? id')%string; subst x; exact Hcap.
  - destruct Hs as [Hk [Href Hcap]]. repeat split.
    + exact Hk.
    + intros x Hx. simpl in Hx. apply filter_In in Hx. exact (Href x (proj1 Hx)).
    + intros x Hx. specialize (Hcap x Hx). unfold headcount, participants_of in *.
      simpl.
      pose proof (length_filter_filter
                    (fun p => (battle_room_id p =? id x)%string)
                    (fun p => negb ((battle_room_id p =? battle_room_id')%string
                                    && (user_id p =? user_id')%string))
                    (participants s)).
      lia.
Qed.

Lemma wp_silent {A : Type} (m : Prog A) (Q : Err + A -> Store -> Prop) (s : Store) :
  silent m -> (forall r, Q r s) -> wp m Q s.
Proof.
  induction m as [a | e | u k IH | R q k IH]; simpl; intros Hm HQ;
    [apply HQ | apply HQ | apply IH; assumption | destruct Hm].
Qed.

(** A mutation whose callbacks only touch the client keeps what its
    [mutationFn] keeps. *)
Lemma wp_useMutation {A : Type} (I : Store -> Prop) (m : Prog A)
  (onSuccess : A -> Prog unit) (onError : Err -> Prog unit) (s : Store) :
  wp m (fun _ s' => I s') s ->
  (forall a, silent (onSuccess a)) ->
  (forall e, silent (onError e)) ->
  wp (useMutation m onSuccess onError) (fun _ s' => I s') s.
Proof.
  intros Hm HS HE. unfold useMutation. apply wp_catch, wp_bind.
  apply (wp_mono m (fun _ s' => I s')); [| exact Hm].
  intros r s' HI. destruct r as [e | a].
  - apply wp_silent; [apply HE | intros; exact HI].
  - apply wp_silent; [apply HS |]. intros [e | u].
    + apply wp_silent; [apply HE | intros; exact HI].
    + exact HI.
Qed.

Lemma maxPlayers_positive (bt : BattleType) : 0 <= maxPlayers bt.
Proof. destruct bt; vm_compute; congruence. Qed.

Lemma insert_participant_applied (rid u name : string) (t : Tick) (s : Store)
  (x : unit) :
  snd (answer (InsertParticipant rid u name) t s) = inr x ->
  fst (answer (InsertParticipant rid u name) t s)
  = mkStore (rooms s)
            (participants s ++ [mkParticipant (uuid t) rid u name (at_ms t)]).
Proof.
  unfold answer. destruct (fault t); [discriminate |].
  destruct (existsb _ _); [discriminate | reflexivity].
Qed.

Lemma createRoom_consistent (user : option User) (settings : BattleSettings)
  (roomCode : string) (s : Store) :
  consistent s ->
  wp (createRoom_mutationFn user settings roomCode)
     (fun _ s' => consistent s') s.
Proof.
  intros Hs. unfold createRoom_mutationFn.
  destruct user as [u |]; [| exact Hs]. simpl. intros t1.
  destruct (snd (answer (InsertRoom _ _ _ _ _ _ _ _) t1 s)) as [e | newRoom] eqn:E1.
  - rewrite (answer_failed _ _ _ _ E1). exact Hs.
  - destruct (insert_room_applied _ _ _ _ _ _ _ _ _ _ _ E1) as [Hfresh [Hnew Hs1]].
    rewrite Hs1.
    assert (Hfresh' : existsb (fun r => id r =? id newRoom)%string (rooms s) = false)
      by (rewrite Hnew; exact Hfresh).
    assert (Hc1 : consistent (mkStore (rooms s ++ [newRoom]) (participants s))).
    { apply insert_room_consistent; [exact Hs | exact Hfresh' |].
      rewrite Hnew. simpl. apply maxPlayers_positive. }
    simpl. intros t2.
    destruct (snd (answer (InsertParticipant _ _ _) t2 _)) as [e2 | x] eqn:E2.
    + rewrite (answer_failed _ _ _ _ E2). simpl. intros t3.
      destruct (fault t3) as [e3 |] eqn:E3.
      * rewrite (answer_fault _ _ _ _ E3). simpl. exact Hc1.
      * rewrite (delete_inserted_room s newRoom t3 Hfresh' E3).
        destruct (snd _); exact Hs.
    + rewrite (insert_participant_applied _ _ _ _ _ _ E2). simpl.
      apply (insert_participant_consistent
               (mkStore (rooms s ++ [newRoom]) (participants s)) newRoom);
        [exact Hc1 | simpl; apply in_or_app; right; left; reflexivity |].
      destruct Hs as [_ [Href _]].
      destruct (existsb_id_false _ _ Hfresh') as [_ Hn].
      unfold headcount.
      change (participants_of (mkStore (rooms s ++ [newRoom]) (participants s))
                              (id newRoom))
        with (participants_of s (id newRoom)).
      rewrite (headcount_unreferenced s (id newRoom) Href Hn).
      rewrite Hnew. simpl. destruct (battleType settings); vm_compute; reflexivity.
Qed.

Lemma select_waiting_found (c : string) (t : Tick) (s : Store) (room : RoomData) :
  snd (answer (SelectWaitingByCode c) t s) = inr room ->
  exists r, In r (rooms s) /\ room = with_participants s r.
Proof.
  unfold answer. destruct (fault t); [discriminate |]. simpl.
  destruct (filter _ (rooms s)) as [| r [| r' l]] eqn:E; simpl;
    try discriminate.
  intros H. injection H as H. exists r. split; [| symmetry; exact H].
  assert (Hin : In r (filter (fun r0 => (room_code r0 =? c)%string
                                        && Status_eqb (status r0) waiting)
                             (rooms s)))
    by (rewrite E; left; reflexivity).
  apply filter_In in Hin. exact (proj1 Hin).
Qed.

Lemma select_keeps_store (c : string) (t : Tick) (s : Store) :
  fst (answer (SelectWaitingByCode c) t s) = s.
Proof. unfold answer. destruct (fault t); reflexivity. Qed.

Lemma joinRoomByCode_consistent (user : option User) (roomCode : string)
  (s : Store) :
  consistent s ->
  wp (joinRoomByCode_mutationFn user roomCode) (fun _ s' => consistent s') s.
Proof.
  intros Hs. unfold joinRoomByCode_mutationFn.
  destruct user as [u |]; [| exact Hs]. simpl. intros t1.
  rewrite select_keeps_store.
  destruct (snd (answer (SelectWaitingByCode _) t1 s)) as [e | room] eqn:E1.
  - destruct (code e =? "PGRST116")%string; exact Hs.
  - destruct (select_waiting_found _ _ _ _ E1) as [r [Hr Hroom]]. subst room.
    rewrite currentPlayers_headcount, Z.geb_leb.
    destruct (max_players (with_participants s r) <=? headcount s (id r)) eqn:Hfull;
      [exact Hs |].
    apply Z.leb_gt in Hfull. simpl in Hfull.
    destruct (is_member (uid u) (battle_participants (with_participants s r)));
      [exact Hs |].
    simpl. intros t2.
    destruct (snd (answer (InsertParticipant _ _ _) t2 s)) as [e2 | x] eqn:E2.
    + rewrite (answer_failed _ _ _ _ E2). exact Hs.
    + rewrite (insert_participant_applied _ _ _ _ _ _ E2). simpl.
      apply insert_participant_consistent; assumption.
Qed.

Lemma program_updates_or_removes (o : Op) :
  match o with
  | CreateRoom _ _ _ | JoinRoomByCode _ _ => True
  | _ => all_calls room_update_or_removal (program o)
  end.
Proof.
  destruct o; try exact I;
    unfold program, leaveRoomMutation, removeParticipantMutation,
    startBattleMutation, useMutation, forget,
    leaveRoom_mutationFn, leaveRoom_onSuccess, transferHost, revertToWaiting,
    removeParticipant_mutationFn, startBattle_mutationFn, pingHost_mutationFn,
    countdownEffect, countdownTick, fetchRoom;
    paths.
Qed.

(** Every operation, run to completion, keeps the store consistent. *)
Lemma program_consistent (o : Op) (s : Store) :
  consistent s -> wp (program o) (fun _ s' => consistent s') s.
Proof.
  intros Hs. pose proof (program_updates_or_removes o) as Hcalls.
  destruct o;
    try (apply (wp_all_calls consistent room_update_or_removal);
         [intros R q t s0; apply room_update_or_removal_sound
         | exact Hcalls | exact Hs]).
  - apply wp_useMutation;
      [apply createRoom_consistent; exact Hs
      | intros a; unfold createRoom_onSuccess, enter_room; paths
      | intros e; unfold createRoom_onError; paths].
  - apply wp_useMutation;
      [apply joinRoomByCode_consistent; exact Hs
      | intros a; unfold joinRoomByCode_onSuccess, enter_room; paths
      | intros e; unfold joinRoomByCode_onError; paths].
Qed.

Lemma history_consistent (ops : list Op) :
  forall b s, consistent s -> Forall consistent (history ops b s).
Proof.
  induction ops as [| o ops IH]; simpl; intros b s Hs; constructor.
  - apply (wp_run (program o) (fun _ s' => consistent s')).
    apply program_consistent. exact Hs.
  - apply IH. apply (wp_run (program o) (fun _ s' => consistent s')).
    apply program_consistent. exact Hs.
Qed.

Lemma within_capacityb_spec (s : Store) :
  within_capacityb s = true <-> within_capacity s.
Proof.
  unfold within_capacityb, within_capacity. rewrite forallb_forall.
  split; intros H r Hr; specialize (H r Hr); [apply Z.leb_le | apply Z.leb_le];
    exact H.
Qed.

Lemma empty_store_consistent : consistent empty_store.
Proof.
  repeat split; [constructor | intros p [] | intros r []].
Qed.

(** C2, as stated, fails: the capacity check and the insert of a join
    are two requests.  When Alice and Bob join the open duel at once,
    both lookups see one participant, both inserts are applied, and the
    room of two holds three. *)
Lemma racing_joins_overfill_the_duel :
  within_capacityb duel_open = true /\
  map max_players (rooms duel_raced) = [2] /\
  headcount duel_raced "R1" = 3 /\
  within_capacityb duel_raced = false /\
  ~ within_capacity duel_raced.
Proof.
  repeat split. intros H. apply within_capacityb_spec in H. discriminate H.
Qed.

(** C2 (amended): when every operation runs to completion before the
    next one starts, no room ever has more participant rows than its
    capacity: after each operation of any sequence of operations of any
    clients, on any consistent store and whatever requests the backend
    fails.  A join that finds the room with as many participants as its
    capacity, or more, fails with "Room is full." and inserts nothing. *)
Theorem serial_operations_respect_capacity (ops : list Op) (b : list Tick)
  (s : Store) (u : User) (roomCode : string) (r : Room)
  (Hs : consistent s) :
  Forall within_capacity (history ops b s) /\
  (fault (hd quiet b) = None ->
   filter (fun x => (room_code x =? toUpperCase roomCode)%string
                    && Status_eqb (status x) waiting) (rooms s) = [r] ->
   max_players r <= headcount s (id r) ->
   result (run (joinRoomByCode_mutationFn (Some u) roomCode) b s)
   = inl (JsError "Room is full.") /\
   final (run (joinRoomByCode_mutationFn (Some u) roomCode) b s) = s).
Proof.
  split.
  - apply (Forall_impl within_capacity (P := consistent));
      [intros x [_ [_ H]]; exact H | apply history_consistent; exact Hs].
  - intros Hup Hone Hfull. unfold joinRoomByCode_mutationFn. simpl.
    rewrite (select_waiting_answer _ _ _ Hup), Hone. simpl.
    rewrite currentPlayers_headcount, Z.geb_leb.
    apply Z.leb_le in Hfull. rewrite Hfull. simpl. split; reflexivity.
Qed.

Lemma duel_full_consistent : consistent duel_full.
Proof.
  repeat split.
  - constructor; [intros [] | constructor].
  - intros p [Hp | [Hp | []]]; subst p; left; reflexivity.
  - intros r [Hr | []]. subst r. vm_compute. congruence.
Qed.

Lemma serial_operations_respect_capacity_witness :
  Forall within_capacity
    (history [JoinRoomByCode (Some bob) "abc123";
              LeaveRoom "R1" "u-hana" (snapshot duel_full "R1")
                        (snapshot duel_full "R1");
              JoinRoomByCode (Some bob) "abc123"]
             [quiet; quiet; quiet; quiet; ok "P3" 3000] duel_full) /\
  result (run (joinRoomByCode_mutationFn (Some bob) "abc123") [quiet] duel_full)
  = inl (JsError "Room is full.") /\
  final (run (joinRoomByCode_mutationFn (Some bob) "abc123") [quiet] duel_full)
  = duel_full.
Proof.
  split.
  - apply (serial_operations_respect_capacity _ _ duel_full bob "abc123"
             (mkRoom "R1" "ABC123" B1v1 2 waiting 15 10 "Biology" "u-hana"
                     None None None None 1000)).
    exact duel_full_consistent.
  - apply (serial_operations_respect_capacity [] [quiet] duel_full bob "abc123"
             (mkRoom "R1" "ABC123" B1v1 2 waiting 15 10 "Biology" "u-hana"
                     None None None None 1000));
      [exact duel_full_consistent | reflexivity | reflexivity
      | vm_compute; congruence].
Defined.

(* ================================================================== *)
(** * Sequencing and the outcome of a run *)

Lemma run_bind {A B : Type} (m : Prog A) (f : A -> Prog B) :
  forall b s,
    run (bind m f) b s
    = let o := run m b s in
      match result o with
      | inl e => mkOutcome (final o) (unused o) (log o) (inl e)
      | inr a =>
          let o' := run (f a) (unused o) (final o) in
          mkOutcome (final o') (unused o') (log o ++ log o')%list (result o')
      end.
Proof.
  induction m as [a | e | u k IH | R q k IH]; simpl; intros b s.
  - destruct (run (f a) b s); reflexivity.
  - reflexivity.
  - rewrite IH. simpl. destruct (result (run k b s)); reflexivity.
  - destruct (answer q (hd quiet b) s) as [s' r]. apply IH.
Qed.

Lemma run_catch {A : Type} (m : Prog A) (h : Err -> Prog A) :
  forall b s,
    run (catch m h) b s
    = let o := run m b s in
      match result o with
      | inr a => mkOutcome (final o) (unused o) (log o) (inr a)
      | inl e =>
          let o' := run (h e) (unused o) (final o) in
          mkOutcome (final o') (unused o') (log o ++ log o')%list (result o')
      end.
Proof.
  induction m as [a | e | u k IH | R q k IH]; simpl; intros b s.
  - reflexivity.
  - destruct (run (h e) b s); reflexivity.
  - rewrite IH. simpl. destruct (result (run k b s)); reflexivity.
  - destruct (answer q (hd quiet b) s) as [s' r]. apply IH.
Qed.

Lemma no_emits_run {A : Type} (m : Prog A) :
  all_emits (fun _ => False) m -> forall b s, log (run m b s) = [].
Proof.
  intros H b s. pose proof (all_emits_run _ _ H b s) as Hall.
  destruct (log (run m b s)) as [| u l]; [reflexivity |].
  inversion Hall as [| ? ? Hu _]. destruct Hu.
Qed.

(** A mutation whose [mutationFn] fails runs the error callback on what
    the [mutationFn] threw, and nothing else. *)
Lemma run_useMutation_failed {A : Type} (m : Prog A)
  (onSuccess : A -> Prog unit) (onError : Err -> Prog unit)
  (b : list Tick) (s : Store) (e : Err) :
  result (run m b s) = inl e ->
  run (useMutation m onSuccess onError) b s
  = let o := run m b s in
    let o' := run (onError e) (unused o) (final o) in
    mkOutcome (final o') (unused o') (log o ++ log o')%list (result o').
Proof.
  intros H. unfold useMutation. rewrite run_catch, run_bind. simpl.
  rewrite H. simpl. reflexivity.
Qed.

Lemma wp_and {A : Type} (m : Prog A) (Q1 Q2 : Err + A -> Store -> Prop) :
  forall s, wp m Q1 s -> wp m Q2 s -> wp m (fun r s' => Q1 r s' /\ Q2 r s') s.
Proof.
  induction m as [a | e | u k IH | R q k IH]; simpl; intros s H1 H2;
    [split; assumption | split; assumption | apply IH; assumption |].
  intros t. apply IH; [apply H1 | apply H2].
Qed.

(* ================================================================== *)
(** * The lobby: creating and joining *)

Lemma or_else_nonempty (a : option string) (b : string) :
  b <> "" -> or_else a b <> "".
Proof.
  intros Hb. unfold or_else. destruct a as [x |]; [| exact Hb].
  destruct (x =? "")%string eqn:E; [exact Hb |].
  apply String.eqb_neq. exact E.
Qed.

(** X6: the name a room is created or joined under is never empty:
    a missing or empty username falls back to the email address, and a
    missing or empty email address to "Guest". *)
Theorem display_name_nonempty (u : User) :
  display_name u <> "" /\
  (meta_username u = None \/ meta_username u = Some "" ->
   email u = None \/ email u = Some "" ->
   display_name u = "Guest").
Proof.
  split.
  - unfold display_name. apply or_else_nonempty, or_else_nonempty. discriminate.
  - unfold display_name, or_else.
    intros [-> | ->] [-> | ->]; reflexivity.
Qed.

Lemma display_name_nonempty_witness :
  display_name (mkUser "u-carl" (Some "") None) = "Guest".
Proof.
  apply (display_name_nonempty (mkUser "u-carl" (Some "") None));
    [right; reflexivity | left; reflexivity].
Defined.

Lemma upper_ascii_idempotent (c : ascii) :
  upper_ascii (upper_ascii c) = upper_ascii c.
Proof. destruct c as [[] [] [] [] [] [] [] []]; reflexivity. Qed.

Lemma toUpperCase_idempotent (s : string) :
  toUpperCase (toUpperCase s) = toUpperCase s.
Proof.
  induction s as [| c s IH]; simpl; [reflexivity |].
  rewrite upper_ascii_idempotent, IH. reflexivity.
Qed.

Lemma toUpperCase_length (s : string) :
  String.length (toUpperCase s) = String.length s.
Proof. induction s as [| c s IH]; simpl; [reflexivity | rewrite IH; reflexivity]. Qed.

Lemma upper_ascii_is_ascii (c : ascii) :
  (nat_of_ascii c <? 128)%nat = true ->
  (nat_of_ascii (upper_ascii c) <? 128)%nat = true.
Proof.
  destruct c as [[] [] [] [] [] [] [] []]; intros H;
    first [discriminate H | reflexivity].
Qed.

Lemma toUpperCase_is_ascii (s : string) :
  is_ascii s = true -> is_ascii (toUpperCase s) = true.
Proof.
  induction s as [| c s IH]; simpl; intros H; [reflexivity |].
  apply andb_true_iff in H. destruct H as [Hc Hs].
  rewrite (upper_ascii_is_ascii c Hc), (IH Hs). reflexivity.
Qed.

(** X5: room codes of ASCII characters are case-insensitive on input.
    The lookup uses the upper-cased code; on a code of ASCII characters
    upper-casing gives a code of ASCII characters of the same length
    and changes nothing when done again, so a code typed in lower or
    mixed case runs the very join its upper-case spelling runs. *)
Theorem room_code_case_insensitive (user : option User) (roomCode : string)
  (Hascii : is_ascii roomCode = true) :
  is_ascii (toUpperCase roomCode) = true /\
  toUpperCase (toUpperCase roomCode) = toUpperCase roomCode /\
  String.length (toUpperCase roomCode) = String.length roomCode /\
  joinRoomByCode_mutationFn user (toUpperCase roomCode)
  = joinRoomByCode_mutationFn user roomCode.
Proof.
  split; [exact (toUpperCase_is_ascii roomCode Hascii) |].
  split; [apply toUpperCase_idempotent | split; [apply toUpperCase_length |]].
  unfold joinRoomByCode_mutationFn. rewrite toUpperCase_idempotent. reflexivity.
Qed.

Lemma room_code_case_insensitive_witness :
  joinRoomByCode_mutationFn (Some bob) (toUpperCase "abc123")
  = joinRoomByCode_mutationFn (Some bob) "abc123".
Proof.
  apply (room_code_case_insensitive (Some bob) "abc123").
  reflexivity.
Defined.

Lemma createRoom_mutationFn_quiet (user : option User)
  (settings : BattleSettings) (roomCode : string) :
  all_emits (fun _ => False) (createRoom_mutationFn user settings roomCode).
Proof. unfold createRoom_mutationFn. paths. Qed.

Lemma joinRoomByCode_mutationFn_quiet (user : option User) (roomCode : string) :
  all_emits (fun _ => False) (joinRoomByCode_mutationFn user roomCode).
Proof. unfold joinRoomByCode_mutationFn. paths. Qed.

(** X2: a creation or a join that fails, for whatever reason, shows one
    error notice with the message of what was thrown and does nothing
    else on the client: the view and the current room stay as they
    are. *)
Theorem failed_lobby_mutation_notice (user : option User)
  (settings : BattleSettings) (roomCode : string) (b : list Tick) (s : Store)
  (e : Err) :
  (result (run (createRoom_mutationFn user settings roomCode) b s) = inl e ->
   log (run (createRoomMutation user settings roomCode) b s)
   = [Toast "Error" ("Failed to create room: " ++ err_message e)]) /\
  (result (run (joinRoomByCode_mutationFn user roomCode) b s) = inl e ->
   log (run (joinRoomByCodeMutation user roomCode) b s)
   = [Toast "Error" ("Failed to join room: " ++ err_message e)] /\
   final (run (joinRoomByCodeMutation user roomCode) b s) = s).
Proof.
  split.
  - intros H. unfold createRoomMutation.
    rewrite (run_useMutation_failed _ _ _ _ _ _ H). simpl.
    rewrite (no_emits_run _ (createRoom_mutationFn_quiet _ _ _)). reflexivity.
  - intros H. unfold joinRoomByCodeMutation.
    rewrite (run_useMutation_failed _ _ _ _ _ _ H). simpl.
    rewrite (no_emits_run _ (joinRoomByCode_mutationFn_quiet _ _)).
    split; [reflexivity |].
    revert H. unfold joinRoomByCode_mutationFn.
    destruct user as [u |]; [| reflexivity]. simpl.
    pose proof (select_keeps_store (toUpperCase roomCode) (hd quiet b) s) as Hk.
    destruct (answer (SelectWaitingByCode _) (hd quiet b) s) as [s1 r1].
    simpl in Hk. subst s1.
    destruct r1 as [e1 | room].
    + destruct (code e1 =? "PGRST116")%string; reflexivity.
    + destruct (currentPlayers room >=? max_players room); [reflexivity |].
      destruct (is_member _ _); [discriminate |]. simpl.
      destruct (answer (InsertParticipant _ _ _) _ s) as [s2 r2] eqn:E2.
      destruct r2 as [e2 | x]; [| discriminate]. simpl. intros _.
      pose proof (answer_failed (InsertParticipant (id room) (uid u) (display_name u))
                    (hd quiet (tl b)) s e2) as Hf.
      rewrite E2 in Hf. apply Hf. reflexivity.
Qed.

Lemma failed_lobby_mutation_notice_witness :
  log (run (joinRoomByCodeMutation (Some bob) "abc123") [quiet] duel_full)
  = [Toast "Error" "Failed to join room: Room is full."] /\
  final (run (joinRoomByCodeMutation (Some bob) "abc123") [quiet] duel_full)
  = duel_full.
Proof.
  apply (failed_lobby_mutation_notice (Some bob) (mkSettings B1v1 15 10 "Biology")
           "abc123" [quiet] duel_full (JsError "Room is full.")).
  reflexivity.
Defined.

(** X1: a creation whose two inserts succeed adds exactly the new room
    and the creator's participant row.  The room is waiting, has no
    countdown start, has the capacity of its battle type and the creator
    as host; the creator is its only participant; the client moves to
    the waiting room of the new room. *)
Theorem createRoom_success (u : User) (settings : BattleSettings)
  (roomCode : string) (t1 t2 : Tick) (b : list Tick) (s : Store)
  (newRoom : Room)
  (Href : referenced s)
  (Hroom : snd (answer (InsertRoom roomCode (battleType settings)
                          (maxPlayers (battleType settings))
                          (timePerQuestion settings) (totalQuestions settings)
                          (settings_subject settings) (uid u) waiting) t1 s)
           = inr newRoom)
  (Hparticipant :
     snd (answer (InsertParticipant (id newRoom) (uid u) (display_name u)) t2
                 (mkStore (rooms s ++ [newRoom]) (participants s)))
     = inr tt) :
  let out := run (createRoomMutation (Some u) settings roomCode)
                 (t1 :: t2 :: b) s in
  let creator := mkParticipant (uuid t2) (id newRoom) (uid u) (display_name u)
                               (at_ms t2) in
  final out = mkStore (rooms s ++ [newRoom]) (participants s ++ [creator]) /\
  participants_of (final out) (id newRoom) = [creator] /\
  (host_id newRoom = uid u /\ status newRoom = waiting /\
   countdown_initiated_at newRoom = None /\ room_code newRoom = roomCode /\
   max_players newRoom = maxPlayers (battleType settings)) /\
  log out = [SetCurrentRoomId (Some (id newRoom)); SetCurrentView room_waiting;
             InvalidateQueries "battleRooms";
             Toast "Room Created!"
                   ("Room code: " ++ roomCode ++ ". Waiting for players...")].
Proof.
  cbv zeta.
  destruct (insert_room_applied _ _ _ _ _ _ _ _ _ _ _ Hroom) as [Hfresh [Hnew Hs1]].
  pose proof (insert_participant_applied _ _ _ _ _ _ Hparticipant) as Hs2.
  assert (Hcode : room_code newRoom = roomCode) by (rewrite Hnew; reflexivity).
  unfold createRoomMutation, useMutation, createRoom_mutationFn. simpl.
  destruct (answer (InsertRoom _ _ _ _ _ _ _ _) t1 s) as [s1 r1] eqn:E1.
  simpl in Hroom, Hs1. subst r1 s1. simpl.
  destruct (answer (InsertParticipant _ _ _) t2 _) as [s2 r2] eqn:E2.
  simpl in Hparticipant, Hs2. subst r2 s2. simpl.
  rewrite Hcode. repeat apply conj; try reflexivity; try (rewrite Hnew; reflexivity).
  unfold participants_of. simpl. rewrite filter_app. simpl.
  rewrite String.eqb_refl.
  assert (Hn : ~ In (id newRoom) (map id (rooms s))).
  { rewrite Hnew. simpl. exact (proj2 (existsb_id_false _ _ Hfresh)). }
  pose proof (headcount_unreferenced s (id newRoom) Href Hn) as Hz.
  unfold participants_of in Hz. rewrite Hz. reflexivity.
Qed.

Lemma createRoom_success_witness :
  participants_of duel_open "R1"
  = [mkParticipant "P1" "R1" "u-hana" "Hana" 1000].
Proof.
  apply (createRoom_success hana (mkSettings B1v1 15 10 "Biology") "ABC123"
           (ok "R1" 1000) (ok "P1" 1000) [] empty_store
           (mkRoom "R1" "ABC123" B1v1 2 waiting 15 10 "Biology" "u-hana"
                   None None None None 1000));
    [intros p [] | reflexivity | reflexivity].
Defined.

(** X3: a join that finds the room short of capacity, for a caller who
    is not in it yet, adds exactly one participant row, the caller's,
    under the caller's display name, and touches no room row; the room
    then has one participant more, still within its capacity, and the
    client moves to its waiting room. *)
Theorem joinRoomByCode_adds_one_row (u : User) (roomCode : string)
  (t1 t2 : Tick) (b : list Tick) (s : Store) (r : Room)
  (Hup : fault t1 = None)
  (Hone : filter (fun x => (room_code x =? toUpperCase roomCode)%string
                           && Status_eqb (status x) waiting) (rooms s) = [r])
  (Hroom : headcount s (id r) < max_players r)
  (Hnew : is_member (uid u) (participants_of s (id r)) = false)
  (Hinsert : snd (answer (InsertParticipant (id r) (uid u) (display_name u)) t2 s)
             = inr tt) :
  let out := run (joinRoomByCodeMutation (Some u) roomCode) (t1 :: t2 :: b) s in
  let joiner := mkParticipant (uuid t2) (id r) (uid u) (display_name u) (at_ms t2) in
  final out = mkStore (rooms s) (participants s ++ [joiner]) /\
  headcount (final out) (id r) = headcount s (id r) + 1 /\
  headcount (final out) (id r) <= max_players r /\
  is_member (uid u) (participants_of (final out) (id r)) = true /\
  log out = [SetCurrentRoomId (Some (id r)); SetCurrentView room_waiting;
             InvalidateQueries "battleRooms";
             Toast "Joined Room!" ("Welcome to room " ++ room_code r ++ ".")].
Proof.
  cbv zeta.
  pose proof (insert_participant_applied _ _ _ _ _ _ Hinsert) as Hs2.
  unfold joinRoomByCodeMutation, useMutation, joinRoomByCode_mutationFn. simpl.
  rewrite (select_waiting_answer _ _ _ Hup), Hone. simpl.
  rewrite currentPlayers_headcount, Z.geb_leb.
  apply Z.leb_gt in Hroom. rewrite Hroom. simpl. apply Z.leb_gt in Hroom.
  change (battle_participants (with_participants s r))
    with (participants_of s (id r)).
  rewrite Hnew. simpl.
  destruct (answer (InsertParticipant _ _ _) t2 s) as [s2 r2] eqn:E2.
  simpl in Hinsert, Hs2. subst r2 s2. simpl.
  assert (Hcount : headcount (mkStore (rooms s)
                     (participants s
                      ++ [mkParticipant (uuid t2) (id r) (uid u) (display_name u)
                                        (at_ms t2)])) (id r)
                   = headcount s (id r) + 1).
  { rewrite headcount_after_insert. simpl. rewrite String.eqb_refl.
    destruct s; reflexivity. }
  repeat apply conj; try reflexivity.
  - exact Hcount.
  - rewrite Hcount. lia.
  - unfold participants_of, is_member. simpl. rewrite filter_app, existsb_app.
    simpl. rewrite !String.eqb_refl. simpl. rewrite String.eqb_refl.
    apply orb_true_r.
Qed.

Lemma joinRoomByCode_adds_one_row_witness :
  headcount duel_full "R1" = headcount duel_open "R1" + 1.
Proof.
  apply (joinRoomByCode_adds_one_row alice "abc123" quiet (ok "P2" 2000) []
           duel_open
           (mkRoom "R1" "ABC123" B1v1 2 waiting 15 10 "Biology" "u-hana"
                   None None None None 1000));
    reflexivity.
Defined.

(* ================================================================== *)
(** * One participant row for a user in a room *)

Lemma NoDup_map_filter {T K : Type} (f : T -> K) (g : T -> bool) (l : list T) :
  NoDup (map f l) -> NoDup (map f (filter g l)).
Proof.
  induction l as [| x l IH]; simpl; intros H; [constructor |].
  inversion H as [| ? ? Hx Hl]; subst.
  destruct (g x); simpl; [| exact (IH Hl)].
  constructor; [| exact (IH Hl)].
  intros Hin. apply Hx. apply in_map_iff in Hin. destruct Hin as [y [Hy Hin]].
  apply filter_In in Hin. rewrite <- Hy. apply in_map. exact (proj1 Hin).
Qed.

Lemma NoDup_snoc {K : Type} (l : list K) (x : K) :
  NoDup l -> ~ In x l -> NoDup (l ++ [x]).
Proof.
  intros Hl Hx. apply (Permutation_NoDup (Permutation_cons_append l x)).
  constructor; assumption.
Qed.

Lemma not_member_no_row (s : Store) (rid u : string) :
  is_member u (participants_of s rid) = false ->
  ~ In (rid, u) (map (fun p => (battle_room_id p, user_id p)) (participants s)).
Proof.
  unfold is_member, participants_of. intros H Hin.
  apply in_map_iff in Hin. destruct Hin as [p [Hp Hin]].
  injection Hp as Hr Hu.
  assert (Hex : existsb (fun p => (user_id p =? u)%string)
                  (filter (fun p => (battle_room_id p =? rid)%string)
                          (participants s)) = true).
  { apply existsb_exists. exists p. split.
    - apply filter_In. split; [exact Hin | apply String.eqb_eq; exact Hr].
    - apply String.eqb_eq. exact Hu. }
  rewrite H in Hex. discriminate Hex.
Qed.

Lemma room_update_or_removal_keeps_one_row_each (R : Type) (q : Query R)
  (t : Tick) (s : Store) :
  room_update_or_removal R q -> one_row_each s ->
  one_row_each (fst (answer q t s)).
Proof.
  intros Hq Hs. unfold answer. destruct (fault t); [exact Hs |].
  destruct q; simpl in *; try contradiction; try exact Hs.
  unfold one_row_each. simpl. apply NoDup_map_filter. exact Hs.
Qed.

Lemma createRoom_one_row_each (user : option User) (settings : BattleSettings)
  (roomCode : string) (s : Store) :
  referenced s -> one_row_each s ->
  wp (createRoom_mutationFn user settings roomCode)
     (fun _ s' => one_row_each s') s.
Proof.
  intros Href Hs. unfold createRoom_mutationFn.
  destruct user as [u |]; [| exact Hs]. simpl. intros t1.
  destruct (snd (answer (InsertRoom _ _ _ _ _ _ _ _) t1 s)) as [e | newRoom] eqn:E1.
  - rewrite (answer_failed _ _ _ _ E1). exact Hs.
  - destruct (insert_room_applied _ _ _ _ _ _ _ _ _ _ _ E1) as [Hfresh [Hnew Hs1]].
    rewrite Hs1. simpl. intros t2.
    destruct (snd (answer (InsertParticipant _ _ _) t2 _)) as [e2 | x] eqn:E2.
    + rewrite (answer_failed _ _ _ _ E2). simpl. intros t3.
      unfold answer. destruct (fault t3); simpl; exact Hs.
    + rewrite (insert_participant_applied _ _ _ _ _ _ E2). simpl.
      unfold one_row_each. simpl. rewrite map_app. simpl.
      apply NoDup_snoc; [exact Hs |].
      apply not_member_no_row.
      assert (Hn : ~ In (id newRoom) (map id (rooms s))).
      { rewrite Hnew. simpl. exact (proj2 (existsb_id_false _ _ Hfresh)). }
      rewrite (headcount_unreferenced s (id newRoom) Href Hn). reflexivity.
Qed.

Lemma joinRoomByCode_one_row_each (user : option User) (roomCode : string)
  (s : Store) :
  one_row_each s ->
  wp (joinRoomByCode_mutationFn user roomCode) (fun _ s' => one_row_each s') s.
Proof.
  intros Hs. unfold joinRoomByCode_mutationFn.
  destruct user as [u |]; [| exact Hs]. simpl. intros t1.
  rewrite select_keeps_store.
  destruct (snd (answer (SelectWaitingByCode _) t1 s)) as [e | room] eqn:E1.
  - destruct (code e =? "PGRST116")%string; exact Hs.
  - destruct (select_waiting_found _ _ _ _ E1) as [r [Hr Hroom]]. subst room.
    destruct (currentPlayers (with_participants s r)
              >=? max_players (with_participants s r)); [exact Hs |].
    change (battle_participants (with_participants s r))
      with (participants_of s (id r)).
    destruct (is_member (uid u) (participants_of s (id r))) eqn:Hm; [exact Hs |].
    simpl. intros t2.
    destruct (snd (answer (InsertParticipant _ _ _) t2 s)) as [e2 | x] eqn:E2.
    + rewrite (answer_failed _ _ _ _ E2). exact Hs.
    + rewrite (insert_participant_applied _ _ _ _ _ _ E2). simpl.
      unfold one_row_each. simpl. rewrite map_app. simpl.
      apply NoDup_snoc; [exact Hs | apply not_member_no_row; exact Hm].
Qed.

Lemma program_one_row_each (o : Op) (s : Store) :
  referenced s -> one_row_each s ->
  wp (program o) (fun _ s' => one_row_each s') s.
Proof.
  intros Href Hs. pose proof (program_updates_or_removes o) as Hcalls.
  destruct o;
    try (apply (wp_all_calls one_row_each room_update_or_removal);
         [intros R q t s0; apply room_update_or_removal_keeps_one_row_each
         | exact Hcalls | exact Hs]).
  - apply wp_useMutation;
      [apply createRoom_one_row_each; assumption
      | intros a; unfold createRoom_onSuccess, enter_room; paths
      | intros e; unfold createRoom_onError; paths].
  - apply wp_useMutation;
      [apply joinRoomByCode_one_row_each; exact Hs
      | intros a; unfold joinRoomByCode_onSuccess, enter_room; paths
      | intros e; unfold joinRoomByCode_onError; paths].
Qed.

Lemma history_one_row_each (ops : list Op) :
  forall b s, consistent s -> one_row_each s ->
              Forall one_row_each (history ops b s).
Proof.
  induction ops as [| o ops IH]; simpl; intros b s Hc Hs; constructor.
  - apply (wp_run (program o) (fun _ s' => one_row_each s')).
    apply program_one_row_each; [exact (proj1 (proj2 Hc)) | exact Hs].
  - apply IH.
    + apply (wp_run (program o) (fun _ s' => consistent s')).
      apply program_consistent. exact Hc.
    + apply (wp_run (program o) (fun _ s' => one_row_each s')).
      apply program_one_row_each; [exact (proj1 (proj2 Hc)) | exact Hs].
Qed.

(** X4: when every operation runs to completion before the next one
    starts, no user ever has two participant rows in one room: creating
    puts the creator into a room nobody is in, and joining inserts only
    for a caller it has not found among the participants. *)
Theorem serial_operations_keep_one_row_each (ops : list Op) (b : list Tick)
  (s : Store)
  (Hs : consistent s)
  (Hone : one_row_each s) :
  Forall one_row_each (history ops b s).
Proof. apply history_one_row_each; assumption. Qed.

Lemma serial_operations_keep_one_row_each_witness :
  Forall one_row_each
    (history [JoinRoomByCode (Some alice) "abc123";
              LeaveRoom "R1" "u-hana" (snapshot duel_full "R1")
                        (snapshot duel_full "R1");
              JoinRoomByCode (Some alice) "abc123";
              JoinRoomByCode (Some hana) "abc123"]
             [quiet; quiet; quiet; quiet; ok "P3" 3000] duel_full).
Proof.
  apply (serial_operations_keep_one_row_each _ _ duel_full).
  - exact duel_full_consistent.
  - unfold one_row_each. simpl.
    constructor; [intros [H | []]; discriminate H |].
    constructor; [intros [] | constructor].
Defined.

(* ================================================================== *)
(** * Leaving and kicking: what happens to the rows *)

Lemma delete_participant_applied (rid u : string) (t : Tick) (s : Store) :
  fault t = None ->
  answer (DeleteParticipant rid u) t s
  = (mkStore (rooms s)
             (filter (fun p => negb ((battle_room_id p =? rid)%string
                                     && (user_id p =? u)%string))
                     (participants s)), inr tt).
Proof. intros H. unfold answer. rewrite H. reflexivity. Qed.

Lemma room_update_only_keeps_participants (R : Type) (q : Query R) (t : Tick)
  (s : Store) :
  room_update_only R q -> participants (fst (answer q t s)) = participants s.
Proof.
  intros Hq. unfold answer. destruct (fault t); [reflexivity |].
  destruct q; simpl in *; try contradiction; reflexivity.
Qed.

Lemma participants_kept {A : Type} (m : Prog A) :
  all_calls room_update_only m ->
  forall b s, participants (final (run m b s)) = participants s.
Proof.
  intros Hm b s.
  apply (wp_run m (fun _ s' => participants s' = participants s)).
  apply (wp_all_calls (fun s' => participants s' = participants s) room_update_only);
    [| exact Hm | reflexivity].
  intros R q t s0 Hq Hs0.
  rewrite (room_update_only_keeps_participants R q t s0 Hq). exact Hs0.
Qed.

Lemma removed_is_no_member (rid u : string) (ps : list Participant) :
  is_member u
    (filter (fun p => (battle_room_id p =? rid)%string)
       (filter (fun p => negb ((battle_room_id p =? rid)%string
                               && (user_id p =? u)%string)) ps))
  = false.
Proof.
  unfold is_member. induction ps as [| p ps IH]; simpl; [reflexivity |].
  destruct (battle_room_id p =? rid)%string eqn:Er,
           (user_id p =? u)%string eqn:Eu; simpl;
    rewrite ?Er; simpl; rewrite ?Eu; simpl; exact IH.
Qed.

Lemma other_rooms_untouched (rid u other : string) (ps : list Participant) :
  other <> rid ->
  filter (fun p => (battle_room_id p =? other)%string)
    (filter (fun p => negb ((battle_room_id p =? rid)%string
                            && (user_id p =? u)%string)) ps)
  = filter (fun p => (battle_room_id p =? other)%string) ps.
Proof.
  intros Hne. induction ps as [| p ps IH]; simpl; [reflexivity |].
  destruct (battle_room_id p =? rid)%string eqn:Er; simpl.
  - apply String.eqb_eq in Er.
    assert (Eo : (battle_room_id p =? other)%string = false)
      by (apply String.eqb_neq; congruence).
    destruct (user_id p =? u)%string; simpl; rewrite ?Eo; exact IH.
  - destruct (battle_room_id p =? other)%string; rewrite IH; reflexivity.
Qed.

Lemma leaveRoom_after_delete_updates_rooms (roomId userId : string)
  (room cached : option RoomData) :
  all_calls room_update_only
    (catch (leaveRoom_onSuccess roomId userId room cached) leaveRoom_onError).
Proof.
  unfold leaveRoom_onSuccess, leaveRoom_onError, transferHost, revertToWaiting.
  paths.
Qed.

(** X8: a leave whose delete is applied removes the rows of the leaving
    user in that room and no other participant row, whatever becomes of
    the host update and of the status update that may follow; a leave
    whose delete fails changes nothing in the store. *)
Theorem leaveRoom_removes_own_rows (roomId userId : string)
  (room cached : option RoomData) (b : list Tick) (s : Store) :
  let out := run (leaveRoomMutation roomId userId room cached) b s in
  (fault (hd quiet b) = None ->
   participants (final out)
   = filter (fun p => negb ((battle_room_id p =? roomId)%string
                            && (user_id p =? userId)%string))
            (participants s) /\
   is_member userId (participants_of (final out) roomId) = false /\
   forall other, other <> roomId ->
                 participants_of (final out) other = participants_of s other) /\
  (forall e, fault (hd quiet b) = Some e -> final out = s).
Proof.
  cbv zeta. unfold leaveRoomMutation, useMutation, leaveRoom_mutationFn. simpl.
  split.
  - intros Hup. rewrite (delete_participant_applied _ _ _ _ Hup). simpl.
    pose proof (participants_kept _
                  (leaveRoom_after_delete_updates_rooms roomId userId room cached)
                  (tl b)
                  (mkStore (rooms s)
                     (filter (fun p => negb ((battle_room_id p =? roomId)%string
                                             && (user_id p =? userId)%string))
                             (participants s)))) as Hkept.
    simpl in Hkept. unfold participants_of. rewrite Hkept.
    split; [reflexivity | split].
    + apply removed_is_no_member.
    + intros other Hne. apply other_rooms_untouched. exact Hne.
  - intros e Hdown. rewrite (answer_fault _ _ _ _ Hdown). reflexivity.
Qed.

Lemma leaveRoom_removes_own_rows_witness :
  is_member "u-hana" (participants_of duel_deserted "R1") = false.
Proof.
  apply (leaveRoom_removes_own_rows "R1" "u-hana" (snapshot duel_open "R1")
           (snapshot duel_open "R1") [quiet] duel_open).
  reflexivity.
Defined.

Lemma kick_after_delete_updates_rooms (roomId : string)
  (cached : option RoomData) :
  all_calls room_update_only
    (catch (emit (InvalidateQueries "battleRoom") ;;;
            emit (Toast "Participant Removed"
                        "A participant has been removed from the room.") ;;;
            revertToWaiting roomId cached)
           (fun error =>
              emit (Toast "Error"
                          ("Failed to remove participant: " ++ err_message error)))).
Proof. unfold revertToWaiting. paths. Qed.

(** X7: the kick.  A client that is not the host of its snapshot, or
    that names itself, sends nothing and is told why.  A host whose
    delete is applied removes the rows of the named user in that room
    and no other row; the next snapshot of the room no longer lists
    that user, whose own client then shows the kicked notice and leaves
    the room view. *)
Theorem removeParticipant_removes_target (roomId userId target : string)
  (room cached : option RoomData) (b : list Tick) (s : Store) :
  let out := run (removeParticipantMutation roomId userId room cached target) b s in
  (is_host room userId = false ->
   final out = s /\ unused out = b /\
   log out = [Toast "Error"
                "Failed to remove participant: Only the host can remove participants."]) /\
  (is_host room userId = true -> target = userId ->
   final out = s /\ unused out = b /\
   log out = [Toast "Error"
                "Failed to remove participant: You cannot remove yourself."]) /\
  (is_host room userId = true -> target <> userId ->
   fault (hd quiet b) = None ->
   participants (final out)
   = filter (fun p => negb ((battle_room_id p =? roomId)%string
                            && (user_id p =? target)%string))
            (participants s) /\
   (forall other, other <> roomId ->
                  participants_of (final out) other = participants_of s other) /\
   forall (r : Room) (prev : option Z) (view : option RoomData),
     host_id r <> target ->
     let seen := mkRoomData r (participants_of (final out) roomId) in
     is_member target (battle_participants seen) = false /\
     exists changes,
       fst (participantsEffect (Some seen) target false prev view)
       = (changes ++ [kicked_notice; OnLeave])%list).
Proof.
  cbv zeta. split; [| split].
  - intros Hhost.
    unfold removeParticipantMutation, useMutation, removeParticipant_mutationFn.
    rewrite Hhost. simpl. repeat split.
  - intros Hhost Hself.
    unfold removeParticipantMutation, useMutation, removeParticipant_mutationFn.
    rewrite Hhost. subst target. rewrite String.eqb_refl.
    simpl. repeat split.
  - intros Hhost Hother Hup.
    assert (Hps : participants
                    (final (run (removeParticipantMutation roomId userId room
                                   cached target) b s))
                  = filter (fun p => negb ((battle_room_id p =? roomId)%string
                                           && (user_id p =? target)%string))
                           (participants s)).
    { unfold removeParticipantMutation, useMutation, removeParticipant_mutationFn.
      rewrite Hhost.
      apply String.eqb_neq in Hother. rewrite Hother. simpl.
      rewrite (delete_participant_applied _ _ _ _ Hup). simpl.
      pose proof (participants_kept _
                    (kick_after_delete_updates_rooms roomId cached)
                    (tl b)
                    (mkStore (rooms s)
                       (filter (fun p => negb ((battle_room_id p =? roomId)%string
                                               && (user_id p =? target)%string))
                               (participants s)))) as Hkept.
      simpl in Hkept. exact Hkept. }
    unfold participants_of. rewrite Hps.
    split; [reflexivity | split].
    + intros other Hne. apply other_rooms_untouched. exact Hne.
    + intros r prev view Hnot.
      pose proof (removed_is_no_member roomId target (participants s)) as Hgone.
      split; [exact Hgone |].
      destruct (participantsEffect_kicked
                  (mkRoomData r
                     (filter (fun p => (battle_room_id p =? roomId)%string)
                        (filter (fun p => negb ((battle_room_id p =? roomId)%string
                                                && (user_id p =? target)%string))
                                (participants s))))
                  target false prev view) as [changes [Heq _]].
      exists changes. rewrite Heq.
      change (battle_participants
                (mkRoomData r
                   (filter (fun p => (battle_room_id p =? roomId)%string)
                      (filter (fun p => negb ((battle_room_id p =? roomId)%string
                                              && (user_id p =? target)%string))
                              (participants s)))))
        with (filter (fun p => (battle_room_id p =? roomId)%string)
                (filter (fun p => negb ((battle_room_id p =? roomId)%string
                                        && (user_id p =? target)%string))
                        (participants s))).
      rewrite Hgone.
      apply String.eqb_neq in Hnot. simpl. rewrite Hnot. reflexivity.
Qed.

Lemma removeParticipant_removes_target_witness :
  participants
    (final (run (removeParticipantMutation "R1" "u-hana" (Some duel_full_view)
                   (Some duel_full_view) "u-alice") [quiet] duel_full))
  = filter (fun p => negb ((battle_room_id p =? "R1")%string
                           && (user_id p =? "u-alice")%string))
           (participants duel_full).
Proof.
  apply (removeParticipant_removes_target "R1" "u-hana" "u-alice"
           (Some duel_full_view) (Some duel_full_view) [quiet] duel_full).
  - reflexivity.
  - intros H. discriminate H.
  - reflexivity.
Defined.

(* ================================================================== *)
(** * The host stays among the participants *)

Lemma filter_keyed (l : list Room) (r : Room) :
  NoDup (map id l) -> In r l ->
  filter (fun x => (id x =? id r)%string) l = [r].
Proof.
  induction l as [| x l IH]; simpl; intros Hnd Hr; [contradiction |].
  inversion Hnd as [| ? ? Hx Hl]; subst.
  destruct Hr as [Hr | Hr].
  - subst x. rewrite String.eqb_refl. f_equal.
    clear IH Hnd Hl. induction l as [| y l IH]; simpl; [reflexivity |].
    destruct (id y =? id r)%string eqn:E.
    + apply String.eqb_eq in E. exfalso. apply Hx. left. exact E.
    + apply IH. intros H. apply Hx. right. exact H.
  - destruct (id x =? id r)%string eqn:E.
    + apply String.eqb_eq in E. exfalso. apply Hx. rewrite E.
      apply in_map. exact Hr.
    + exact (IH Hl Hr).
Qed.

(** In a store without duplicate room ids a fetch by id finds the room,
    with its participants of the moment. *)
Lemma snapshot_fresh (s : Store) (r : Room) :
  keyed s -> In r (rooms s) -> snapshot s (id r) = Some (with_participants s r).
Proof.
  intros Hk Hr. unfold snapshot, answer. simpl.
  rewrite (filter_keyed _ _ Hk Hr). reflexivity.
Qed.

Lemma update_answer (rid : string) (p : Patch) (t : Tick) (s : Store) :
  fault t = None ->
  answer (UpdateRoom rid p) t s
  = (mkStore (map (fun r => if (id r =? rid)%string then apply_patch p r else r)
                  (rooms s))
             (participants s), inr tt).
Proof. intros H. unfold answer. rewrite H. reflexivity. Qed.

Lemma rows_after_leave (rid u : string) (ps : list Participant) :
  filter (fun p => (battle_room_id p =? rid)%string)
    (filter (fun p => negb ((battle_room_id p =? rid)%string
                            && (user_id p =? u)%string)) ps)
  = filter (fun p => negb (user_id p =? u)%string)
      (filter (fun p => (battle_room_id p =? rid)%string) ps).
Proof.
  induction ps as [| p ps IH]; simpl; [reflexivity |].
  destruct (battle_room_id p =? rid)%string eqn:Er; simpl.
  - destruct (user_id p =? u)%string; simpl; rewrite ?Er, IH; reflexivity.
  - rewrite Er. exact IH.
Qed.

Lemma is_member_In (p : Participant) (l : list Participant) :
  In p l -> is_member (user_id p) l = true.
Proof.
  intros Hp. unfold is_member. apply existsb_exists. exists p.
  split; [exact Hp | apply String.eqb_refl].
Qed.

Lemma is_member_filter_other (u v : string) (l : list Participant) :
  u <> v ->
  is_member u (filter (fun p => negb (user_id p =? v)%string) l) = is_member u l.
Proof.
  intros Hne. unfold is_member. induction l as [| p l IH]; simpl; [reflexivity |].
  destruct (user_id p =? v)%string eqn:Ev; simpl.
  - apply String.eqb_eq in Ev.
    assert (Eu : (user_id p =? u)%string = false)
      by (apply String.eqb_neq; congruence).
    rewrite Eu. exact IH.
  - rewrite IH. reflexivity.
Qed.

Lemma host_among_kept (roomId : string) (Good : string -> Prop)
  (ps : list Participant) (R : Type) (q : Query R) (t : Tick) (s : Store) :
  keeps_host_and_rows R q ->
  host_among roomId Good ps s -> host_among roomId Good ps (fst (answer q t s)).
Proof.
  intros [Hh Hu] [Hps Hg]. unfold answer. destruct (fault t); [split; assumption |].
  destruct q; simpl in *; try contradiction; try (split; assumption).
  split; [exact Hps |]. intros x Hx Hid.
  apply in_map_iff in Hx. destruct Hx as [x0 [Hx0 Hin]].
  destruct (id x0 =? _)%string; subst x.
  - unfold apply_patch in *. simpl in *. rewrite Hh. simpl.
    apply (Hg x0 Hin Hid).
  - apply (Hg x0 Hin Hid).
Qed.

Lemma host_among_run {A : Type} (roomId : string) (Good : string -> Prop)
  (ps : list Participant) (m : Prog A) :
  all_calls keeps_host_and_rows m ->
  forall b s, host_among roomId Good ps s ->
              host_among roomId Good ps (final (run m b s)).
Proof.
  intros Hm b s Hs.
  apply (wp_run m (fun _ s' => host_among roomId Good ps s')).
  apply (wp_all_calls (host_among roomId Good ps) keeps_host_and_rows);
    [| exact Hm | exact Hs].
  intros R q t s0. apply host_among_kept.
Qed.

Lemma host_among_present (roomId : string) (Good : string -> Prop)
  (ps : list Participant) (s : Store) :
  host_among roomId Good ps s ->
  (forall h, Good h ->
     filter (fun p => (battle_room_id p =? roomId)%string) ps = []
     \/ is_member h (filter (fun p => (battle_room_id p =? roomId)%string) ps)
        = true) ->
  host_present s roomId.
Proof.
  intros [Hps Hg] Hgood x Hx Hid. unfold participants_of. rewrite Hps.
  apply Hgood. exact (Hg x Hx Hid).
Qed.

Lemma leaveRoom_after_delete (roomId userId : string)
  (room cached : option RoomData) (b : list Tick) (s : Store) :
  fault (hd quiet b) = None ->
  final (run (leaveRoomMutation roomId userId room cached) b s)
  = final (run (catch (leaveRoom_onSuccess roomId userId room cached)
                      leaveRoom_onError)
               (tl b)
               (mkStore (rooms s)
                  (filter (fun p => negb ((battle_room_id p =? roomId)%string
                                          && (user_id p =? userId)%string))
                          (participants s)))).
Proof.
  intros Hup. unfold leaveRoomMutation, useMutation, leaveRoom_mutationFn. simpl.
  rewrite (delete_participant_applied _ _ _ _ Hup). reflexivity.
Qed.

Lemma leaveRoom_rest_keeps_host (roomId : string) (cached : option RoomData)
  (first : Prog unit) :
  silent first ->
  all_calls keeps_host_and_rows
    (catch (first ;;;
            emit (Toast "Left Room" "You have left the battle room.") ;;;
            revertToWaiting roomId cached ;;;
            emit OnLeave)
           leaveRoom_onError).
Proof.
  intros Hf. induction first as [[] | e | u k IH | R q k IH]; simpl in *.
  - unfold revertToWaiting, keeps_host_and_rows. paths.
  - exact I.
  - apply IH. exact Hf.
  - contradiction.
Qed.

Lemma run_call_first {R : Type} (q : Query R) (k : PgError + R -> Prog unit)
  (rest : Prog unit) (h : Err -> Prog unit) (b : list Tick) (s : Store) :
  final (run (catch (Call q k ;;; rest) h) b s)
  = final (run (catch (k (snd (answer q (hd quiet b) s)) ;;; rest) h)
               (tl b) (fst (answer q (hd quiet b) s))).
Proof. simpl. destruct (answer q (hd quiet b) s). reflexivity. Qed.

(** X9: the host stays among the participants.  In a store without
    duplicate room ids, take a room whose host has a participant row
    (or that has no rows at all).  After a leave that works from a
    fresh snapshot and whose delete and host update are applied, the
    same holds again: the room is empty, or its host is one of the
    remaining participants. *)
Theorem leaveRoom_keeps_host_present (userId : string) (r : Room)
  (cached : option RoomData) (b : list Tick) (s : Store)
  (Hk : keyed s) (Hr : In r (rooms s))
  (Hhost : host_present s (id r))
  (Hdel : fault (hd quiet b) = None)
  (Hupd : fault (hd quiet (tl b)) = None) :
  host_present
    (final (run (leaveRoomMutation (id r) userId (snapshot s (id r)) cached) b s))
    (id r).
Proof.
  rewrite (snapshot_fresh s r Hk Hr).
  rewrite (leaveRoom_after_delete _ _ _ _ _ _ Hdel).
  pose proof (rows_after_leave (id r) userId (participants s)) as Hrem.
  set (ps1 := filter (fun p => negb ((battle_room_id p =? id r)%string
                                     && (user_id p =? userId)%string))
                     (participants s)) in *.
  change (filter (fun p => negb (user_id p =? userId)%string)
            (filter (fun p => (battle_room_id p =? id r)%string) (participants s)))
    with (remainingParticipants (with_participants s r) userId) in Hrem.
  unfold leaveRoom_onSuccess.
  destruct (host_id r =? userId)%string eqn:Eh.
  - destruct (newHost (with_participants s r) userId) as [h |] eqn:En.
    + assert (Ht : transferHost (id r) userId (Some (with_participants s r))
                   = Call (UpdateRoom (id r) (host_patch (user_id h)))
                       (fun e => match e with
                                 | inl _ => emit (Toast "Host Transfer Failed"
                                                "Could not transfer host privileges.")
                                 | inr _ => emit (Toast "Host Changed"
                                                (username h ++ " is now the host."))
                                 end)).
      { unfold transferHost. simpl. rewrite Eh, En. reflexivity. }
      rewrite Ht, run_call_first, (update_answer _ _ _ _ Hupd).
      cbv beta iota delta [fst snd].
      apply (host_among_present (id r) (fun u => u = user_id h) ps1).
      * apply host_among_run.
        -- apply (leaveRoom_rest_keeps_host (id r) cached
                    (emit (Toast "Host Changed" (username h ++ " is now the host.")))).
           exact I.
        -- split; [reflexivity |]. simpl. intros x Hx Hid.
           apply in_map_iff in Hx. destruct Hx as [x0 [Hx0 _]].
           destruct (id x0 =? id r)%string eqn:E; subst x; [reflexivity |].
           apply String.eqb_neq in E. contradiction.
      * intros u Hu. subst u. right. rewrite Hrem.
        apply is_member_In. unfold newHost in En.
        apply (sort_by_created_at_head _ _ En).
    + assert (Ht : transferHost (id r) userId (Some (with_participants s r)) = Ret tt).
      { unfold transferHost. simpl. rewrite Eh, En. reflexivity. }
      rewrite Ht.
      apply (host_among_present (id r) (fun _ => True) ps1).
      * apply host_among_run.
        -- apply (leaveRoom_rest_keeps_host (id r) cached (Ret tt)). exact I.
        -- split; [reflexivity | intros; exact I].
      * intros u _. left. rewrite Hrem. unfold newHost in En.
        apply sort_by_created_at_nil.
        destruct (sort_by_created_at (remainingParticipants (with_participants s r) userId));
          [reflexivity | discriminate En].
  - assert (Ht : transferHost (id r) userId (Some (with_participants s r)) = Ret tt).
    { unfold transferHost. simpl. rewrite Eh. reflexivity. }
    rewrite Ht.
    apply (host_among_present (id r) (fun u => u = host_id r) ps1).
    + apply host_among_run.
      * apply (leaveRoom_rest_keeps_host (id r) cached (Ret tt)). exact I.
      * split; [reflexivity |]. simpl. intros x Hx Hid.
        rewrite (keyed_unique _ _ _ Hk Hx Hr Hid). reflexivity.
    + intros u Hu. subst u. rewrite Hrem. unfold remainingParticipants. simpl.
      apply String.eqb_neq in Eh.
      rewrite (is_member_filter_other _ _ _ Eh).
      destruct (Hhost r Hr eq_refl) as [Hnone | Hin].
      * left. rewrite Hnone. reflexivity.
      * right. exact Hin.
Qed.

Lemma leaveRoom_keeps_host_present_witness :
  host_present
    (final (run (leaveRoomMutation "R1" "u-hana" (snapshot duel_full "R1")
                   (snapshot duel_full "R1"))
                [quiet; quiet; quiet] duel_full))
    "R1".
Proof.
  apply (leaveRoom_keeps_host_present "u-hana" duel_full_view
           (snapshot duel_full "R1") [quiet; quiet; quiet] duel_full).
  - unfold keyed. simpl. repeat constructor. intros [].
  - simpl. left. reflexivity.
  - intros x Hx Hid. right. simpl in Hx. destruct Hx as [Hx | []]. subst x.
    reflexivity.
  - reflexivity.
  - reflexivity.
Defined.

(* ================================================================== *)
(** * Host transfer: the update that is sent *)

Lemma transferHost_to (roomId userId : string) (r : RoomData) (h : Participant) :
  host_id r = userId ->
  newHost r userId = Some h ->
  transferHost roomId userId (Some r)
  = (e <- await (UpdateRoom roomId (host_patch (user_id h))) ;;
     match e with
     | inl _ => emit (Toast "Host Transfer Failed"
                            "Could not transfer host privileges.")
     | inr _ => emit (Toast "Host Changed" (username h ++ " is now the host."))
     end)%prog.
Proof.
  intros Hhost Hnew. unfold transferHost.
  apply String.eqb_eq in Hhost. rewrite Hhost, Hnew. reflexivity.
Qed.

Lemma leaveRoom_names_host (roomId userId : string) (r : RoomData)
  (cached : option RoomData) (h : Participant) :
  host_id r = userId ->
  newHost r userId = Some h ->
  all_calls (names_host roomId (user_id h))
            (leaveRoomMutation roomId userId (Some r) cached).
Proof.
  intros Hhost Hnew.
  unfold leaveRoomMutation, useMutation, leaveRoom_mutationFn, leaveRoom_onSuccess.
  rewrite (transferHost_to roomId userId r h Hhost Hnew).
  unfold leaveRoom_onError, revertToWaiting. countdown_paths.
Qed.

(** C3 (amended): when the host leaves and the snapshot shows other
    participants, the leave, once its delete has succeeded, asks for
    one host update, and that update names a remaining participant
    whose join timestamp (in milliseconds) is the earliest.  No other
    request of the leave writes the host column, so when the delete
    and the host update are applied the stored host of the room is
    that participant, whatever the store held and whatever becomes of
    the request that may follow.  The participant named is the same
    for every ordering of the snapshot whenever only one remaining
    participant has that earliest timestamp.  When the snapshot shows
    no other participant, no request of the leave writes the host
    column. *)
Theorem host_passes_to_earliest_remaining (roomId userId : string)
  (r : RoomData) (cached : option RoomData)
  (Hhost : host_id r = userId) :
  (remainingParticipants r userId = [] ->
   all_calls leaves_host (leaveRoomMutation roomId userId (Some r) cached)) /\
  (remainingParticipants r userId <> [] ->
   exists h,
     newHost r userId = Some h /\
     In h (remainingParticipants r userId) /\
     (forall p, In p (remainingParticipants r userId) ->
                p_created_at h <= p_created_at p) /\
     leaveRoom_onSuccess roomId userId (Some r) cached
     = (e <- await (UpdateRoom roomId (host_patch (user_id h))) ;;
        match e with
        | inl _ => emit (Toast "Host Transfer Failed"
                               "Could not transfer host privileges.")
        | inr _ => emit (Toast "Host Changed" (username h ++ " is now the host."))
        end ;;;
        emit (Toast "Left Room" "You have left the battle room.") ;;;
        revertToWaiting roomId cached ;;;
        emit OnLeave)%prog /\
     all_calls leaves_host (revertToWaiting roomId cached) /\
     all_calls (names_host roomId (user_id h))
               (leaveRoomMutation roomId userId (Some r) cached) /\
     (forall b s,
        fault (hd quiet b) = None -> fault (hd quiet (tl b)) = None ->
        forall x,
          In x (rooms (final (run (leaveRoomMutation roomId userId (Some r) cached)
                                  b s))) ->
          id x = roomId -> host_id x = user_id h) /\
     (forall r' : RoomData,
         Permutation (battle_participants r) (battle_participants r') ->
         (forall p, In p (remainingParticipants r userId) ->
                    p_created_at p = p_created_at h -> p = h) ->
         newHost r' userId = Some h)).
Proof.
  split.
  - intros Hnone. unfold leaveRoomMutation, useMutation.
    apply all_calls_catch; [| intros e; unfold leaveRoom_onError; paths].
    apply all_calls_bind; [unfold leaveRoom_mutationFn; paths |].
    intros _. unfold leaveRoom_onSuccess.
    rewrite (transferHost_nobody_left _ _ _ Hnone). simpl.
    apply all_calls_bind; [apply revertToWaiting_leaves_host | intros; paths].
  - intros Hsome.
    destruct (sort_by_created_at_some _ Hsome) as [h Hh].
    destruct (sort_by_created_at_head _ _ Hh) as [Hin Hmin].
    exists h.
    split; [exact Hh |]. split; [exact Hin |]. split; [exact Hmin |].
    split; [| split; [| split; [| split]]].
    + unfold leaveRoom_onSuccess.
      rewrite (transferHost_to roomId userId r h Hhost Hh). reflexivity.
    + apply revertToWaiting_leaves_host.
    + exact (leaveRoom_names_host roomId userId r cached h Hhost Hh).
    + intros b s Hdel Hupd x Hx Hid.
      rewrite (leaveRoom_after_delete _ _ _ _ _ _ Hdel) in Hx.
      unfold leaveRoom_onSuccess in Hx.
      rewrite (transferHost_to roomId userId r h Hhost Hh) in Hx.
      change (e <- await (UpdateRoom roomId (host_patch (user_id h))) ;;
              match e with
              | inl _ => emit (Toast "Host Transfer Failed"
                                     "Could not transfer host privileges.")
              | inr _ => emit (Toast "Host Changed"
                                     (username h ++ " is now the host."))
              end)%prog
        with (Call (UpdateRoom roomId (host_patch (user_id h)))
                (fun e => match e with
                          | inl _ => emit (Toast "Host Transfer Failed"
                                             "Could not transfer host privileges.")
                          | inr _ => emit (Toast "Host Changed"
                                             (username h ++ " is now the host."))
                          end)) in Hx.
      rewrite run_call_first, (update_answer _ _ _ _ Hupd) in Hx.
      cbv beta iota delta [fst snd] in Hx.
      pose proof (host_among_run roomId (fun u => u = user_id h)
                    (filter (fun p => negb ((battle_room_id p =? roomId)%string
                                            && (user_id p =? userId)%string))
                            (participants s))
                    _
                    (leaveRoom_rest_keeps_host roomId cached
                       (emit (Toast "Host Changed"
                                    (username h ++ " is now the host.")))
                       I)) as Hrun.
      refine (proj2 (Hrun _ _ _) x Hx Hid).
      split; [reflexivity |]. simpl. intros y Hy Hyid.
      apply in_map_iff in Hy. destruct Hy as [y0 [Hy0 _]].
      destruct (id y0 =? roomId)%string eqn:E; subst y; [reflexivity |].
      apply String.eqb_neq in E. contradiction.
    + intros r' HP Huniq.
      assert (Hin' : In h (remainingParticipants r' userId))
        by exact (remaining_permuted _ _ _ _ HP Hin).
      assert (Hsome' : remainingParticipants r' userId <> [])
        by (intros E; rewrite E in Hin'; exact Hin').
      destruct (sort_by_created_at_some _ Hsome') as [h' Hh'].
      destruct (sort_by_created_at_head _ _ Hh') as [Hback Hmin'].
      apply (remaining_permuted _ _ userId _ (Permutation_sym HP)) in Hback.
      assert (h' = h) by (apply Huniq; [exact Hback |];
                          specialize (Hmin _ Hback); specialize (Hmin' _ Hin'); lia).
      subst h'. exact Hh'.
Qed.

Lemma host_passes_to_earliest_remaining_witness :
  exists h,
    newHost duel_full_view "u-hana" = Some h /\
    all_calls (names_host "R1" (user_id h))
              (leaveRoomMutation "R1" "u-hana" (Some duel_full_view) None) /\
    map host_id
        (rooms (final (run (leaveRoomMutation "R1" "u-hana" (Some duel_full_view)
                              None)
                           [quiet; quiet] duel_full)))
    = [user_id h].
Proof.
  destruct (proj2 (host_passes_to_earliest_remaining "R1" "u-hana" duel_full_view
                     None eq_refl))
    as [h [Hnew [_ [_ [_ [_ [Hcalls _]]]]]]].
  - discriminate.
  - exists h. split; [exact Hnew | split; [exact Hcalls |]].
    injection Hnew as Hnew. subst h. reflexivity.
Defined.

(* ================================================================== *)
(** * Back to waiting *)

(** X10: the last step of a leave and of a kick.  Seen from a cached
    room in progress that holds no more players than its capacity, the
    step asks for the room to go back to waiting, also when the room is
    full before the removal; its inner test of the new count never
    fails.  An applied request puts the room in waiting with no
    countdown start and touches no participant row.  From any other
    cached room the step sends nothing. *)
Theorem revertToWaiting_condition (roomId : string) (u : RoomData) :
  (status u = in_progress -> currentPlayers u <= max_players u ->
   revertToWaiting roomId (Some u)
   = (_ <- await (UpdateRoom roomId waiting_patch) ;; Ret tt)%prog /\
   forall b s, fault (hd quiet b) = None ->
     let out := run (revertToWaiting roomId (Some u)) b s in
     participants (final out) = participants s /\
     forall x, In x (rooms (final out)) -> id x = roomId ->
               status x = waiting /\ countdown_initiated_at x = None) /\
  (status u <> in_progress \/ max_players u < currentPlayers u ->
   revertToWaiting roomId (Some u) = Ret tt).
Proof.
  split.
  - intros Hst Hcap.
    assert (Heq : revertToWaiting roomId (Some u)
                  = (_ <- await (UpdateRoom roomId waiting_patch) ;; Ret tt)%prog).
    { unfold revertToWaiting. rewrite Hst. simpl.
      apply Z.leb_le in Hcap. rewrite Hcap.
      apply Z.leb_le in Hcap.
      assert (Hlt : (currentPlayers u - 1 <? max_players u) = true)
        by (apply Z.ltb_lt; lia).
      rewrite Hlt. reflexivity. }
    split; [exact Heq |].
    intros b s Hup. cbv zeta. rewrite Heq. simpl.
    rewrite (update_answer _ _ _ _ Hup). simpl.
    split; [reflexivity |]. intros x Hx Hid.
    apply in_map_iff in Hx. destruct Hx as [x0 [Hx0 _]].
    destruct (id x0 =? roomId)%string eqn:E; subst x.
    + split; reflexivity.
    + apply String.eqb_neq in E. contradiction.
  - intros H. unfold revertToWaiting.
    destruct (Status_eqb (status u) in_progress) eqn:Es; simpl; [| reflexivity].
    destruct (currentPlayers u <=? max_players u) eqn:Ec; [| reflexivity].
    exfalso. destruct H as [H | H].
    + apply H. apply Status_eqb_eq. exact Es.
    + apply Z.leb_le in Ec. lia.
Qed.

Lemma revertToWaiting_condition_witness :
  revertToWaiting "R9" (snapshot arena_running "R9")
  = (_ <- await (UpdateRoom "R9" waiting_patch) ;; Ret tt)%prog.
Proof.
  change (snapshot arena_running "R9")
    with (Some (with_participants arena_running
                  (hd (row duel_full_view) (rooms arena_running)))).
  refine (proj1 (proj1 (revertToWaiting_condition "R9" _) _ _)).
  - reflexivity.
  - vm_compute. discriminate.
Defined.

(* ================================================================== *)
(** * Join and leave notices *)

Lemma find_absent_none (l l' : list Participant) :
  (forall p, In p l' -> In p l) ->
  find (fun p => negb (is_member (user_id p) l)) l' = None.
Proof.
  induction l' as [| x l' IH]; simpl; intros Hsub; [reflexivity |].
  rewrite (is_member_In x l (Hsub x (or_introl eq_refl))). simpl.
  apply IH. intros p Hp. apply Hsub. right. exact Hp.
Qed.

(** X11: the join and leave notices compare the snapshot with the query
    cache.  When the cache holds the very snapshot the effect runs for,
    no "Player Joined!" and no "Player Left" notice is shown, whatever
    the count remembered from the run before; all that is left of the
    effect is the kicked notice and the new remembered count. *)
Theorem participantsEffect_own_cache (r : RoomData) (userId : string)
  (isLeaving : bool) (prev : option Z) :
  participantsEffect (Some r) userId isLeaving prev (Some r)
  = (if negb (is_member userId (battle_participants r))
        && negb (host_id r =? userId)%string && negb isLeaving
     then [kicked_notice; OnLeave] else [],
     Some (currentPlayers r)).
Proof.
  unfold participantsEffect. simpl.
  rewrite (find_absent_none (battle_participants r) (battle_participants r)
             (fun p H => H)).
  destruct prev as [n |]; [| reflexivity].
  destruct (n =? currentPlayers r); [reflexivity |].
  destruct (currentPlayers r >? n); reflexivity.
Qed.

(* ================================================================== *)
(** * The ping *)

Lemma same_countdown_refl (a : option Z) : same_countdown a a = true.
Proof. destruct a as [x |]; simpl; [apply Z.eqb_refl | reflexivity]. Qed.

Lemma same_sender_refl (a : option string) : same_sender a a = true.
Proof. destruct a as [x |]; simpl; [apply String.eqb_refl | reflexivity]. Qed.

(** X12: the ping notice is shown once.  Run again on the same
    snapshot, with the references the first run has left, the host ping
    effect shows nothing and leaves the references as they are; and a
    client that is not the host of its snapshot is shown nothing and
    keeps its references. *)
Theorem hostPingEffect_once (room : option RoomData) (userId : string)
  (prevAt : option Z) (prevSender : option string) :
  let refs := snd (hostPingEffect room userId prevAt prevSender) in
  hostPingEffect room userId (fst refs) (snd refs) = ([], refs) /\
  (is_host room userId = false ->
   hostPingEffect room userId prevAt prevSender = ([], (prevAt, prevSender))).
Proof.
  cbv zeta. unfold hostPingEffect, is_host. destruct room as [r |].
  - destruct (host_id r =? userId)%string; simpl.
    + rewrite same_countdown_refl, same_sender_refl. simpl.
      rewrite andb_false_r. split; [reflexivity | discriminate].
    + split; reflexivity.
  - split; reflexivity.
Qed.

Lemma hostPingEffect_once_witness :
  hostPingEffect (Some duel_full_view) "u-alice" (Some 5) None
  = ([], (Some 5, None)).
Proof.
  apply (hostPingEffect_once (Some duel_full_view) "u-alice" (Some 5) None).
  reflexivity.
Defined.

Lemma or_else_present (x b : string) : x <> "" -> or_else (Some x) b = x.
Proof.
  intros Hx. unfold or_else. apply String.eqb_neq in Hx. rewrite Hx. reflexivity.
Qed.

(** X13: from the bell to the host's notice.  A participant who is not
    the host of a waiting free-for-all room sends one update, which
    stores the time of the ping, the sender and the sender's name: the
    username of the sender's row in the snapshot, or "A participant"
    without one.  On the room as stored by the applied update, the
    host's client, unless it remembers a ping of that very time and
    sender, shows "<name> wants to start the battle!". *)
Theorem ping_reaches_host (roomId userId : string) (r : RoomData) (now : Z)
  (t : Tick) (s : Store)
  (Hguest : host_id r <> userId)
  (Hffa : battle_type r = Bffa)
  (Hwaiting : status r = waiting)
  (Hup : fault t = None) :
  let name := or_else (option_map username
                         (find (fun p => user_id p =? userId)%string
                               (battle_participants r)))
                      "A participant" in
  let stored := fst (answer (UpdateRoom roomId (ping_patch now userId name)) t s) in
  pingHost_mutationFn roomId userId (Some r) now
  = (e <- await (UpdateRoom roomId (ping_patch now userId name)) ;;
     match e with
     | inl error => Throw (PgErr error)
     | inr _ => Ret tt
     end)%prog /\
  forall x, In x (rooms stored) -> id x = roomId ->
    forall (ps : list Participant) (prevAt : option Z) (prevSender : option string),
      prevAt <> Some now \/ prevSender <> Some userId ->
      hostPingEffect (Some (mkRoomData x ps)) (host_id x) prevAt prevSender
      = ([Toast "Ping Received!" (name ++ " wants to start the battle!")],
         (Some now, Some userId)).
Proof.
  cbv zeta. split.
  - unfold pingHost_mutationFn. apply String.eqb_neq in Hguest.
    rewrite Hguest, Hffa, Hwaiting. reflexivity.
  - assert (Hname : or_else (option_map username
                               (find (fun p => user_id p =? userId)%string
                                     (battle_participants r)))
                            "A participant" <> "")
      by (apply or_else_nonempty; discriminate).
    set (name := or_else (option_map username
                            (find (fun p => user_id p =? userId)%string
                                  (battle_participants r)))
                         "A participant") in *.
    intros x Hx Hid ps prevAt prevSender Hnew.
    rewrite (update_applied _ _ _ _ Hup) in Hx. simpl in Hx.
    apply in_map_iff in Hx. destruct Hx as [x0 [Hx0 _]].
    destruct (id x0 =? roomId)%string eqn:E.
    + subst x. unfold hostPingEffect, ping_notice.
      apply String.eqb_neq in Hname.
      cbn [row host_id host_ping_requested_at last_ping_sender_id
           last_ping_sender_username apply_patch ping_patch keep
           set_host_id set_host_ping_requested_at set_last_ping_sender_id
           set_last_ping_sender_username is_some or_else negb andb].
      rewrite String.eqb_refl, Hname.
      cbn [negb andb].
      assert (Hseen : negb (same_countdown (Some now) prevAt)
                      || negb (same_sender (Some userId) prevSender) = true).
      { destruct Hnew as [Hnew | Hnew].
        - destruct prevAt as [a |]; simpl; [| reflexivity].
          destruct (now =? a) eqn:Ea; [| reflexivity].
          apply Z.eqb_eq in Ea. subst a. contradiction.
        - apply orb_true_iff. right.
          destruct prevSender as [a |]; simpl; [| reflexivity].
          destruct (userId =? a)%string eqn:Ea; [| reflexivity].
          apply String.eqb_eq in Ea. subst a. contradiction. }
      rewrite Hseen. reflexivity.
    + subst x. apply String.eqb_neq in E. contradiction.
Qed.

Lemma ping_reaches_host_witness :
  pingHost_mutationFn "R9" "u-alice" (snapshot arena_open "R9") 7000
  = (e <- await (UpdateRoom "R9" (ping_patch 7000 "u-alice" "Alice")) ;;
     match e with
     | inl error => Throw (PgErr error)
     | inr _ => Ret tt
     end)%prog.
Proof.
  change (snapshot arena_open "R9")
    with (Some (with_participants arena_open
                  (hd (row duel_full_view) (rooms arena_open)))).
  refine (proj1 (ping_reaches_host "R9" "u-alice" _ 7000 quiet arena_open _ _ _ _)).
  - discriminate.
  - reflexivity.
  - reflexivity.
  - reflexivity.
Defined.

(* ================================================================== *)
(** * The buttons and the checks of their mutations *)

(** X14: a button that is rendered passes the checks of the mutation it
    triggers.  With the snapshot the button was rendered from, the
    click on the start button, on the bell and on the remove button
    each goes straight to its request: none of the mutation's own
    refusals can be what the click is answered with. *)
Theorem rendered_buttons_pass_checks (roomId userId : string) (r : RoomData)
  (participant : Participant) (now : Z) :
  (startButtonRendered r userId = true ->
   startBattle_mutationFn roomId userId (Some r) now
   = (e <- await (UpdateRoom roomId (countdown_patch now)) ;;
      match e with
      | inl error => Throw (PgErr error)
      | inr _ => Ret tt
      end)%prog) /\
  (pingButtonRendered r userId participant = true ->
   exists name,
     pingHost_mutationFn roomId userId (Some r) now
     = (e <- await (UpdateRoom roomId (ping_patch now userId name)) ;;
        match e with
        | inl error => Throw (PgErr error)
        | inr _ => Ret tt
        end)%prog) /\
  (removeButtonRendered r userId participant = true ->
   removeParticipant_mutationFn roomId userId (Some r) (user_id participant)
   = (e <- await (DeleteParticipant roomId (user_id participant)) ;;
      match e with
      | inl error => Throw (PgErr error)
      | inr _ => Ret tt
      end)%prog).
Proof.
  split; [| split].
  - unfold startButtonRendered, startBattle_mutationFn. intros H.
    repeat (apply andb_true_iff in H; destruct H as [H ?]).
    rewrite H. simpl.
    repeat match goal with E : _ = true |- _ => rewrite E; clear E end.
    reflexivity.
  - unfold pingButtonRendered, pingHost_mutationFn. intros H.
    repeat (apply andb_true_iff in H; destruct H as [H ?]).
    apply negb_true_iff in H. rewrite H.
    repeat match goal with E : _ = true |- _ => rewrite E; clear E end.
    eexists. reflexivity.
  - unfold removeButtonRendered, removeParticipant_mutationFn, is_host. intros H.
    apply andb_true_iff in H. destruct H as [H1 H2].
    apply negb_true_iff in H2. rewrite H1, H2. reflexivity.
Qed.

Lemma rendered_buttons_pass_checks_witness :
  removeParticipant_mutationFn "R1" "u-hana" (Some duel_full_view) "u-alice"
  = (e <- await (DeleteParticipant "R1" "u-alice") ;;
     match e with
     | inl error => Throw (PgErr error)
     | inr _ => Ret tt
     end)%prog.
Proof.
  refine (proj2 (proj2 (rendered_buttons_pass_checks "R1" "u-hana" duel_full_view
                          (mkParticipant "P2" "R1" "u-alice" "Alice" 2000) 0)) _).
  reflexivity.
Defined.

(* ================================================================== *)
(** * A stored countdown start *)

Lemma countdownEffect_stored (roomId : string) (r : RoomData)
  (countdown : option Z) (timerRunning : bool) (now start : Z) :
  status r = waiting ->
  countdown_initiated_at r = Some start ->
  countdownEffect roomId (Some r) countdown timerRunning now
  = (let remaining :=
       Z.max 0 (initialCountdownDuration r - (now - start) / 1000) in
     when timerRunning (emit ClearInterval) ;;;
     when (negb (same_countdown countdown (Some remaining)))
          (emit (SetCountdown (Some remaining))) ;;;
     if remaining <=? 0 then updateStatus roomId else emit SetInterval)%prog.
Proof.
  intros Hw Hs. unfold countdownEffect, calculatedTimeRemaining.
  rewrite Hw, Hs. simpl. rewrite orb_true_r. reflexivity.
Qed.

Lemma countdownEffect_expired_final (roomId : string) (r : RoomData)
  (countdown : option Z) (timerRunning : bool) (now start : Z)
  (b : list Tick) (s : Store) :
  status r = waiting ->
  countdown_initiated_at r = Some start ->
  initialCountdownDuration r <= (now - start) / 1000 ->
  final (run (countdownEffect roomId (Some r) countdown timerRunning now) b s)
  = fst (answer (UpdateRoom roomId start_patch) (hd quiet b) s).
Proof.
  intros Hw Hs Hlate. rewrite (countdownEffect_stored _ _ _ _ _ _ Hw Hs).
  cbv zeta.
  replace (Z.max 0 (initialCountdownDuration r - (now - start) / 1000))
    with 0 by lia.
  unfold updateStatus.
  destruct timerRunning, (same_countdown countdown (Some 0)); simpl;
    destruct (answer (UpdateRoom roomId start_patch) (hd quiet b) s) as [s' [e | []]];
    reflexivity.
Qed.

(** X15: the countdown effect on a waiting room with a stored countdown
    start.  Once the whole seconds since the stored start reach the
    duration (5 for a duel, 10 otherwise), the effect asks for the
    battle to start, and an applied request leaves the room in progress
    with no countdown start.  Before that, the effect sends nothing: it
    shows the seconds that remain and sets the interval. *)
Theorem stored_countdown_expiry (roomId : string) (r : RoomData)
  (countdown : option Z) (timerRunning : bool) (now start : Z)
  (Hw : status r = waiting)
  (Hs : countdown_initiated_at r = Some start) :
  let elapsed := (now - start) / 1000 in
  let duration := initialCountdownDuration r in
  let effect := countdownEffect roomId (Some r) countdown timerRunning now in
  (duration <= elapsed ->
   forall b s, fault (hd quiet b) = None ->
     forall x, In x (rooms (final (run effect b s))) -> id x = roomId ->
               status x = in_progress /\ countdown_initiated_at x = None) /\
  (elapsed < duration ->
   silent effect /\
   forall b s,
     log (run effect b s)
     = ((if timerRunning then [ClearInterval] else [])
        ++ (if same_countdown countdown (Some (duration - elapsed)) then []
            else [SetCountdown (Some (duration - elapsed))])
        ++ [SetInterval])%list).
Proof.
  cbv zeta. split.
  - intros Hlate b s Hup x Hx Hid.
    rewrite (countdownEffect_expired_final _ _ _ _ _ _ _ _ Hw Hs Hlate) in Hx.
    exact (start_write_lands roomId (hd quiet b) s Hup x Hx Hid).
  - intros Hearly. rewrite (countdownEffect_stored _ _ _ _ _ _ Hw Hs).
    cbv zeta.
    replace (Z.max 0 (initialCountdownDuration r - (now - start) / 1000))
      with (initialCountdownDuration r - (now - start) / 1000) by lia.
    replace (initialCountdownDuration r - (now - start) / 1000 <=? 0)
      with false by (symmetry; apply Z.leb_gt; lia).
    split.
    + destruct timerRunning,
        (same_countdown countdown
           (Some (initialCountdownDuration r - (now - start) / 1000)));
        simpl; exact I.
    + intros b s.
      destruct timerRunning,
        (same_countdown countdown
           (Some (initialCountdownDuration r - (now - start) / 1000)));
        reflexivity.
Qed.

Lemma stored_countdown_expiry_witness :
  silent (countdownEffect "R5" (Some (mkRoomData counting_room [])) None false 3500).
Proof.
  refine (proj1 (proj2 (stored_countdown_expiry "R5" (mkRoomData counting_room [])
                          None false 3500 0 _ _) _)).
  - reflexivity.
  - reflexivity.
  - reflexivity.
Defined.

(** X16: from the start button to the battle.  In a store without
    duplicate room ids, the host of a waiting free-for-all room starts
    the countdown from a fresh snapshot, and the update is applied: the
    room stays waiting, with the time of the click as its countdown
    start.  Any client whose countdown effect then runs on a fresh
    snapshot ten seconds later or more, and whose update is applied,
    leaves the room in progress with no countdown start; no
    participant row changes on the way. *)
Theorem manual_start_then_expiry (userId : string) (r : Room) (now later : Z)
  (countdown : option Z) (timerRunning : bool) (t1 t2 : Tick) (s : Store)
  (Hk : keyed s) (Hr : In r (rooms s))
  (Hhost : host_id r = userId)
  (Hffa : battle_type r = Bffa)
  (Hw : status r = waiting)
  (H1 : fault t1 = None) (H2 : fault t2 = None)
  (Hlate : now + 10000 <= later) :
  let s1 := final (run (startBattleMutation (id r) userId (snapshot s (id r)) now)
                       [t1] s) in
  let s2 := final (run (countdownEffect (id r) (snapshot s1 (id r)) countdown
                          timerRunning later)
                       [t2] s1) in
  (forall x, In x (rooms s1) -> id x = id r ->
             status x = waiting /\ countdown_initiated_at x = Some now) /\
  (forall x, In x (rooms s2) -> id x = id r ->
             status x = in_progress /\ countdown_initiated_at x = None) /\
  participants s2 = participants s.
Proof.
  cbv zeta.
  assert (Hs1 : final (run (startBattleMutation (id r) userId (snapshot s (id r)) now)
                           [t1] s)
                = mkStore (map (fun x => if (id x =? id r)%string
                                         then apply_patch (countdown_patch now) x
                                         else x) (rooms s))
                          (participants s)).
  { rewrite (snapshot_fresh s r Hk Hr).
    unfold startBattleMutation, useMutation, startBattle_mutationFn.
    simpl. rewrite Hhost, String.eqb_refl, Hffa, Hw. simpl.
    rewrite (update_answer _ _ _ _ H1). reflexivity. }
  rewrite Hs1.
  set (s1 := mkStore (map (fun x => if (id x =? id r)%string
                                    then apply_patch (countdown_patch now) x
                                    else x) (rooms s))
                     (participants s)).
  set (r1 := apply_patch (countdown_patch now) r).
  assert (Hk1 : keyed s1).
  { unfold keyed, s1. simpl. rewrite map_id_update. exact Hk. }
  assert (Hr1 : In r1 (rooms s1)).
  { unfold s1. simpl. apply in_map_iff. exists r. split; [| exact Hr].
    rewrite String.eqb_refl. reflexivity. }
  assert (Hfirst : forall x, In x (rooms s1) -> id x = id r ->
                             status x = waiting /\ countdown_initiated_at x = Some now).
  { intros x Hx Hid. unfold s1 in Hx. simpl in Hx.
    apply in_map_iff in Hx. destruct Hx as [x0 [Hx0 Hin]].
    destruct (id x0 =? id r)%string eqn:E.
    - apply String.eqb_eq in E.
      rewrite (keyed_unique _ _ _ Hk Hin Hr E) in Hx0. subst x.
      simpl. split; [exact Hw | reflexivity].
    - subst x. apply String.eqb_neq in E. contradiction. }
  split; [exact Hfirst |].
  assert (Hsnap : snapshot s1 (id r) = Some (with_participants s1 r1))
    by exact (snapshot_fresh s1 r1 Hk1 Hr1).
  rewrite Hsnap.
  assert (Hfinal : final (run (countdownEffect (id r) (Some (with_participants s1 r1))
                                 countdown timerRunning later) [t2] s1)
                   = fst (answer (UpdateRoom (id r) start_patch) t2 s1)).
  { apply (countdownEffect_expired_final (id r) (with_participants s1 r1)
             countdown timerRunning later now [t2] s1).
    - exact Hw.
    - reflexivity.
    - unfold initialCountdownDuration. simpl. rewrite Hffa. simpl.
      apply Z.div_le_lower_bound; lia. }
  rewrite Hfinal. split.
  - intros x Hx Hid. exact (start_write_lands (id r) t2 s1 H2 x Hx Hid).
  - rewrite (update_applied _ _ _ _ H2). reflexivity.
Qed.

Lemma manual_start_then_expiry_witness :
  participants arena_running = participants arena_open.
Proof.
  refine (proj2 (proj2 (manual_start_then_expiry "u-hana"
                          (hd (row duel_full_view) (rooms arena_open))
                          50000 60000 None false quiet quiet arena_open
                          _ _ _ _ _ _ _ _))).
  - unfold keyed. simpl. repeat constructor. intros [].
  - simpl. left. reflexivity.
  - reflexivity.
  - reflexivity.
  - reflexivity.
  - reflexivity.
  - reflexivity.
  - discriminate.
Defined.

(* ================================================================== *)
(** * The countdown of a room that has filled up *)

Lemma same_countdown_eq (a b : option Z) : same_countdown a b = true -> a = b.
Proof.
  destruct a as [x |], b as [y |]; simpl; intros H;
    [apply Z.eqb_eq in H; subst; reflexivity | discriminate | discriminate
    | reflexivity].
Qed.

Lemma effectPass_full_room (roomId : string) (r : RoomData) (now : Z)
  (c : option Z) (tk : bool) (s : Store) (b : list Tick) :
  status r = waiting ->
  currentPlayers r = max_players r ->
  countdown_initiated_at r = None ->
  effectPass roomId (Some r) now (mkMounted c tk s b)
  = mkMounted (Some (initialCountdownDuration r)) true s b.
Proof.
  intros Hw Hf Hn. unfold effectPass. simpl.
  rewrite (countdownEffect_full_room _ _ _ _ _ Hw Hf Hn).
  destruct (same_countdown c (Some (initialCountdownDuration r))) eqn:E.
  - apply same_countdown_eq in E. subst c. destruct tk; reflexivity.
  - destruct tk; reflexivity.
Qed.

Lemma effectPasses_full_room (fuel : nat) (roomId : string) (r : RoomData)
  (now : Z) (c : option Z) (tk : bool) (s : Store) (b : list Tick) :
  (1 <= fuel)%nat ->
  status r = waiting ->
  currentPlayers r = max_players r ->
  countdown_initiated_at r = None ->
  effectPasses fuel roomId (Some r) now (mkMounted c tk s b)
  = mkMounted (Some (initialCountdownDuration r)) true s b.
Proof.
  intros Hfuel Hw Hf Hn. destruct fuel as [| fuel]; [lia |].
  cbn [effectPasses]. cbv zeta.
  rewrite (effectPass_full_room _ _ _ _ _ _ _ Hw Hf Hn).
  cbn [shown].
  destruct (same_countdown (Some (initialCountdownDuration r)) c); [reflexivity |].
  destruct fuel as [| fuel]; [reflexivity |].
  cbn [effectPasses]. cbv zeta.
  rewrite (effectPass_full_room _ _ _ _ _ _ _ Hw Hf Hn).
  cbn [shown]. rewrite same_countdown_refl. reflexivity.
Qed.

Lemma second_full_room (fuel : nat) (roomId : string) (r : RoomData)
  (now : Z) (s : Store) (b : list Tick) :
  (1 <= fuel)%nat ->
  status r = waiting ->
  currentPlayers r = max_players r ->
  countdown_initiated_at r = None ->
  second fuel roomId (Some r) now
    (mkMounted (Some (initialCountdownDuration r)) true s b)
  = mkMounted (Some (initialCountdownDuration r)) true s b.
Proof.
  intros Hfuel Hw Hf Hn. unfold second, tickPass, countdownTick. simpl.
  rewrite Hw. simpl.
  pose proof (duration_positive r) as Hpos.
  assert (Hd : initialCountdownDuration r = 5 \/ initialCountdownDuration r = 10)
    by (unfold initialCountdownDuration;
        destruct (BattleType_eqb (battle_type r) B1v1); [left | right]; reflexivity).
  replace (initialCountdownDuration r <=? 1) with false
    by (symmetry; apply Z.leb_gt; lia).
  simpl.
  replace (initialCountdownDuration r - 1 =? initialCountdownDuration r) with false
    by (symmetry; apply Z.eqb_neq; lia).
  apply (effectPasses_full_room fuel roomId r now _ _ s b Hfuel Hw Hf Hn).
Qed.

(** X17: the countdown of a room that has filled up never ends.  For a
    waiting room that is full and has no stored countdown start, the
    first run of the countdown effect shows the full duration and sets
    the interval.  From then on, for as long as the snapshot stays the
    same, every second ends where it began: the interval callback takes
    the countdown one down, the effect runs again on the changed
    countdown and puts it back to the full duration.  Nothing is ever
    sent, and the battle is not started. *)
Theorem full_room_countdown_never_ends (fuel : nat) (roomId : string)
  (r : RoomData) (now : Z) (clock : list Z) (s : Store) (b : list Tick)
  (Hfuel : (1 <= fuel)%nat)
  (Hw : status r = waiting)
  (Hf : currentPlayers r = max_players r)
  (Hn : countdown_initiated_at r = None) :
  let mounted := effectPasses fuel roomId (Some r) now (mkMounted None false s b) in
  mounted = mkMounted (Some (initialCountdownDuration r)) true s b /\
  seconds fuel roomId (Some r) clock mounted = mounted.
Proof.
  cbv zeta.
  rewrite (effectPasses_full_room fuel roomId r now None false s b Hfuel Hw Hf Hn).
  split; [reflexivity |].
  induction clock as [| t clock IH]; simpl; [reflexivity |].
  rewrite (second_full_room fuel roomId r t s b Hfuel Hw Hf Hn). exact IH.
Qed.

Lemma full_room_countdown_never_ends_witness :
  seconds 3 "R1" (Some duel_full_view) [1000; 2000; 3000; 4000; 5000; 6000]
    (effectPasses 3 "R1" (Some duel_full_view) 0 (mkMounted None false duel_full []))
  = mkMounted (Some 5) true duel_full [].
Proof.
  pose proof (full_room_countdown_never_ends 3 "R1" duel_full_view 0
                [1000; 2000; 3000; 4000; 5000; 6000] duel_full []) as H.
  cbv zeta in H. destruct H as [Hm Hs].
  - lia.
  - reflexivity.
  - reflexivity.
  - reflexivity.
  - rewrite Hs. exact Hm.
Defined.

(* ================================================================== *)
(** * Shuffled options *)

Lemma replace_nth_perm {T : Type} (i : nat) (x y : T) (l : list T) :
  nth_error l i = Some x -> Permutation (y :: l) (x :: replace_nth i y l).
Proof.
  revert i. induction l as [| a l IH]; intros [| i]; simpl; intros H;
    try discriminate.
  - injection H as H. subst a. apply perm_swap.
  - eapply perm_trans; [apply perm_swap |].
    eapply perm_trans; [apply perm_skip, (IH i H) |]. apply perm_swap.
Qed.

Lemma nth_error_replace_nth {T : Type} (i j : nat) (x y : T) (l : list T) :
  nth_error l i = Some x -> nth_error l j = Some y ->
  nth_error (replace_nth i y l) j = Some y.
Proof.
  revert i j. induction l as [| a l IH]; intros [| i] [| j]; simpl; intros Hi Hj;
    try discriminate; try reflexivity; try exact Hj.
  exact (IH i j Hi Hj).
Qed.

Lemma swap_perm {T : Type} (i j : nat) (l : list T) : Permutation l (swap i j l).
Proof.
  unfold swap.
  destruct (nth_error l i) as [x |] eqn:Ei; [| apply Permutation_refl].
  destruct (nth_error l j) as [y |] eqn:Ej; [| apply Permutation_refl].
  apply (Permutation_cons_inv (a := y)).
  eapply perm_trans; [apply (replace_nth_perm i x y l Ei) |].
  eapply perm_trans;
    [apply (replace_nth_perm j y x (replace_nth i y l)
              (nth_error_replace_nth i j x y l Ei Ej)) |].
  apply Permutation_refl.
Qed.

Lemma shuffle_from_perm {T : Type} (pick : nat -> nat) (i : nat) (l : list T) :
  Permutation l (shuffle_from pick i l).
Proof.
  revert l. induction i as [| i IH]; intros l; simpl; [apply Permutation_refl |].
  eapply perm_trans; [apply (swap_perm (S i) (pick (S i)) l) | apply IH].
Qed.

(** X18: whatever the random draws, [shuffleArray] returns a
    rearrangement of its argument: every element is kept, as often as
    it occurs, and the length is the same. *)
Theorem shuffleArray_permutes {T : Type} (pick : nat -> nat) (array : list T) :
  Permutation array (shuffleArray pick array) /\
  List.length (shuffleArray pick array) = List.length array.
Proof.
  assert (H : Permutation array (shuffleArray pick array))
    by apply shuffle_from_perm.
  split; [exact H | symmetry; apply (Permutation_length H)].
Qed.

Lemma indexOf_found (x : string) (l : list string) :
  In x l ->
  exists n, indexOf x l = Z.of_nat n /\ nth_error l n = Some x /\
            forall k, (k < n)%nat -> nth_error l k <> Some x.
Proof.
  induction l as [| y l IH]; simpl; intros Hin; [contradiction |].
  destruct (y =? x)%string eqn:E.
  - apply String.eqb_eq in E. subst y. exists O.
    split; [reflexivity | split; [reflexivity |]]. intros k Hk. lia.
  - apply String.eqb_neq in E.
    destruct Hin as [Hin | Hin]; [contradiction |].
    destruct (IH Hin) as [n [Hn [Hnth Hfirst]]].
    exists (S n). rewrite Hn.
    replace (Z.of_nat n <? 0) with false by (symmetry; apply Z.ltb_ge; lia).
    split; [lia | split; [exact Hnth |]].
    intros [| k] Hk; simpl.
    + intros H. injection H as H. contradiction.
    + apply Hfirst. lia.
Qed.

Lemma indexOf_absent (x : string) (l : list string) :
  ~ In x l -> indexOf x l = -1.
Proof.
  induction l as [| y l IH]; simpl; intros Hnot; [reflexivity |].
  destruct (y =? x)%string eqn:E.
  - apply String.eqb_eq in E. exfalso. apply Hnot. left. exact E.
  - rewrite IH; [reflexivity |]. intros H. apply Hnot. right. exact H.
Qed.

(** X19: the index stored with a shuffled question.  When the correct
    answer is one of the options, [originalCorrectIndex] is the first
    position of the correct answer among the shuffled options, not the
    position it had before the shuffle; when it is none of them, the
    index is -1. *)
Theorem shuffleMCQ_index (pick : nat -> nat) (m : MCQ) :
  let shuffled := shuffleMCQ pick m in
  (In (correct_answer m) (options m) ->
   exists n, originalCorrectIndex shuffled = Z.of_nat n /\
             nth_error (shuffledOptions shuffled) n = Some (correct_answer m) /\
             forall k, (k < n)%nat ->
                       nth_error (shuffledOptions shuffled) k
                       <> Some (correct_answer m)) /\
  (~ In (correct_answer m) (options m) -> originalCorrectIndex shuffled = -1).
Proof.
  cbv zeta. unfold shuffleMCQ. simpl.
  pose proof (shuffle_from_perm pick (List.length (options m) - 1) (options m)) as HP.
  fold (shuffleArray pick (options m)) in HP.
  split.
  - intros Hin. apply indexOf_found. exact (Permutation_in _ HP Hin).
  - intros Hnot. apply indexOf_absent. intros H. apply Hnot.
    exact (Permutation_in _ (Permutation_sym HP) H).
Qed.

Lemma shuffleMCQ_index_witness :
  originalCorrectIndex
    (shuffleMCQ (fun i => Nat.div2 i)
       (mkMCQ "q1" "Which chamber pumps blood to the lungs?"
              ["Left atrium"; "Right ventricle"; "Left ventricle"; "Right atrium"]
              "Aorta" None))
  = -1.
Proof.
  refine (proj2 (shuffleMCQ_index (fun i => Nat.div2 i)
                   (mkMCQ "q1" "Which chamber pumps blood to the lungs?"
                      ["Left atrium"; "Right ventricle"; "Left ventricle";
                       "Right atrium"]
                      "Aorta" None)) _).
  simpl. intros [H | [H | [H | [H | []]]]]; discriminate H.
Defined.

(* ================================================================== *)
(** * The ping, refused or sent *)

(** X20: what a ping comes to.  Without a snapshot, from the host, in a
    room that is not free-for-all or not waiting, nothing is sent and
    the notice gives the reason.  Otherwise one update is sent: when it
    fails, the store is unchanged and the notice carries the message of
    the backend; when it is applied, "Ping Sent!" is shown, no
    participant row changes, and in the rooms table nothing changes but
    the three ping columns of that room. *)
Theorem pingHostMutation_outcomes (roomId userId : string)
  (room : option RoomData) (now : Z) (b : list Tick) (s : Store) :
  let out := run (pingHostMutation roomId userId room now) b s in
  let refused (msg : string) :=
    final out = s /\ unused out = b /\
    log out = [Toast "Error Pinging Host" ("Failed to send ping: " ++ msg)] in
  (room = None \/ is_host room userId = true ->
   refused "Invalid action: cannot ping host or not in a room.") /\
  (forall r, room = Some r -> host_id r <> userId ->
     (battle_type r <> Bffa ->
      refused "Pinging host is only available in FFA mode.") /\
     (battle_type r = Bffa -> status r <> waiting ->
      refused "Cannot ping host once battle has started.") /\
     (battle_type r = Bffa -> status r = waiting ->
      (forall e, fault (hd quiet b) = Some e ->
                 final out = s /\
                 log out = [Toast "Error Pinging Host"
                              ("Failed to send ping: " ++ message e)]) /\
      (fault (hd quiet b) = None ->
       log out = [Toast "Ping Sent!" "Host has been notified to start the battle."] /\
       participants (final out) = participants s /\
       map (fun x => (id x, status x, host_id x, countdown_initiated_at x,
                      max_players x, room_code x))
           (rooms (final out))
       = map (fun x => (id x, status x, host_id x, countdown_initiated_at x,
                        max_players x, room_code x))
             (rooms s) /\
       forall x, In x (rooms (final out)) -> id x = roomId ->
                 host_ping_requested_at x = Some now /\
                 last_ping_sender_id x = Some userId))).
Proof.
  cbv zeta. split.
  - intros [Hnone | Hhost].
    + subst room. repeat split.
    + destruct room as [r |]; [| discriminate Hhost]. simpl in Hhost.
      unfold pingHostMutation, useMutation, pingHost_mutationFn.
      rewrite Hhost. repeat split.
  - intros r Hroom Hguest. subst room. apply String.eqb_neq in Hguest.
    unfold pingHostMutation, useMutation, pingHost_mutationFn. rewrite Hguest.
    split; [| split].
    + intros Hnot.
      destruct (BattleType_eqb (battle_type r) Bffa) eqn:E;
        [apply BattleType_eqb_eq in E; contradiction |].
      repeat split.
    + intros Hffa Hnot. rewrite Hffa.
      destruct (Status_eqb (status r) waiting) eqn:E;
        [apply Status_eqb_eq in E; contradiction |].
      repeat split.
    + intros Hffa Hw. rewrite Hffa, Hw. simpl. split.
      * intros e Hdown. rewrite (answer_fault _ _ _ _ Hdown). simpl.
        split; reflexivity.
      * intros Hup. rewrite (update_answer _ _ _ _ Hup). simpl.
        split; [reflexivity | split; [reflexivity | split]].
        -- rewrite map_map. apply map_ext. intros x.
           destruct (id x =? roomId)%string; reflexivity.
        -- intros x Hx Hid. apply in_map_iff in Hx.
           destruct Hx as [x0 [Hx0 _]].
           destruct (id x0 =? roomId)%string eqn:E; subst x.
           ++ split; reflexivity.
           ++ apply String.eqb_neq in E. contradiction.
Qed.

Lemma pingHostMutation_outcomes_witness :
  log (run (pingHostMutation "R9" "u-hana" (snapshot arena_open "R9") 7000)
           [quiet] arena_open)
  = [Toast "Error Pinging Host"
       "Failed to send ping: Invalid action: cannot ping host or not in a room."].
Proof.
  refine (proj2 (proj2 (proj1 (pingHostMutation_outcomes "R9" "u-hana"
                                 (snapshot arena_open "R9") 7000 [quiet] arena_open)
                          _))).
  right. reflexivity.
Defined.

(* ================================================================== *)
(** * Fetching the room *)

Lemma filter_id_none (rid : string) (l : list Room) :
  (forall r, In r l -> id r <> rid) ->
  filter (fun r => (id r =? rid)%string) l = [].
Proof.
  induction l as [| x l IH]; simpl; intros H; [reflexivity |].
  destruct (id x =? rid)%string eqn:E.
  - apply String.eqb_eq in E. exfalso. exact (H x (or_introl eq_refl) E).
  - apply IH. intros r Hr. apply H. right. exact Hr.
Qed.

(** X21: the fetch behind every snapshot.  In a store without duplicate
    room ids an answered fetch changes nothing and shows nothing; for a
    room of the store it returns the room row together with the
    participant rows of that room, and for an id that no room has it
    throws the "no rows" error of the backend. *)
Theorem fetchRoom_result (roomId : string) (b : list Tick) (s : Store)
  (Hk : keyed s) (Hup : fault (hd quiet b) = None) :
  let out := run (fetchRoom roomId) b s in
  final out = s /\ log out = [] /\
  (forall r, In r (rooms s) -> id r = roomId ->
             result out = inr (with_participants s r)) /\
  ((forall r, In r (rooms s) -> id r <> roomId) ->
   result out = inl (PgErr PGRST116)).
Proof.
  cbv zeta. unfold fetchRoom. simpl. unfold answer. rewrite Hup.
  split; [| split; [| split]].
  - destruct (single _) as [e | d]; reflexivity.
  - destruct (single _) as [e | d]; reflexivity.
  - intros r Hr Hid. subst roomId. rewrite (filter_keyed _ _ Hk Hr). reflexivity.
  - intros Hnone. rewrite (filter_id_none _ _ Hnone). reflexivity.
Qed.

Lemma fetchRoom_result_witness :
  result (run (fetchRoom "R1") [quiet] duel_full) = inr duel_full_view.
Proof.
  refine (proj1 (proj2 (proj2 (fetchRoom_result "R1" [quiet] duel_full _ _)))
            duel_full_view _ _).
  - unfold keyed. simpl. repeat constructor. intros [].
  - reflexivity.
  - simpl. left. reflexivity.
  - reflexivity.
Defined.

(* ================================================================== *)
(** * The countdown of a room with a stored start *)

Lemma effectPass_stored (roomId : string) (r : RoomData) (now start : Z)
  (c : option Z) (tk : bool) (s : Store) (b : list Tick) :
  status r = waiting ->
  countdown_initiated_at r = Some start ->
  (now - start) / 1000 < initialCountdownDuration r ->
  effectPass roomId (Some r) now (mkMounted c tk s b)
  = mkMounted (Some (initialCountdownDuration r - (now - start) / 1000)) true s b.
Proof.
  intros Hw Hs Hearly. unfold effectPass. cbn [shown ticking server replies].
  rewrite (countdownEffect_stored _ _ _ _ _ _ Hw Hs). cbv zeta.
  replace (Z.max 0 (initialCountdownDuration r - (now - start) / 1000))
    with (initialCountdownDuration r - (now - start) / 1000) by lia.
  replace (initialCountdownDuration r - (now - start) / 1000 <=? 0)
    with false by (symmetry; apply Z.leb_gt; lia).
  destruct (same_countdown c
              (Some (initialCountdownDuration r - (now - start) / 1000))) eqn:E.
  - apply same_countdown_eq in E. subst c. destruct tk; reflexivity.
  - destruct tk; reflexivity.
Qed.

Lemma tickPass_counting (roomId : string) (r : RoomData) (p : Z)
  (s : Store) (b : list Tick) :
  status r = waiting -> 1 < p ->
  tickPass roomId (Some r) (mkMounted (Some p) true s b)
  = mkMounted (Some (p - 1)) true s b.
Proof.
  intros Hw Hp. unfold tickPass, countdownTick. simpl. rewrite Hw. simpl.
  replace (p <=? 1) with false by (symmetry; apply Z.leb_gt; lia).
  reflexivity.
Qed.

(** X22: with a stored countdown start the countdown shown follows the
    clock.  While the stored countdown has time left, a second that
    starts with more than one second shown ends with the whole seconds
    that remain by the clock, whatever was shown before, with the
    interval set, and with nothing sent. *)
Theorem stored_countdown_follows_clock (fuel : nat) (roomId : string)
  (r : RoomData) (now start p : Z) (s : Store) (b : list Tick)
  (Hfuel : (1 <= fuel)%nat)
  (Hw : status r = waiting)
  (Hs : countdown_initiated_at r = Some start)
  (Hp : 1 < p)
  (Hearly : (now - start) / 1000 < initialCountdownDuration r) :
  second fuel roomId (Some r) now (mkMounted (Some p) true s b)
  = mkMounted (Some (initialCountdownDuration r - (now - start) / 1000)) true s b.
Proof.
  unfold second. rewrite (tickPass_counting _ _ _ _ _ Hw Hp).
  cbn [shown same_countdown].
  replace (p - 1 =? p) with false by (symmetry; apply Z.eqb_neq; lia).
  destruct fuel as [| fuel]; [lia |].
  cbn [effectPasses]. cbv zeta.
  rewrite (effectPass_stored _ _ _ _ _ _ _ _ Hw Hs Hearly). cbn [shown].
  destruct (same_countdown
              (Some (initialCountdownDuration r - (now - start) / 1000))
              (Some (p - 1))); [reflexivity |].
  destruct fuel as [| fuel]; [reflexivity |].
  cbn [effectPasses]. cbv zeta.
  rewrite (effectPass_stored _ _ _ _ _ _ _ _ Hw Hs Hearly). cbn [shown].
  rewrite same_countdown_refl. reflexivity.
Qed.

Lemma stored_countdown_follows_clock_witness :
  second 2 "R5" (Some (mkRoomData counting_room [])) 3500
    (mkMounted (Some 5) true empty_store [])
  = mkMounted (Some 2) true empty_store [].
Proof.
  apply (stored_countdown_follows_clock 2 "R5" (mkRoomData counting_room [])
           3500 0 5 empty_store []).
  - lia.
  - reflexivity.
  - reflexivity.
  - lia.
  - reflexivity.
Defined.
